(** * gdata_array: a worksheet cache over a remote spreadsheet service

    Shallow embedding of [gdata_array.py] (Python 2).  The module keeps a
    local copy of one worksheet (header rows, data rows, list feed) and
    routes every mutation through the remote gdata service.  Python
    objects are modelled as records, exceptions as an error result that
    keeps the state reached so far, and the remote service as an oracle
    that sees the history of the calls made to it. *)

From Stdlib Require Import ZArith String Ascii List Lia Bool.
From stdpp Require Import base option list gmap strings pretty.

Open Scope string_scope.
Open Scope list_scope.
Open Scope Z_scope.

(** ** Exceptions and results *)

Inductive exn : Type :=
| ValueError (msg : string)
| KeyError (msg : string)
| IndexError
| TypeError
| NameError (name : string)
| AttributeError
| ServiceError (code : nat).

Inductive result (A : Type) : Type :=
| Ok (a : A)
| Raise (e : exn).
Arguments Ok {A} a.
Arguments Raise {A} e.

(** ** Python values, lists and ranges *)

(** The values a caller hands to a cell write or to [append]. *)
Inductive PyVal : Type :=
| PNone
| PStr (s : string)
| PInt (z : Z).

(** ["%s" % v] *)
Definition display (v : PyVal) : string :=
  match v with
  | PNone => "None"
  | PStr s => s
  | PInt z => pretty z
  end.

(** A key for [Row.__getitem__]: a column index or a column name. *)
Inductive Key : Type :=
| KInt (z : Z)
| KStr (s : string).

(** Python resolves a list index [i] with [-len <= i < len]. *)
Definition py_index {A} (l : list A) (i : Z) : option nat :=
  let n := Z.of_nat (length l) in
  if (0 <=? i) && (i <? n) then Some (Z.to_nat i)
  else if (- n <=? i) && (i <? 0) then Some (Z.to_nat (n + i))
  else None.

(** [l[i]] *)
Definition list_getitem {A} (l : list A) (i : Z) : result A :=
  match py_index l i with
  | Some k => match l !! k with Some x => Ok x | None => Raise IndexError end
  | None => Raise IndexError
  end.

(** [l[i] = x] *)
Definition list_setitem {A} (l : list A) (i : Z) (x : A) : result (list A) :=
  match py_index l i with
  | Some k => Ok (<[k:=x]> l)
  | None => Raise IndexError
  end.

(** [del l[i]] and the list part of [l.pop(i)] *)
Definition list_delitem {A} (l : list A) (i : Z) : result (list A) :=
  match py_index l i with
  | Some k => Ok (delete k l)
  | None => Raise IndexError
  end.

(** [range(a, b)] of Python 2: the list is built before the loop runs. *)
Definition py_range (a b : Z) : list Z :=
  (fun k : nat => a + Z.of_nat k) <$> seq 0 (Z.to_nat (b - a)).

(** ** Character classes and the regular expressions of the module *)

Definition ascii_in (lo hi c : ascii) : bool :=
  (nat_of_ascii lo <=? nat_of_ascii c)%nat && (nat_of_ascii c <=? nat_of_ascii hi)%nat.

Definition is_digit (c : ascii) : bool := ascii_in "0" "9" c.
Definition is_alpha (c : ascii) : bool := ascii_in "a" "z" c || ascii_in "A" "Z" c.
(** [\w] on a Python 2 byte string *)
Definition is_word (c : ascii) : bool := is_alpha c || is_digit c || Ascii.eqb c "_".
(** the class [a-zA-Z0-9\-] kept by [get_coltags] *)
Definition is_tag_char (c : ascii) : bool := is_alpha c || is_digit c || Ascii.eqb c "-".
Definition is_space (c : ascii) : bool :=
  (Ascii.eqb c " " || ((9 <=? nat_of_ascii c)%nat && (nat_of_ascii c <=? 13)%nat)).

Definition newline : ascii := ascii_of_nat 10.

(** [re.sub(r'[^a-zA-Z0-9\-]', '', s)] *)
Fixpoint strip_tag (s : string) : string :=
  match s with
  | EmptyString => EmptyString
  | String c s' => if is_tag_char c then String c (strip_tag s') else strip_tag s'
  end.

(** Longest prefix whose characters satisfy [p], and the rest. *)
Fixpoint span (p : ascii -> bool) (l : list ascii) : list ascii * list ascii :=
  match l with
  | c :: l' => if p c then let '(a, b) := span p l' in (c :: a, b) else ([], l)
  | [] => ([], [])
  end.

Fixpoint strip_prefix (pre l : list ascii) : option (list ascii) :=
  match pre, l with
  | [], _ => Some l
  | p :: pre', c :: l' => if Ascii.eqb p c then strip_prefix pre' l' else None
  | _ :: _, [] => None
  end.

(** The one place where [#gid=\d+] can match so that [$] holds right
    after it: a maximal run of digits at the end, preceded by [#gid=]. *)
Definition strip_gid_at_end (l : list ascii) : list ascii :=
  let '(ds, rest) := span is_digit (rev l) in
  match ds with
  | [] => l
  | _ :: _ =>
      match strip_prefix (rev (list_ascii_of_string "#gid=")) rest with
      | Some body => rev body
      | None => l
      end
  end.

(** [re.sub(r'\#gid=\d+$', '', key)]: [$] also matches just before a
    newline that ends the string. *)
Definition strip_gid (k : string) : string :=
  let l := list_ascii_of_string k in
  match rev l with
  | c :: body =>
      if Ascii.eqb c newline
      then string_of_list_ascii (strip_gid_at_end (rev body) ++ [newline])
      else string_of_list_ascii (strip_gid_at_end l)
  | [] => k
  end.

(** [int(s)] on a string: optional blanks, an optional sign, digits. *)
Definition digit_val (c : ascii) : Z := Z.of_nat (nat_of_ascii c) - 48.

Definition digits_val (ds : list ascii) : Z :=
  fold_left (fun acc c => 10 * acc + digit_val c) ds 0.

Definition int_of_digits (ds : list ascii) : option Z :=
  match ds with
  | [] => None
  | _ :: _ => if forallb is_digit ds then Some (digits_val ds) else None
  end.

Definition int_of_string (s : string) : option Z :=
  let l := snd (span is_space (list_ascii_of_string s)) in
  let l := rev (snd (span is_space (rev l))) in
  match l with
  | c :: l' =>
      if Ascii.eqb c "-" then Z.opp <$> int_of_digits l'
      else if Ascii.eqb c "+" then int_of_digits l'
      else int_of_digits l
  | [] => None
  end.

(** [int(key)] *)
Definition py_int (k : Key) : option Z :=
  match k with
  | KInt z => Some z
  | KStr s => int_of_string s
  end.

(** [gdata_id_pattern = re.compile('https?://.*/(\w+)', re.I)], used
    with [match]: the identifier is the run of word characters after the
    last slash of the first line that is followed by one. *)
Definition lower (c : ascii) : ascii :=
  if ascii_in "A" "Z" c then ascii_of_nat (nat_of_ascii c + 32) else c.

Fixpoint strip_prefix_ci (pre l : list ascii) : option (list ascii) :=
  match pre, l with
  | [], _ => Some l
  | p :: pre', c :: l' => if Ascii.eqb p (lower c) then strip_prefix_ci pre' l' else None
  | _ :: _, [] => None
  end.

Fixpoint last_word_after_slash (l : list ascii) (best : option (list ascii))
  : option (list ascii) :=
  match l with
  | c :: l' =>
      if Ascii.eqb c "/"
      then match fst (span is_word l') with
           | [] => last_word_after_slash l' best
           | w => last_word_after_slash l' (Some w)
           end
      else last_word_after_slash l' best
  | [] => best
  end.

Definition gdata_id_match (s : string) : option string :=
  l ← strip_prefix_ci (list_ascii_of_string "http") (list_ascii_of_string s);
  let l := match l with
           | c :: l' => if Ascii.eqb (lower c) "s" then l' else l
           | [] => l
           end in
  l ← strip_prefix (list_ascii_of_string "://") l;
  let line := fst (span (fun c => negb (Ascii.eqb c newline)) l) in
  string_of_list_ascii <$> last_word_after_slash line None.

(** ** The data model *)

(** [class Cell(str)]: the string value and the coordinates. *)
Record Cell : Type := { text : string; cell_row : Z; cell_col : Z }.

(** What a position of a [Row] holds: [None], a [Cell], or the plain
    string that [Worksheet.append] stores with [_set_local]. *)
Inductive Slot : Type :=
| SNone
| SCell (c : Cell)
| SStr (s : string).

(** [class Row(list)] with its [row] attribute. *)
Record Row : Type := { row : Z; cells : list Slot }.

(** The string value of a slot, when it has one. *)
Definition slot_str (x : Slot) : option string :=
  match x with
  | SNone => None
  | SCell c => Some (text c)
  | SStr s => Some s
  end.

(** Truth value of a slot: [None] and the empty string are false. *)
Definition slot_true (x : Slot) : bool :=
  match slot_str x with
  | Some s => negb (String.eqb s "")
  | None => false
  end.

(** [s == x] for a string [s] *)
Definition str_eq_slot (s : string) (x : Slot) : bool :=
  match slot_str x with
  | Some t => String.eqb s t
  | None => false
  end.

(** [k == x] for a key [k]: a number never equals a string or [None]. *)
Definition key_eq_slot (k : Key) (x : Slot) : bool :=
  match k with
  | KInt _ => false
  | KStr s => str_eq_slot s x
  end.

(** [k in l] and [l.index(k)] on a row *)
Definition key_in (k : Key) (l : list Slot) : bool := existsb (key_eq_slot k) l.

Fixpoint key_index (k : Key) (l : list Slot) : Z :=
  match l with
  | x :: l' => if key_eq_slot k x then 0 else 1 + key_index k l'
  | [] => 0
  end.

(** Resolving a key against the cells of the header row: a header name
    gives its position, anything else goes through [int(key)]. *)
Definition resolve_key (hcells : list Slot) (k : Key) : result Z :=
  if key_in k hcells then Ok (key_index k hcells)
  else match py_int k with
       | Some z => Ok z
       | None => Raise (KeyError (match k with KStr s => s | KInt z => pretty z end))
       end.

(** Entries of the feeds the service returns. *)
Record CellEntry : Type := { entry_row : Z; entry_col : Z; entry_text : option string }.
Record ListEntry : Type := { custom : gmap string (option string) }.
Record WsEntry : Type := { ws_id : string; ws_title : option string; ws_row_count : Z }.

(** [class WorksheetID(str)] *)
Record WorksheetID : Type := { full_id : option string; short_id : option string }.

(** the string value of a [WorksheetID] *)
Definition id_str (w : WorksheetID) : string :=
  match short_id w with Some s => s | None => "None" end.

(** [class Worksheet]: [_cells_feed] and [_list_feed] are [None] until
    they are fetched. *)
Record Worksheet : Type := {
  key : string;
  wksht_id : WorksheetID;
  title : option string;
  nheaders : Z;
  _cells_feed : option (list CellEntry);
  _list_feed : option (list ListEntry);
  _header_rows : list Row;
  _rows : list Row;
  _max_col : Z
}.

Definition set_cells_feed (v : option (list CellEntry)) (w : Worksheet) : Worksheet :=
  {| key := key w; wksht_id := wksht_id w; title := title w; nheaders := nheaders w;
     _cells_feed := v; _list_feed := _list_feed w;
     _header_rows := _header_rows w; _rows := _rows w; _max_col := _max_col w |}.
Definition set_list_feed (v : option (list ListEntry)) (w : Worksheet) : Worksheet :=
  {| key := key w; wksht_id := wksht_id w; title := title w; nheaders := nheaders w;
     _cells_feed := _cells_feed w; _list_feed := v;
     _header_rows := _header_rows w; _rows := _rows w; _max_col := _max_col w |}.
Definition set_header_rows (v : list Row) (w : Worksheet) : Worksheet :=
  {| key := key w; wksht_id := wksht_id w; title := title w; nheaders := nheaders w;
     _cells_feed := _cells_feed w; _list_feed := _list_feed w;
     _header_rows := v; _rows := _rows w; _max_col := _max_col w |}.
Definition set_rows (v : list Row) (w : Worksheet) : Worksheet :=
  {| key := key w; wksht_id := wksht_id w; title := title w; nheaders := nheaders w;
     _cells_feed := _cells_feed w; _list_feed := _list_feed w;
     _header_rows := _header_rows w; _rows := v; _max_col := _max_col w |}.
Definition set_max_col (v : Z) (w : Worksheet) : Worksheet :=
  {| key := key w; wksht_id := wksht_id w; title := title w; nheaders := nheaders w;
     _cells_feed := _cells_feed w; _list_feed := _list_feed w;
     _header_rows := _header_rows w; _rows := _rows w; _max_col := v |}.

(** A [Row] object is named by where the worksheet holds it. *)
Inductive RowRef : Type :=
| HeaderRow (i : nat)
| DataRow (i : nat).

(** ** Methods of Cell on its text *)

Definition is_upper (c : ascii) : bool := ascii_in "A" "Z" c.

(** [re.split(r'([A-Z][A-Z]+)', s)]: the texts between the runs of two
    or more capitals, each followed by the run that ends it.  [text] is
    what has been read since the last run, [run] the capitals read last. *)
Fixpoint split_caps (text run l : list ascii) : list (list ascii) :=
  match l with
  | [] =>
      match run with
      | _ :: _ :: _ => [text; run; []]
      | _ => [text ++ run]
      end
  | c :: l' =>
      if is_upper c then split_caps text (run ++ [c]) l'
      else match run with
           | _ :: _ :: _ => text :: run :: split_caps [c] [] l'
           | _ => split_caps (text ++ run ++ [c]) [] l'
           end
  end.

(** [re.match(r'^[A-Z]+$', sub)]: capitals only, possibly followed by
    one newline that ends the string. *)
Definition all_caps (sub : list ascii) : bool :=
  match rev sub with
  | [] => false
  | c :: body =>
      if Ascii.eqb c newline
      then match body with [] => false | _ :: _ => forallb is_upper body end
      else forallb is_upper sub
  end.

(** [sub[0] + sub[1:].lower()] for a piece of capitals, the piece
    itself otherwise *)
Definition undo_piece (sub : list ascii) : list ascii :=
  if all_caps sub
  then match sub with c :: rest => c :: (lower <$> rest) | [] => [] end
  else sub.

(** [Cell.undo_allcaps] *)
Definition undo_allcaps (self : Cell) : string :=
  string_of_list_ascii
    (concat (undo_piece <$> split_caps [] [] (list_ascii_of_string (text self)))).

Definition dquote : ascii := ascii_of_nat 34.
Definition squote : ascii := ascii_of_nat 39.

(** The pattern of [get_href], compiled with [re.I], tried at the start
    of [l]: the word HYPERLINK in any case, an opening parenthesis, a
    single or double quote, the shortest text up to the same quote, and
    a closing parenthesis further on the same line.  The result is the
    text between the quotes. *)
Definition href_at (l : list ascii) : option (list ascii) :=
  l ← strip_prefix_ci (list_ascii_of_string "hyperlink(") l;
  match l with
  | q :: l' =>
      if Ascii.eqb q dquote || Ascii.eqb q squote then
        let line := fst (span (fun c => negb (Ascii.eqb c newline)) l') in
        let '(url, rest) := span (fun c => negb (Ascii.eqb c q)) line in
        match rest with
        | _ :: after => if existsb (Ascii.eqb ")") after then Some url else None
        | [] => None
        end
      else None
  | [] => None
  end.

(** [re.search]: the first position where the pattern matches *)
Fixpoint href_search (l : list ascii) : option (list ascii) :=
  match href_at l with
  | Some url => Some url
  | None =>
      match l with
      | _ :: l' => href_search l'
      | [] => None
      end
  end.

(** [Cell.get_href], from the [inputValue] of the cell's entry *)
Definition get_href (inputValue : string) : option string :=
  string_of_list_ascii <$> href_search (list_ascii_of_string inputValue).

(** [Cell.is_link] *)
Definition is_link (inputValue : string) : bool :=
  match get_href inputValue with
  | Some _ => true
  | None => false
  end.

(** ** The remote service *)

(** What reaches the service, and the pauses between attempts. *)
Inductive Event : Type :=
| EvGetWorksheetsFeed (k : string)
| EvAddWorksheet (t : string) (nrows ncols : Z) (k : string)
| EvGetCellsFeed (k : string) (wid : option string)
| EvGetListFeed (k : string) (wid : string)
| EvUpdateCell (r c : Z) (v : string) (k : string) (wid : string)
| EvInsertRow (vals : gmap string string) (k : string) (wid : string)
| EvDeleteRow (e : ListEntry)
| EvSleep (seconds : Z).

(** The service answers a call knowing everything that happened before. *)
Record Remote : Type := {
  svc_GetWorksheetsFeed : list Event -> string -> result (list WsEntry);
  svc_AddWorksheet : list Event -> string -> Z -> Z -> string -> result WsEntry;
  svc_GetCellsFeed : list Event -> string -> option string -> result (list CellEntry);
  svc_GetListFeed : list Event -> string -> string -> result (list ListEntry);
  svc_UpdateCell : list Event -> Z -> Z -> string -> string -> string -> result CellEntry;
  svc_InsertRow : list Event -> gmap string string -> string -> string -> result ListEntry;
  svc_DeleteRow : list Event -> ListEntry -> result unit
}.

(** ** Computations: a worksheet, the history of calls, and exceptions *)

Record State : Type := { ws : Worksheet; trace : list Event }.

Definition M (A : Type) : Type := State -> result A * State.

#[global] Instance M_ret : MRet M := fun A a s => (Ok a, s).
#[global] Instance M_bind : MBind M := fun A B f m s =>
  match m s with
  | (Ok a, s') => f a s'
  | (Raise e, s') => (Raise e, s')
  end.

Definition raise {A} (e : exn) : M A := fun s => (Raise e, s).
Definition lift {A} (r : result A) : M A := fun s => (r, s).
Definition get_ws : M Worksheet := fun s => (Ok (ws s), s).
Definition modify_ws (f : Worksheet -> Worksheet) : M unit :=
  fun s => (Ok tt, {| ws := f (ws s); trace := trace s |}).
Definition emit (e : Event) : M unit :=
  fun s => (Ok tt, {| ws := ws s; trace := trace s ++ [e] |}).
Definition history : M (list Event) := fun s => (Ok (trace s), s).

(** [for x in l: body] *)
Fixpoint mfor {A} (l : list A) (body : A -> M unit) : M unit :=
  match l with
  | [] => mret tt
  | x :: l' => body x ≫= fun _ => mfor l' body
  end.

(** A loop that threads an accumulator. *)
Fixpoint mfold {A B} (l : list A) (body : B -> A -> M B) (acc : B) : M B :=
  match l with
  | [] => mret acc
  | x :: l' => body acc x ≫= mfold l' body
  end.

(** ** Module variables *)

Definition num_tries : Z := 5.
Definition retry_wait_time_seconds : Z := 2.

(** Sequence of column tags for blank headers *)
Definition blank_coltags : list string :=
  ["_cn6ca"; "_cokwr"; "_cpzh4"; "_cre1l"; "_chk2m";
   "_ciyn3"; "_ckd7g"; "_clrrx"; "_cyevm"; "_cztg3";
   "_d180g"; "_d2mkx"; "_cssly"; "_cu76f"; "_cvlqs";
   "_cx0b9"; "_d9ney"; "_db1zf"; "_dcgjs"; "_ddv49";
   "_d415a"; "_d5fpr"; "_d6ua4"; "_d88ul"; "_dkvya";
   "_dmair"; "_dnp34"; "_dp3nl"; "_df9om"].

Section Program.

Variable svc : Remote.

(** ** The wrappers around the service *)

Definition GetWorksheetsFeed (k : string) : M (list WsEntry) :=
  h ← history; emit (EvGetWorksheetsFeed k);; lift (svc_GetWorksheetsFeed svc h k).

Definition AddWorksheet (t : string) (nrows ncols : Z) (k : string) : M WsEntry :=
  h ← history; emit (EvAddWorksheet t nrows ncols k);;
  lift (svc_AddWorksheet svc h t nrows ncols k).

Definition GetCellsFeed (k : string) (wid : option string) : M (list CellEntry) :=
  h ← history; emit (EvGetCellsFeed k wid);; lift (svc_GetCellsFeed svc h k wid).

Definition GetListFeed (k wid : string) : M (list ListEntry) :=
  h ← history; emit (EvGetListFeed k wid);; lift (svc_GetListFeed svc h k wid).

(** [for i in range(1, num_tries+1)]: a failed attempt sleeps and goes
    on while [i < num_tries]; the last one raises what it caught.  A
    loop that ends without returning yields [None]. *)
Fixpoint UpdateCell_loop (tries : list Z) (r c : Z) (v k wid : string)
  : M (option CellEntry) :=
  match tries with
  | [] => mret None
  | i :: rest =>
      h ← history; emit (EvUpdateCell r c v k wid);;
      match svc_UpdateCell svc h r c v k wid with
      | Ok e => mret (Some e)
      | Raise e =>
          if i <? num_tries
          then emit (EvSleep retry_wait_time_seconds);; UpdateCell_loop rest r c v k wid
          else raise e
      end
  end.

Definition UpdateCell (r c : Z) (v k wid : string) : M (option CellEntry) :=
  UpdateCell_loop (py_range 1 (num_tries + 1)) r c v k wid.

Definition InsertRow (vals : gmap string string) (k wid : string) : M ListEntry :=
  h ← history; emit (EvInsertRow vals k wid);; lift (svc_InsertRow svc h vals k wid).

(** [spreadsheet_service().DeleteRow(entry)] *)
Definition DeleteRow (e : ListEntry) : M unit :=
  h ← history; emit (EvDeleteRow e);; lift (svc_DeleteRow svc h e).

(** ** Rows held by the worksheet *)

Definition lookup_row (w : Worksheet) (r : RowRef) : option Row :=
  match r with
  | HeaderRow i => _header_rows w !! i
  | DataRow i => _rows w !! i
  end.

Definition alter_row (f : Row -> Row) (r : RowRef) (w : Worksheet) : Worksheet :=
  match r with
  | HeaderRow i => set_header_rows (alter f i (_header_rows w)) w
  | DataRow i => set_rows (alter f i (_rows w)) w
  end.

Definition read_row (r : RowRef) : M Row :=
  w ← get_ws;
  match lookup_row w r with
  | Some x => mret x
  | None => raise IndexError
  end.

Definition set_cells (cs : list Slot) (r : Row) : Row := {| row := row r; cells := cs |}.
Definition set_row_number (n : Z) (r : Row) : Row := {| row := n; cells := cells r |}.

Definition write_cells (r : RowRef) (cs : list Slot) : M unit :=
  modify_ws (alter_row (set_cells cs) r).

(** [Row(self, n)]: a new empty row *)
Definition Row_new (n : Z) : Row := {| row := n; cells := [] |}.

(** [Cell(ws, cell, row=row, col=col)]: a missing text is the empty string. *)
Definition Cell_new (e : CellEntry) (r c : Z) : Cell :=
  {| text := default "" (entry_text e); cell_row := r; cell_col := c |}.

(** [Row._set_local]: pad with [None] up to [icol], then store. *)
Definition set_local_cells (l : list Slot) (icol : Z) (v : Slot) : result (list Slot) :=
  list_setitem (l ++ replicate (Z.to_nat (icol + 1 - Z.of_nat (length l))) SNone) icol v.

Definition Row__set_local (self : RowRef) (icol : Z) (v : Slot) : M unit :=
  r ← read_row self;
  cs ← lift (set_local_cells (cells r) icol v);
  write_cells self cs.

(** ** Loading the cells feed *)

Definition has_data (w : Worksheet) : bool :=
  match _cells_feed w with Some _ => true | None => false end.

Definition append_header_row (r : Row) : M unit :=
  modify_ws (fun w => set_header_rows (_header_rows w ++ [r]) w).

Definition append_data_row (r : Row) : M unit :=
  modify_ws (fun w => set_rows (_rows w ++ [r]) w).

(** [Worksheet.init_cell].  It runs while the feed is being read, when
    [_cells_feed] is already set: [self.max_row] is then
    [len(self._rows) + self.nheaders] without a nested load. *)
Definition init_cell (row_num col_num : Z) (cell : CellEntry) : M unit :=
  w ← get_ws;
  let irow := row_num - nheaders w - 1 in
  let icol := col_num - 1 in
  let max_row := Z.of_nat (length (_rows w)) + nheaders w in
  mfor (py_range (max_row + 1) (row_num + 1))
       (fun blank_row_num => append_data_row (Row_new blank_row_num));;
  w ← get_ws;
  match py_index (_rows w) irow with
  | None => raise IndexError
  | Some k =>
      (if _max_col w <? col_num then modify_ws (set_max_col col_num) else mret tt);;
      Row__set_local (DataRow k) icol (SCell (Cell_new cell row_num col_num))
  end.

(** The body of the loop over [self._cells_feed.entry]. *)
Definition load_cell (cell : CellEntry) : M unit :=
  let r := entry_row cell in
  let c := entry_col cell in
  w ← get_ws;
  if r <=? nheaders w then
    mfor (py_range (Z.of_nat (length (_header_rows w))) r)
         (fun i => append_header_row (Row_new (i + 1)));;
    w ← get_ws;
    match py_index (_header_rows w) (r - 1) with
    | None => raise IndexError
    | Some k => Row__set_local (HeaderRow k) (c - 1) (SCell (Cell_new cell r c))
    end
  else init_cell r c cell.

(** [Worksheet.get_cells_feed] *)
Definition get_cells_feed : M (list CellEntry) :=
  w ← get_ws;
  match _cells_feed w with
  | Some f => mret f
  | None =>
      f ← GetCellsFeed (key w) (short_id (wksht_id w));
      modify_ws (set_cells_feed (Some f));;
      modify_ws (set_rows []);;
      modify_ws (set_header_rows []);;
      mfor f load_cell;;
      w ← get_ws;
      mfor (py_range (Z.of_nat (length (_header_rows w))) (nheaders w))
           (fun i => append_header_row (Row_new (i + 1)));;
      mret f
  end.

Definition load_data : M unit := get_cells_feed;; mret tt.

(** [if (not self.has_data()): self.load_data()] *)
Definition ensure_data : M unit :=
  w ← get_ws; if has_data w then mret tt else load_data.

Definition get_rows : M (list Row) := ensure_data;; w ← get_ws; mret (_rows w).

(** [Worksheet.get_headers]: the last header row, or [None]. *)
Definition get_headers : M (option RowRef) :=
  ensure_data;;
  w ← get_ws;
  match length (_header_rows w) with
  | O => mret None
  | S n => mret (Some (HeaderRow n))
  end.

Definition get_all_header_rows : M (list Row) :=
  ensure_data;; w ← get_ws; mret (_header_rows w).

Definition get_max_row : M Z :=
  rs ← get_rows; w ← get_ws; mret (Z.of_nat (length rs) + nheaders w).

Definition get_max_col : M Z := ensure_data;; w ← get_ws; mret (_max_col w).

(** [Worksheet.get_row] *)
Definition get_row (row_num : Z) : M RowRef :=
  w ← get_ws;
  if row_num <=? nheaders w then
    hs ← get_all_header_rows;
    match py_index hs (row_num - 1) with
    | Some k => mret (HeaderRow k)
    | None => raise IndexError
    end
  else
    rs ← get_rows;
    w ← get_ws;
    match py_index rs (row_num - nheaders w - 1) with
    | Some k => mret (DataRow k)
    | None => raise IndexError
    end.

(** ** Row: reading and writing cells *)

(** [Row.get_index_of_key]: [key in self.headers] fails on a worksheet
    without header rows, whose [headers] is [None]. *)
Definition get_index_of_key (self : RowRef) (k : Key) : M Z :=
  h ← get_headers;
  match h with
  | None => raise TypeError
  | Some hr =>
      hrow ← read_row hr;
      lift (resolve_key (cells hrow) k)
  end.

(** [Row.__getitem__] *)
Definition Row_getitem (self : RowRef) (k : Key) : M Slot :=
  ind ← get_index_of_key self k;
  r ← read_row self;
  if ind <? Z.of_nat (length (cells r))
  then lift (list_getitem (cells r) ind)
  else mret SNone.

(** [while (self and self[-1] == None): self.pop(-1)]; every round
    removes one slot, so the length of the row bounds the rounds. *)
Fixpoint trim_loop (rounds : nat) (self : RowRef) : M unit :=
  match rounds with
  | O => mret tt
  | S rounds' =>
      r ← read_row self;
      match cells r with
      | [] => mret tt
      | _ :: _ =>
          x ← Row_getitem self (KInt (-1));
          match x with
          | SNone =>
              cs ← lift (list_delitem (cells r) (-1));
              write_cells self cs;;
              trim_loop rounds' self
          | _ => mret tt
          end
      end
  end.

(** [None] becomes the empty string, anything else its display string. *)
Definition normalize (v : PyVal) : string :=
  match v with
  | PNone => ""
  | _ => display v
  end.

(** [Row.__setitem__] *)
Definition Row_setitem (self : RowRef) (k : Key) (v : PyVal) : M unit :=
  let new_val := normalize v in
  icol ← get_index_of_key self k;
  r ← read_row self;
  let rw := row r in
  let col := icol + 1 in
  cur ← Row_getitem self (KInt icol);
  if str_eq_slot new_val cur then
    Row_getitem self (KInt icol);; mret tt
  else
    w ← get_ws;
    gdata_cell ← UpdateCell rw col new_val (key w) (id_str (wksht_id w));
    new_cell ← (if String.eqb new_val "" then mret SNone
                else match gdata_cell with
                     | Some e => mret (SCell (Cell_new e rw col))
                     | None => raise AttributeError
                     end);
    r ← read_row self;
    write_cells self
      (cells r ++ replicate (Z.to_nat (col - Z.of_nat (length (cells r)))) SNone);;
    Row__set_local self icol new_cell;;
    r ← read_row self;
    trim_loop (length (cells r)) self;;
    r ← read_row self;
    mc ← get_max_col;
    if mc <? Z.of_nat (length (cells r))
    then modify_ws (set_max_col (Z.of_nat (length (cells r))))
    else mret tt.

(** ** Column tags *)

(** One round of the loop of [get_coltags]; [count] is the
    [defaultdict(int)], and an empty [key] stands for a false one. *)
Definition coltag_step (tag_row : RowRef) (acc : list string * gmap string nat) (i : Z)
  : M (list string * gmap string nat) :=
  let '(coltags, count) := acc in
  r ← read_row tag_row;
  '(tag, count) ←
    (if i <? Z.of_nat (length (cells r)) then
       x ← Row_getitem tag_row (KInt i);
       if slot_true x then
         x ← Row_getitem tag_row (KInt i);
         let tag := strip_tag (default "" (slot_str x)) in
         if String.eqb tag "" then mret (tag, count)
         else
           let n := S (default 0%nat (count !! tag)) in
           mret (if (1 <? n)%nat then tag +:+ "_" +:+ pretty n else tag, <[tag:=n]> count)
       else mret ("", count)
     else mret ("", count));
  tag ← (if String.eqb tag "" then lift (list_getitem blank_coltags i) else mret tag);
  mret (coltags ++ [tag], count).

(** [Worksheet.get_coltags] *)
Definition get_coltags : M (list string) :=
  ensure_data;;
  tag_row ← get_row 1;
  mc ← get_max_col;
  '(coltags, _) ← mfold (py_range 0 (Z.max mc (Z.of_nat (length blank_coltags))))
                        (coltag_step tag_row) ([], ∅);
  mret coltags.

(** ** The list feed *)

(** An element of [self.headers + self.rows]: the concatenation puts
    the cells of the header row in front of the data rows. *)
Inductive FeedItem : Type :=
| ItemSlot (x : Slot)
| ItemRow (r : RowRef).

(** The first loop of [get_list_feed]: [row[0] = ' '] on a false item;
    a cell or [None] does not support item assignment. *)
Definition fill_blank (blank_rows : list RowRef) (it : FeedItem) : M (list RowRef) :=
  match it with
  | ItemSlot x => if slot_true x then mret blank_rows else raise TypeError
  | ItemRow r =>
      rw ← read_row r;
      match cells rw with
      | [] => Row_setitem r (KInt 0) (PStr " ");; mret (blank_rows ++ [r])
      | _ :: _ => mret blank_rows
      end
  end.

(** [Worksheet.get_list_feed] *)
Definition get_list_feed : M (list ListEntry) :=
  w ← get_ws;
  match _list_feed w with
  | Some f => mret f
  | None =>
      ensure_data;;
      h ← get_headers;
      rs ← get_rows;
      items ← match h with
              | None => raise TypeError
              | Some hr =>
                  hrow ← read_row hr;
                  mret ((ItemSlot <$> cells hrow)
                          ++ ((fun i => ItemRow (DataRow i)) <$> seq 0 (length rs)))
              end;
      blank_rows ← mfold items fill_blank [];
      w ← get_ws;
      f ← GetListFeed (key w) (id_str (wksht_id w));
      modify_ws (set_list_feed (Some f));;
      mfor blank_rows (fun r => Row_setitem r (KInt 0) PNone);;
      mret f
  end.

(** ** RowData: the input of an insert *)

(** [class RowDataVal(str)] *)
Record RowDataVal : Type := { icol : Z; val : string; coltag : option string }.

Definition RowDataVal_new (i : Z) (v : PyVal) : RowDataVal :=
  {| icol := i; val := normalize v; coltag := None |}.

Definition set_coltag (t : string) (x : RowDataVal) : RowDataVal :=
  {| icol := icol x; val := val x; coltag := Some t |}.

(** What [append] receives: a sequence, or the items of a mapping. *)
Inductive RowInput : Type :=
| InSeq (l : list PyVal)
| InMap (items : list (string * PyVal)).

(** [val not in [None, '']] *)
Definition is_given (v : PyVal) : bool :=
  match v with
  | PNone => false
  | PStr s => negb (String.eqb s "")
  | PInt _ => true
  end.

(** the cells of [worksheet.headers]; [None] has neither a length nor members *)
Definition headers_cells : M (list Slot) :=
  h ← get_headers;
  match h with
  | None => raise TypeError
  | Some hr => hrow ← read_row hr; mret (cells hrow)
  end.

(** the body of [for key,val in data.items()] *)
Definition RowData_item (self : list (option RowDataVal)) (kv : string * PyVal)
  : M (list (option RowDataVal)) :=
  hs ← headers_cells;
  if negb (key_in (KStr kv.1) hs) then raise (ValueError "Invalid column key")
  else if is_given kv.2 then
    hs ← headers_cells;
    let i := key_index (KStr kv.1) hs in
    lift (list_setitem self i (Some (RowDataVal_new i kv.2)))
  else mret self.

(** [for i,tag in enumerate(worksheet.coltags)]: a non-empty value
    receives the tag of its column. *)
Fixpoint assign_coltags (tags : list string) (self : list (option RowDataVal))
  : list (option RowDataVal) :=
  match tags, self with
  | t :: tags', x :: self' =>
      match x with
      | Some it =>
          (if String.eqb (val it) "" then x else Some (set_coltag t it))
            :: assign_coltags tags' self'
      | None => None :: assign_coltags tags' self'
      end
  | _, _ => self
  end.

(** [RowData.__init__] *)
Definition RowData_init (data : RowInput) : M (list (option RowDataVal)) :=
  self ← match data with
         | InMap items =>
             hs ← headers_cells;
             mfold items RowData_item (replicate (length hs) None)
         | InSeq l =>
             mret (imap (fun i v => Some (RowDataVal_new (Z.of_nat i) v)) l)
         end;
  tags ← get_coltags;
  mret (assign_coltags tags self).

(** [RowData.get_insert_vals].  When no value is left to insert and the
    worksheet has column tags, the method assigns to [insert_vals], a
    name that is bound nowhere. *)
Definition get_insert_vals (self : list (option RowDataVal)) : M (gmap string string) :=
  vals ← mfold self
         (fun (vals : gmap string string) item =>
            match item with
            | None => raise AttributeError
            | Some it =>
                match coltag it with
                | Some t =>
                    if negb (String.eqb (val it) "") && negb (String.eqb t "")
                    then mret (<[t:=val it]> vals)
                    else mret vals
                | None => mret vals
                end
            end) ∅;
  if bool_decide (vals = ∅) then
    tags ← get_coltags;
    match tags with
    | [] => mret vals
    | _ :: _ => raise (NameError "insert_vals")
    end
  else mret vals.

(** [RowData.is_blank] *)
Definition is_blank (self : list (option RowDataVal)) : M bool :=
  xs ← mfold self
       (fun (xs : list RowDataVal) item =>
          match item with
          | None => raise AttributeError
          | Some it => mret (if String.eqb (val it) "" then xs else xs ++ [it])
          end) [];
  mret (match xs with [] => true | _ :: _ => false end).

(** ** Worksheet as a sequence, and append *)

(** [len(worksheet)] *)
Definition Worksheet_len : M Z := rs ← get_rows; mret (Z.of_nat (length rs)).

(** [worksheet[i]] *)
Definition Worksheet_getitem (i : Z) : M RowRef :=
  rs ← get_rows;
  match py_index rs i with
  | Some k => mret (DataRow k)
  | None => raise IndexError
  end.

(** the first loop of [append]: blank header rows get a space *)
Definition fill_blank_header (blank_rows : list RowRef) (i : nat) : M (list RowRef) :=
  rw ← read_row (HeaderRow i);
  match cells rw with
  | [] => Row_setitem (HeaderRow i) (KInt 0) (PStr " ");;
          mret (blank_rows ++ [HeaderRow i])
  | _ :: _ => mret blank_rows
  end.

(** the loop of [append] over [row_data] *)
Definition append_value (overwrite : bool) (res : ListEntry) (item : option RowDataVal)
  : M unit :=
  match item with
  | Some it =>
      if overwrite && negb (String.eqb (val it) "")
         && match coltag it with
            | Some t => bool_decide (custom res !! t = None)
            | None => true
            end
      then last ← Worksheet_getitem (-1);
           Row_setitem last (KInt (icol it)) (PStr (val it))
      else last ← Worksheet_getitem (-1);
           Row__set_local last (icol it) (SStr (val it))
  | None => Worksheet_getitem (-1);; raise AttributeError
  end.

(** [Worksheet.append] *)
Definition append (vals : RowInput) (overwrite : bool) : M unit :=
  row_data ← RowData_init vals;
  hs ← get_all_header_rows;
  blank_rows ← mfold (seq 0 (length hs)) fill_blank_header [];
  insert_vals ← get_insert_vals row_data;
  w ← get_ws;
  res ← InsertRow insert_vals (key w) (id_str (wksht_id w));
  mfor blank_rows (fun r => Row_setitem r (KInt 0) PNone);;
  max_row ← get_max_row;
  let new_row_num := max_row + 1 in
  get_rows;;
  append_data_row (Row_new new_row_num);;
  mfor row_data (append_value overwrite res);;
  b ← is_blank row_data;
  if (b : bool) then last ← Worksheet_getitem (-1); Row_setitem last (KInt 0) PNone
  else mret tt.

(** ** Deleting a row *)

(** [set(row + [None])] *)
Definition obj_vals (r : Row) : gset (option string) :=
  list_to_set ((slot_str <$> cells r) ++ [None]).

(** [set([None])] plus the non-empty texts of the list entry *)
Definition gdata_vals (e : ListEntry) : gset (option string) :=
  list_to_set
    (None :: omap (fun kv : string * option string =>
                     match kv.2 with
                     | Some t => if String.eqb t "" then None else Some (Some t)
                     | None => None
                     end) (map_to_list (custom e))).

Definition set_cell_row (n : Z) (c : Cell) : Cell :=
  {| text := text c; cell_row := n; cell_col := cell_col c |}.

(** [for cell in row: if (cell): cell.row -= 1]: a plain string has no
    [row] attribute; the cells before it stay decremented. *)
Fixpoint decrement_cells (l : list Slot) : list Slot * option exn :=
  match l with
  | [] => ([], None)
  | x :: l' =>
      if slot_true x then
        match x with
        | SCell c =>
            let '(l'', e) := decrement_cells l' in
            (SCell (set_cell_row (cell_row c - 1) c) :: l'', e)
        | _ => (x :: l', Some AttributeError)
        end
      else let '(l'', e) := decrement_cells l' in (x :: l'', e)
  end.

(** the body of the renumbering loop of [Row.delete] *)
Definition renumber (i : Z) : M unit :=
  len ← Worksheet_len;
  if i <? len then
    r ← Worksheet_getitem i;
    rw ← read_row r;
    modify_ws (alter_row (set_row_number (row rw - 1)) r);;
    r ← Worksheet_getitem i;
    rw ← read_row r;
    let '(cs, e) := decrement_cells (cells rw) in
    write_cells r cs;;
    match e with
    | Some e => raise e
    | None => mret tt
    end
  else mret tt.

(** [Row.delete] *)
Definition Row_delete (self : RowRef) : M unit :=
  feed ← get_list_feed;
  r ← read_row self;
  let n := row r in
  sslist ← lift (list_getitem feed (n - 2));
  w ← get_ws;
  let irow := n - nheaders w - 1 in
  target ← lift (list_getitem (_rows w) irow);
  if bool_decide (obj_vals target = gdata_vals sslist) then
    DeleteRow sslist;;
    feed ← get_list_feed;
    feed' ← lift (list_delitem feed (n - 2));
    modify_ws (set_list_feed (Some feed'));;
    w ← get_ws;
    rs ← lift (list_delitem (_rows w) irow);
    modify_ws (set_rows rs);;
    len ← Worksheet_len;
    mfor (py_range (n - 2) len) renumber
  else raise (ValueError "Mismatch of gdata and internal values!!").

(** ** Worksheet identifiers and the worksheets of a document *)

(** [WorksheetID(full_id=s)] *)
Definition WorksheetID_new (s : string) : M WorksheetID :=
  if String.eqb s "" then mret {| full_id := Some s; short_id := None |}
  else match gdata_id_match s with
       | Some sid => mret {| full_id := Some s; short_id := Some sid |}
       | None => raise (ValueError "Could not parse full worksheet ID")
       end.

(** [wksht_ids(key, titles)] *)
Definition wksht_ids (k : string) (titles : option (list (option string)))
  : M (list WorksheetID) :=
  let k := strip_gid k in
  feed ← GetWorksheetsFeed k;
  mfold feed
        (fun (ids : list WorksheetID) (e : WsEntry) =>
           if match titles with
              | Some ts => negb (bool_decide (ws_title e ∈ ts))
              | None => false
              end
           then mret ids
           else wid ← WorksheetID_new (ws_id e); mret (ids ++ [wid])) [].

(** [wksht_id(key, title)] *)
Definition wksht_id_of (k : string) (t : option string) : M WorksheetID :=
  match gdata_id_match k with
  | Some _ => WorksheetID_new k
  | None =>
      ids ← wksht_ids k (Some [t]);
      match ids with
      | [wid] => mret wid
      | _ :: _ => raise (ValueError "Multiple matching wksht_ids found")
      | [] => raise (ValueError "No matching wksht_id found")
      end
  end.

(** [Worksheet(key, gdata_ws, feed, nheaders)] *)
Definition Worksheet_new (k : string) (e : WsEntry) (nh : Z) : M Worksheet :=
  if ws_row_count e <? nh then raise (ValueError "Fewer rows than specified headers")
  else
    wid ← wksht_id_of (ws_id e) None;
    mret {| key := k; wksht_id := wid; title := ws_title e; nheaders := nh;
            _cells_feed := None; _list_feed := None;
            _header_rows := []; _rows := []; _max_col := 0 |}.

(** [worksheets(key, titles)] *)
Definition worksheets (k : string) (titles : option (list (option string)))
  : M (list Worksheet) :=
  let k := strip_gid k in
  feed ← GetWorksheetsFeed k;
  mfold feed
        (fun (wslist : list Worksheet) (wsdata : WsEntry) =>
           w ← Worksheet_new k wsdata 1;
           if match titles with
              | None => true
              | Some ts => bool_decide (title w ∈ ts)
              end
           then mret (wslist ++ [w])
           else mret wslist) [].

(** ** Reloading, and writing a whole row *)

(** [Worksheet.reload] *)
Definition reload : M unit :=
  modify_ws (set_cells_feed None);;
  modify_ws (set_list_feed None);;
  get_cells_feed;;
  mret tt.

(** [row[i] != val] for an item of a [RowData]: [None] differs from
    every string, the empty one included. *)
Definition slot_ne_item (x : Slot) (item : option RowDataVal) : bool :=
  match item with
  | Some it => negb (str_eq_slot (val it) x)
  | None => match x with SNone => false | _ => true end
  end.

(** the value that [row[i] = val] hands to [Row.__setitem__] *)
Definition item_value (item : option RowDataVal) : PyVal :=
  match item with
  | Some it => PStr (val it)
  | None => PNone
  end.

(** the body of the loop of [set_row] *)
Definition set_row_item (r : RowRef) (iv : nat * option RowDataVal) : M unit :=
  x ← Row_getitem r (KInt (Z.of_nat iv.1));
  if slot_ne_item x iv.2
  then Row_setitem r (KInt (Z.of_nat iv.1)) (item_value iv.2)
  else mret tt.

(** [Worksheet.set_row] *)
Definition set_row (row_num : Z) (vals : RowInput) : M unit :=
  row_data ← RowData_init vals;
  r ← get_row row_num;
  mfor (imap pair row_data) (set_row_item r).

(** [Worksheet.__setitem__] *)
Definition Worksheet_setitem (irow : Z) (vals : RowInput) : M unit :=
  r ← Worksheet_getitem irow;
  rw ← read_row r;
  set_row (row rw) vals.

(** [Worksheet.set_headers]: [None] has no [row]. *)
Definition set_headers (vals : RowInput) : M unit :=
  h ← get_headers;
  match h with
  | None => raise AttributeError
  | Some hr => rw ← read_row hr; set_row (row rw) vals
  end.

(** [Row.get]: only a [KeyError] gives the default. *)
Definition Row_get (self : RowRef) (k : Key) (default : Slot) : M Slot :=
  fun s =>
    match Row_getitem self k s with
    | (Raise (KeyError _), s') => (Ok default, s')
    | out => out
    end.

(** [Cell.get_colname] *)
Definition get_colname (self : Cell) : M Slot :=
  hs ← headers_cells;
  if cell_col self <=? Z.of_nat (length hs) then
    h ← get_headers;
    match h with
    | Some hr => Row_getitem hr (KInt (cell_col self - 1))
    | None => raise TypeError
    end
  else mret SNone.

(** ** Choosing one worksheet of a document *)

Definition set_nheaders (n : Z) (w : Worksheet) : Worksheet :=
  {| key := key w; wksht_id := wksht_id w; title := title w; nheaders := n;
     _cells_feed := _cells_feed w; _list_feed := _list_feed w;
     _header_rows := _header_rows w; _rows := _rows w; _max_col := _max_col w |}.

(** [if (nheaders != None): ws.nheaders = nheaders] *)
Definition with_nheaders (nh : option Z) (w : Worksheet) : Worksheet :=
  match nh with
  | Some n => set_nheaders n w
  | None => w
  end.

(** The body of the loop of [worksheet] over [enumerate(wslist)]: an
    argument that is [None], empty or zero does not filter. *)
Definition worksheet_step (num : option Z) (wid t : option string)
  (filtered : list Worksheet) (iw : nat * Worksheet) : list Worksheet :=
  if match wid with
     | Some x => negb (String.eqb x "") && negb (String.eqb (id_str (wksht_id iw.2)) x)
     | None => false
     end then filtered
  else if match t with
          | Some x => negb (String.eqb x "") && negb (bool_decide (title iw.2 = Some x))
          | None => false
          end then filtered
  else if match num with
          | Some n => negb (n =? 0) && negb (n =? Z.of_nat iw.1 + 1)
          | None => false
          end then filtered
  else filtered ++ [iw.2].

(** [worksheet(key, num, wksht_id, title, nheaders)]; the last message
    is kept without the values it formats. *)
Definition worksheet (k : string) (num : option Z) (wid t : option string)
  (nh : option Z) : M Worksheet :=
  if match num with Some n => n <=? 0 | None => false end
  then raise (ValueError "Invalid num argument (should be 1,2,...)")
  else
    wslist ← worksheets k None;
    match wid, t, num with
    | None, None, None =>
        match wslist with
        | [w] => mret (with_nheaders nh w)
        | _ => raise (ValueError "Must specify wksht_id or title")
        end
    | _, _, _ =>
        match fold_left (worksheet_step num wid t) (imap pair wslist) [] with
        | [w] => mret (with_nheaders nh w)
        | _ => raise (ValueError "worksheets matching")
        end
    end.

(** [add_worksheet(key, title, rows, cols, nheaders)] *)
Definition add_worksheet (k t : string) (nrows ncols nh : Z) : M Worksheet :=
  wsdata ← AddWorksheet t nrows ncols k;
  Worksheet_new k wsdata nh.

End Program.

(** ** Pure descriptions used to state the results *)

(** The slot a non-negative index reads: [None] past the end. *)
Definition slot_at (cs : list Slot) (i : Z) : Slot := default SNone (cs !! Z.to_nat i).

(** The text a slot shows; an empty slot shows nothing. *)
Definition slot_text (x : Slot) : string := default "" (slot_str x).

(** A list without its trailing [None]s. *)
Fixpoint trim_none (l : list Slot) : list Slot :=
  match l with
  | [] => []
  | x :: l' =>
      match trim_none l', x with
      | [], SNone => []
      | t, _ => x :: t
      end
  end.

(** The cells of a row after slot [icol] has been given [v]. *)
Definition written_cells (cs : list Slot) (icol : Z) (v : Slot) : list Slot :=
  trim_none (<[Z.to_nat icol:=v]>
               (cs ++ replicate (Z.to_nat (icol + 1) - length cs)%nat SNone)).

(** The worksheet after a confirmed write into row [self]. *)
Definition written_ws (w : Worksheet) (self : RowRef) (icol : Z) (v : Slot) : Worksheet :=
  match lookup_row w self with
  | Some r =>
      let cs := written_cells (cells r) icol v in
      let w' := alter_row (set_cells cs) self w in
      if _max_col w' <? Z.of_nat (length cs)
      then set_max_col (Z.of_nat (length cs)) w' else w'
  | None => w
  end.

(** The events of [n] failed attempts, each followed by its pause. *)
Definition retries (n : nat) (ev : Event) : list Event :=
  concat (replicate n [ev; EvSleep retry_wait_time_seconds]).

(** What the service answers to an update when [n] failed attempts and
    their pauses lie behind. *)
Definition attempt_outcome (svc : Remote) (s : State) (r c : Z) (v k wid : string)
  (n : nat) : result CellEntry :=
  svc_UpdateCell svc (trace s ++ retries n (EvUpdateCell r c v k wid)) r c v k wid.

(** A worksheet whose cells are loaded and that has a header row. *)
Definition ready (w : Worksheet) : Prop :=
  has_data w = true /\ _header_rows w <> [].

(** Slot [i] of row [self] shows the text [t]. *)
Definition cell_reads (w : Worksheet) (self : RowRef) (i : Z) (t : string) : Prop :=
  exists r, lookup_row w self = Some r /\ slot_text (slot_at (cells r) i) = t.

(** [emits P m]: running [m] only adds events that satisfy [P]. *)
Definition emits {A} (P : Event -> Prop) (m : M A) : Prop :=
  forall s, exists l, trace (m s).2 = trace s ++ l /\ Forall P l.

(** One round of the loop of [get_coltags] over plain cells. *)
Definition tag_step (cs : list Slot) (acc : result (list string * gmap string nat)) (i : Z)
  : result (list string * gmap string nat) :=
  match acc with
  | Raise e => Raise e
  | Ok (coltags, count) =>
      let tag := if (i <? Z.of_nat (length cs)) && slot_true (slot_at cs i)
                 then strip_tag (slot_text (slot_at cs i)) else "" in
      if String.eqb tag "" then
        match list_getitem blank_coltags i with
        | Ok t => Ok (coltags ++ [t], count)
        | Raise e => Raise e
        end
      else
        let n := S (default 0%nat (count !! tag)) in
        Ok (coltags ++ [if (1 <? n)%nat then tag +:+ "_" +:+ pretty n else tag],
            <[tag:=n]> count)
  end.

(** The column tags computed from the cells [cs] of a row for a sheet
    whose widest data column is [mc]. *)
Definition coltags_of (cs : list Slot) (mc : Z) : result (list string) :=
  match fold_left (tag_step cs)
                  (py_range 0 (Z.max mc (Z.of_nat (length blank_coltags)))) (Ok ([], ∅)) with
  | Ok (coltags, _) => Ok coltags
  | Raise e => Raise e
  end.

(** The non-empty values a row holds, and those of a list-feed entry. *)
Definition local_values (r : Row) : gset string :=
  list_to_set (filter (fun t => t ≠ "") (omap slot_str (cells r))).

Definition entry_values (e : ListEntry) : gset string :=
  list_to_set (filter (fun t => t ≠ "") (omap snd (map_to_list (custom e)))).

(** Data row [i] carries the sheet row number [nheaders + i + 1]. *)
Definition rows_contiguous (w : Worksheet) : Prop :=
  forall (i : nat) (r : Row), _rows w !! i = Some r -> row r = nheaders w + Z.of_nat i + 1.

(** A string made of the characters that [strip_tag] keeps. *)
Definition clean (k : string) : Prop := forallb is_tag_char (list_ascii_of_string k) = true.

(** Where a tag in the list comes from: the table of blank tags at a
    column before [i], a header text seen for the first time, or a
    header text with the number of its occurrence. *)
Inductive tag_kind (i : Z) (count : gmap string nat) (t : string) : Prop :=
| kind_blank (j : Z) :
    0 <= j < i -> blank_coltags !! Z.to_nat j = Some t -> tag_kind i count t
| kind_plain (n : nat) :
    clean t -> t <> "" -> count !! t = Some n -> (1 <= n)%nat -> tag_kind i count t
| kind_suffixed (k : string) (n m : nat) :
    t = k +:+ String "_" (pretty n) -> clean k -> k <> "" ->
    count !! k = Some m -> (2 <= n <= m)%nat -> tag_kind i count t.

Definition tags_inv (i : Z) (acc : list string * gmap string nat) : Prop :=
  NoDup acc.1 /\ Forall (tag_kind i acc.2) acc.1.

(** [keeps I m]: if the worksheet satisfies [I] before [m], it does so
    after, whatever [m] returns or raises. *)
Definition keeps {A} (I : Worksheet -> Prop) (m : M A) : Prop :=
  forall s, I (ws s) -> I (ws (m s).2).

(** The cells of the worksheet have been read. *)
Definition loaded (w : Worksheet) : Prop := has_data w = true.

(** The events of reading a feed and of updating a cell: neither an
    insert nor a delete nor a call about worksheets. *)
Definition read_or_update (ev : Event) : Prop :=
  match ev with
  | EvGetCellsFeed _ _ | EvGetListFeed _ _ | EvUpdateCell _ _ _ _ _ | EvSleep _ => True
  | _ => False
  end.

(** [m] always raises, and until then only reads feeds and updates cells. *)
Definition fails_quietly {A} (m : M A) : Prop :=
  forall s, (exists e, (m s).1 = Raise e) /\
            exists l, trace (m s).2 = trace s ++ l /\ Forall read_or_update l.

(** Row data in which every entry is an empty value. *)
Definition blank_data (rd : list (option RowDataVal)) : Prop :=
  Forall (fun x => exists it, x = Some it /\ val it = "") rd.



(** ** Further descriptions *)

(** Every capital that directly follows a capital becomes a small
    letter; [prev] tells whether the character before [l] is a capital. *)
Fixpoint decap (prev : bool) (l : list ascii) : list ascii :=
  match l with
  | [] => []
  | c :: l' => (if prev && is_upper c then lower c else c) :: decap (is_upper c) l'
  end.

(** No capital directly follows a capital. *)
Fixpoint calm (prev : bool) (l : list ascii) : bool :=
  match l with
  | [] => true
  | c :: l' => negb (prev && is_upper c) && calm (is_upper c) l'
  end.

(** The character [c] does not occur in [s]. *)
Definition lacks (c : ascii) (s : string) : Prop :=
  forallb (fun x => negb (Ascii.eqb x c)) (list_ascii_of_string s) = true.

(** A non-empty string of word characters. *)
Definition word (s : string) : Prop :=
  s <> "" /\ forallb is_word (list_ascii_of_string s) = true.

(** The row of the sheet with number [n], among the header rows or the
    data rows. *)
Definition sheet_row (w : Worksheet) (n : Z) : option Row :=
  if n <=? nheaders w then _header_rows w !! Z.to_nat (n - 1)
  else _rows w !! Z.to_nat (n - nheaders w - 1).

(** What the worksheet holds for row [n] and column [c], both counted
    from 1; a row that is not there holds nothing. *)
Definition cell_at (w : Worksheet) (n c : Z) : Slot :=
  match sheet_row w n with
  | Some r => slot_at (cells r) (c - 1)
  | None => SNone
  end.

(** What a cells feed says about row [n] and column [c]: the cell of
    the last entry for this place. *)
Definition feed_cell (f : list CellEntry) (n c : Z) : Slot :=
  fold_left (fun acc e => if (entry_row e =? n) && (entry_col e =? c)
                          then SCell (Cell_new e n c) else acc) f SNone.

(** [m] neither calls the service nor changes the worksheet once the
    cells are loaded. *)
Definition quiet {A} (m : M A) : Prop :=
  forall s, loaded (ws s) -> (m s).2 = s.

(** A service that confirms an update with the text it was given. *)
Definition faithful (svc : Remote) : Prop :=
  forall h r c v k wid e,
    svc_UpdateCell svc h r c v k wid = Ok e -> default "" (entry_text e) = v.

(** The text an item of a [RowData] stands for. *)
Definition item_text (item : option RowDataVal) : string :=
  match item with
  | Some it => val it
  | None => ""
  end.

(** The widest column seen after the entries of a feed below [nh]
    header rows, when [start] was the widest before. *)
Definition widest (f : list CellEntry) (nh start : Z) : Z :=
  fold_left (fun acc e => if entry_row e <=? nh then acc else Z.max acc (entry_col e))
            f start.

(** Header row [i] carries the sheet row number [i + 1]. *)
Definition headers_numbered (w : Worksheet) : Prop :=
  forall (i : nat) (r : Row), _header_rows w !! i = Some r -> row r = Z.of_nat i + 1.

(** Whether the text [a], read after a character of kind [p], ends in a
    capital. *)
Definition ends_upper (p : bool) (a : list ascii) : bool :=
  match last a with
  | Some c => is_upper c
  | None => p
  end.

(** Slot [j] of the row at position [i] of a list of rows. *)
Definition slot_in (rows : list Row) (i : nat) (j : Z) : Slot :=
  match rows !! i with
  | Some r => slot_at (cells r) j
  | None => SNone
  end.

(** Two worksheets that differ at most in their rows and in the widest
    column. *)
Definition same_sheet (w w' : Worksheet) : Prop :=
  key w' = key w /\ wksht_id w' = wksht_id w /\ title w' = title w /\
  nheaders w' = nheaders w /\
  _cells_feed w' = _cells_feed w /\ _list_feed w' = _list_feed w.

(** [w'] is [w] except for the cells of row [self] and the widest
    column. *)
Definition same_but (self : RowRef) (w w' : Worksheet) : Prop :=
  nheaders w' = nheaders w /\ has_data w' = has_data w /\
  length (_rows w') = length (_rows w) /\
  length (_header_rows w') = length (_header_rows w) /\
  (forall other, other <> self -> lookup_row w' other = lookup_row w other) /\
  (forall r, lookup_row w self = Some r ->
     exists r', lookup_row w' self = Some r' /\ row r' = row r).

(** The column of an item of a [RowData]. *)
Definition item_icol (x : option RowDataVal) : option Z := icol <$> x.

(** At most [nh] header rows, each with its own number. *)
Definition hdr_ok (nh : Z) (w : Worksheet) : Prop :=
  nheaders w = nh /\ Z.of_nat (length (_header_rows w)) <= Z.max 0 nh /\ headers_numbered w.




(** ** Sample sheets and services *)

Definition entry (r c : Z) (t : string) : CellEntry :=
  {| entry_row := r; entry_col := c; entry_text := Some t |}.

Definition list_entry (l : list (string * string)) : ListEntry :=
  {| custom := Some <$> (list_to_map l : gmap string string) |}.

(** A service that returns the given feeds, confirms every update with
    the value written and every insert with the values sent. *)
Definition echo_service (feed : list CellEntry) (lf : list ListEntry) : Remote :=
  {| svc_GetWorksheetsFeed := fun _ _ => Ok [];
     svc_AddWorksheet := fun _ _ _ _ _ => Raise (ServiceError 501);
     svc_GetCellsFeed := fun _ _ _ => Ok feed;
     svc_GetListFeed := fun _ _ _ => Ok lf;
     svc_UpdateCell := fun _ r c v _ _ => Ok (entry r c v);
     svc_InsertRow := fun _ vals _ _ => Ok {| custom := Some <$> vals |};
     svc_DeleteRow := fun _ _ => Ok tt |}.

(** The same service with updates that always fail. *)
Definition readonly_service (feed : list CellEntry) (lf : list ListEntry) : Remote :=
  {| svc_GetWorksheetsFeed := fun _ _ => Ok [];
     svc_AddWorksheet := fun _ _ _ _ _ => Raise (ServiceError 501);
     svc_GetCellsFeed := fun _ _ _ => Ok feed;
     svc_GetListFeed := fun _ _ _ => Ok lf;
     svc_UpdateCell := fun _ _ _ _ _ _ => Raise (ServiceError 503);
     svc_InsertRow := fun _ vals _ _ => Ok {| custom := Some <$> vals |};
     svc_DeleteRow := fun _ _ => Ok tt |}.

(** A service that knows one document with one worksheet. *)
Definition doc_service : Remote :=
  {| svc_GetWorksheetsFeed := fun _ _ =>
       Ok [{| ws_id := "https://spreadsheets.example.com/feeds/worksheets/ABC123/private/full/od6";
              ws_title := Some "Sheet1"; ws_row_count := 10 |}];
     svc_AddWorksheet := fun _ _ _ _ _ => Raise (ServiceError 501);
     svc_GetCellsFeed := fun _ _ _ => Ok [];
     svc_GetListFeed := fun _ _ _ => Ok [];
     svc_UpdateCell := fun _ r c v _ _ => Ok (entry r c v);
     svc_InsertRow := fun _ vals _ _ => Ok {| custom := Some <$> vals |};
     svc_DeleteRow := fun _ _ => Ok tt |}.

(** A worksheet that has not been read yet, with [nh] header rows. *)
Definition fresh_sheet (nh : Z) : State :=
  {| ws := {| key := "ABC123";
              wksht_id := {| full_id := None; short_id := Some "od6" |};
              title := Some "Sheet1"; nheaders := nh;
              _cells_feed := None; _list_feed := None;
              _header_rows := []; _rows := []; _max_col := 0 |};
     trace := [] |}.

(** The state a computation ends in. *)
Definition after {A} (m : M A) (s : State) : State := (m s).2.

(** Header [Name, Age] and the data row [Ann, 30]. *)
Definition people_feed : list CellEntry :=
  [entry 1 1 "Name"; entry 1 2 "Age"; entry 2 1 "Ann"; entry 2 2 "30"].
Definition people_list : list ListEntry := [list_entry [("name", "Ann"); ("age", "30")]].

(** Two header rows and two data rows in one column. *)
Definition two_header_feed : list CellEntry :=
  [entry 1 1 "First"; entry 2 1 "Second"; entry 3 1 "x"; entry 4 1 "y"].
Definition two_header_list : list ListEntry :=
  [list_entry [("first", "Second")]; list_entry [("first", "x")]; list_entry [("first", "y")]].

(** One header and a data cell in column 30. *)
Definition wide_feed : list CellEntry := [entry 1 1 "A"; entry 2 30 "x"].

(** The sample sheets once their cells are read. *)
Definition people_service : Remote := echo_service people_feed people_list.
Definition offline_service : Remote := readonly_service people_feed people_list.
Definition people_sheet : State := after (get_cells_feed people_service) (fresh_sheet 1).
Definition headerless_sheet : State := after (get_cells_feed people_service) (fresh_sheet 0).

(** A list feed that disagrees with the cells about the first name. *)
Definition renamed_list : list ListEntry := [list_entry [("name", "Bob"); ("age", "30")]].
Definition renamed_service : Remote := echo_service people_feed renamed_list.

Definition two_header_service : Remote := echo_service two_header_feed two_header_list.
Definition two_header_sheet : State :=
  after (get_cells_feed two_header_service) (fresh_sheet 2).

Definition wide_service : Remote := echo_service wide_feed [].
Definition wide_sheet : State := after (get_cells_feed wide_service) (fresh_sheet 1).

(** The people sheet after two appends that the service confirmed, and
    the list feed it then returns. *)
Definition grown_list : list ListEntry :=
  [list_entry [("name", "Ann"); ("age", "30")]; list_entry [("name", "Bob")];
   list_entry [("name", "Cy")]].
Definition grown_service : Remote := echo_service people_feed grown_list.
Definition grown_sheet : State :=
  after (append grown_service (InSeq [PStr "Bob"]) true;;
         append grown_service (InSeq [PStr "Cy"]) true) people_sheet.

(** ** Further sample sheets and services *)



(** A document with two worksheets; a worksheet that is added gets the
    third identifier and the rows asked for. *)
Definition book_entry (id t : string) (n : Z) : WsEntry :=
  {| ws_id := "https://spreadsheets.example.com/feeds/worksheets/ABC123/private/full/" +:+ id;
     ws_title := Some t; ws_row_count := n |}.

Definition book_service : Remote :=
  {| svc_GetWorksheetsFeed := fun _ _ => Ok [book_entry "od6" "First" 10; book_entry "od7" "Second" 10];
     svc_AddWorksheet := fun _ t nrows _ _ => Ok (book_entry "od8" t nrows);
     svc_GetCellsFeed := fun _ _ _ => Ok [];
     svc_GetListFeed := fun _ _ _ => Ok [];
     svc_UpdateCell := fun _ r c v _ _ => Ok (entry r c v);
     svc_InsertRow := fun _ vals _ _ => Ok {| custom := Some <$> vals |};
     svc_DeleteRow := fun _ _ => Ok tt |}.

(** A cell with the given text. *)
Definition cell_of (t : string) : Cell := {| text := t; cell_row := 2; cell_col := 1 |}.

(** Two header rows and three data rows in one column; the list feed
    has another text for the second data row. *)
Definition drift_feed : list CellEntry :=
  [entry 1 1 "First"; entry 2 1 "Second"; entry 3 1 "x"; entry 4 1 "y"; entry 5 1 "z"].
Definition drift_list : list ListEntry :=
  [list_entry [("first", "Second")]; list_entry [("first", "x")];
   list_entry [("first", "Y")]; list_entry [("first", "z")]].
Definition drift_service : Remote := echo_service drift_feed drift_list.
Definition drift_sheet : State := after (get_cells_feed drift_service) (fresh_sheet 2).

(** ** Running computations *)

Lemma bind_run {A B} (m : M A) (k : A -> M B) (s : State) :
  (m ≫= k) s = match m s with
               | (Ok a, s') => k a s'
               | (Raise e, s') => (Raise e, s')
               end.
Proof. reflexivity. Qed.

Lemma ret_run {A} (a : A) (s : State) : (mret a : M A) s = (Ok a, s).
Proof. reflexivity. Qed.
Lemma raise_run {A} (e : exn) (s : State) : raise (A:=A) e s = (Raise e, s).
Proof. reflexivity. Qed.
Lemma lift_run {A} (r : result A) (s : State) : lift r s = (r, s).
Proof. reflexivity. Qed.
Lemma get_ws_run (s : State) : get_ws s = (Ok (ws s), s).
Proof. reflexivity. Qed.
Lemma history_run (s : State) : history s = (Ok (trace s), s).
Proof. reflexivity. Qed.
Lemma modify_ws_run f (s : State) :
  modify_ws f s = (Ok tt, {| ws := f (ws s); trace := trace s |}).
Proof. reflexivity. Qed.
Lemma emit_run e (s : State) :
  emit e s = (Ok tt, {| ws := ws s; trace := trace s ++ [e] |}).
Proof. reflexivity. Qed.

Create Rewrite HintDb run.
#[local] Hint Rewrite @bind_run @ret_run @raise_run @lift_run get_ws_run history_run
  modify_ws_run emit_run : run.

(** Unfold the computation as far as the equations of the primitives go. *)
Ltac mrun := repeat (autorewrite with run; cbv beta iota).

Lemma state_eta (s : State) : {| ws := ws s; trace := trace s |} = s.
Proof. by destruct s. Qed.

Lemma ensure_data_loaded svc s :
  has_data (ws s) = true -> ensure_data svc s = (Ok tt, s).
Proof.
  intros H. unfold ensure_data. mrun. by rewrite H.
Qed.

Lemma get_max_col_loaded svc s :
  has_data (ws s) = true -> get_max_col svc s = (Ok (_max_col (ws s)), s).
Proof.
  intros H. unfold get_max_col. mrun. rewrite ensure_data_loaded by done. by mrun.
Qed.

Lemma get_rows_loaded svc s :
  has_data (ws s) = true -> get_rows svc s = (Ok (_rows (ws s)), s).
Proof.
  intros H. unfold get_rows. mrun. rewrite ensure_data_loaded by done. by mrun.
Qed.

Lemma get_all_header_rows_loaded svc s :
  has_data (ws s) = true -> get_all_header_rows svc s = (Ok (_header_rows (ws s)), s).
Proof.
  intros H. unfold get_all_header_rows. mrun. rewrite ensure_data_loaded by done. by mrun.
Qed.

Lemma get_headers_loaded svc s hrow :
  has_data (ws s) = true ->
  last (_header_rows (ws s)) = Some hrow ->
  exists hr, get_headers svc s = (Ok (Some hr), s) /\ lookup_row (ws s) hr = Some hrow.
Proof.
  intros H Hl. unfold get_headers. mrun. rewrite ensure_data_loaded by done.
  mrun. rewrite last_lookup in Hl.
  destruct (length (_header_rows (ws s))) as [|n] eqn:E.
  - apply length_zero_iff_nil in E. rewrite E in Hl. by rewrite lookup_nil in Hl.
  - exists (HeaderRow n). split; [done|]. exact Hl.
Qed.

Lemma get_index_of_key_loaded svc s self k hrow :
  has_data (ws s) = true ->
  last (_header_rows (ws s)) = Some hrow ->
  get_index_of_key svc self k s = (resolve_key (cells hrow) k, s).
Proof.
  intros H Hl. destruct (get_headers_loaded svc s hrow H Hl) as (hr & Hh & Hr).
  unfold get_index_of_key. mrun. rewrite Hh.
  unfold read_row. mrun. rewrite Hr. by mrun.
Qed.

Lemma key_in_int z l : key_in (KInt z) l = false.
Proof. unfold key_in. induction l; cbn; auto. Qed.

Lemma resolve_key_int l z : resolve_key l (KInt z) = Ok z.
Proof. unfold resolve_key. by rewrite key_in_int. Qed.

Lemma read_row_run (s : State) self r :
  lookup_row (ws s) self = Some r -> read_row self s = (Ok r, s).
Proof. intros H. unfold read_row. mrun. by rewrite H. Qed.

Lemma py_index_nonneg {A} (l : list A) i :
  0 <= i < Z.of_nat (length l) -> py_index l i = Some (Z.to_nat i).
Proof.
  intros H. unfold py_index.
  destruct (0 <=? i) eqn:E1; [|lia]. destruct (i <? Z.of_nat (length l)) eqn:E2; [done|lia].
Qed.

Lemma list_getitem_nonneg (l : list Slot) i :
  0 <= i < Z.of_nat (length l) -> list_getitem l i = Ok (slot_at l i).
Proof.
  intros H. unfold list_getitem, slot_at. rewrite py_index_nonneg by done.
  destruct (l !! Z.to_nat i) eqn:E; [done|].
  apply lookup_ge_None in E. lia.
Qed.

Lemma slot_at_past (l : list Slot) i :
  0 <= i -> Z.of_nat (length l) <= i -> slot_at l i = SNone.
Proof.
  intros H1 H2. unfold slot_at. rewrite lookup_ge_None_2; [done|lia].
Qed.

Lemma Row_getitem_loaded svc s self k r hrow i :
  has_data (ws s) = true ->
  last (_header_rows (ws s)) = Some hrow ->
  lookup_row (ws s) self = Some r ->
  resolve_key (cells hrow) k = Ok i -> 0 <= i ->
  Row_getitem svc self k s = (Ok (slot_at (cells r) i), s).
Proof.
  intros H Hl Hr Hk Hi. unfold Row_getitem.
  mrun. rewrite (get_index_of_key_loaded svc s self k hrow) by done.
  rewrite Hk. mrun. rewrite (read_row_run s self r) by done. mrun.
  destruct (i <? Z.of_nat (length (cells r))) eqn:E; mrun.
  - rewrite list_getitem_nonneg by lia. done.
  - rewrite slot_at_past by lia. done.
Qed.

(** ** The retry policy *)

Lemma UpdateCell_loop_cons svc i rest r c v k wid s :
  UpdateCell_loop svc (i :: rest) r c v k wid s =
  let s1 := {| ws := ws s; trace := trace s ++ [EvUpdateCell r c v k wid] |} in
  match svc_UpdateCell svc (trace s) r c v k wid with
  | Ok e => (Ok (Some e), s1)
  | Raise e =>
      if i <? num_tries
      then UpdateCell_loop svc rest r c v k wid
             {| ws := ws s; trace := trace s1 ++ [EvSleep retry_wait_time_seconds] |}
      else (Raise e, s1)
  end.
Proof.
  cbn [UpdateCell_loop]. mrun. cbn [ws trace].
  destruct (svc_UpdateCell svc (trace s) r c v k wid); mrun; [done|].
  destruct (i <? num_tries); by mrun.
Qed.

Lemma retries_S n ev l :
  (l ++ retries n ev) ++ [ev; EvSleep retry_wait_time_seconds] = l ++ retries (S n) ev.
Proof.
  unfold retries. rewrite <- app_assoc. f_equal.
  change [ev; EvSleep retry_wait_time_seconds]
    with (concat (replicate 1 [ev; EvSleep retry_wait_time_seconds]) ) at 2.
  rewrite <- concat_app, <- replicate_add. f_equal. f_equal. lia.
Qed.

Lemma UpdateCell_loop_from svc r c v k wid s m : forall n,
  (n + S m = 5)%nat ->
  let ev := EvUpdateCell r c v k wid in
  let out := UpdateCell_loop svc (Z.of_nat <$> seq (S n) (S m)) r c v k wid
               {| ws := ws s; trace := trace s ++ retries n ev |} in
  exists j, (n <= j < 5)%nat /\
    (forall i, (n <= i < j)%nat -> exists e, attempt_outcome svc s r c v k wid i = Raise e) /\
    out.2 = {| ws := ws s; trace := trace s ++ retries j ev ++ [ev] |} /\
    out.1 = match attempt_outcome svc s r c v k wid j with
            | Ok e => Ok (Some e)
            | Raise e => Raise e
            end /\
    (forall e, attempt_outcome svc s r c v k wid j = Raise e -> j = 4%nat).
Proof.
  unfold attempt_outcome. cbv zeta.
  induction m as [|m IH]; intros n Hn;
    cbn [seq]; rewrite fmap_cons, UpdateCell_loop_cons; cbv zeta; cbn [ws trace].
  - assert (n = 4%nat) as -> by lia. exists 4%nat.
    split; [lia|]. split; [intros; lia|].
    assert ((Z.of_nat 5 <? num_tries) = false) as -> by done.
    destruct (svc_UpdateCell svc _ r c v k wid) eqn:E; cbn [fst snd];
      (split; [by rewrite <- app_assoc|]); (split; [done|]); done.
  - destruct (svc_UpdateCell svc _ r c v k wid) eqn:E.
    + exists n. rewrite E. split; [lia|]. split; [intros; lia|]. cbn [fst snd].
      split; [by rewrite <- app_assoc|]. split; [done|]. intros e He. congruence.
    + assert ((Z.of_nat (S n) <? num_tries) = true) as ->
        by (apply Z.ltb_lt; unfold num_tries; lia).
      rewrite <- app_assoc. cbn [app]. rewrite retries_S.
      destruct (IH (S n) ltac:(lia)) as (j & Hj & Hfail & Hst & Hres & Hlast).
      exists j. split; [lia|]. split; [|done].
      intros i Hi. destruct (decide (i = n)) as [->|]; [eauto|]. apply Hfail. lia.
Qed.

Lemma UpdateCell_attempts svc r c v k wid s :
  let ev := EvUpdateCell r c v k wid in
  let out := UpdateCell svc r c v k wid s in
  exists j, (j < 5)%nat /\
    (forall i, (i < j)%nat -> exists e, attempt_outcome svc s r c v k wid i = Raise e) /\
    out.2 = {| ws := ws s; trace := trace s ++ retries j ev ++ [ev] |} /\
    out.1 = match attempt_outcome svc s r c v k wid j with
            | Ok e => Ok (Some e)
            | Raise e => Raise e
            end /\
    (forall e, attempt_outcome svc s r c v k wid j = Raise e -> j = 4%nat).
Proof.
  intros ev out.
  destruct (UpdateCell_loop_from svc r c v k wid s 4 0 eq_refl)
    as (j & Hj & Hfail & Hst & Hres & Hlast).
  exists j. split; [lia|]. split; [intros; apply Hfail; lia|].
  unfold retries in Hst, Hres. cbn [replicate concat] in Hst, Hres.
  rewrite app_nil_r, state_eta in Hst, Hres. done.
Qed.

Lemma UpdateCell_ws svc r c v k wid s :
  ws (UpdateCell svc r c v k wid s).2 = ws s.
Proof.
  destruct (UpdateCell_attempts svc r c v k wid s) as (j & _ & _ & -> & _). done.
Qed.

Lemma UpdateCell_result svc r c v k wid s :
  (UpdateCell svc r c v k wid s).1 <> Ok None.
Proof.
  destruct (UpdateCell_attempts svc r c v k wid s) as (j & _ & _ & _ & -> & _).
  by destruct (attempt_outcome _ _ _ _ _ _ _ _).
Qed.

(** ** Rows inside the worksheet *)

Lemma lookup_alter_row f self w :
  lookup_row (alter_row f self w) self = f <$> lookup_row w self.
Proof. destruct self; cbn; apply list_lookup_alter_eq. Qed.

Lemma lookup_alter_row_ne f self other w :
  self <> other -> lookup_row (alter_row f self w) other = lookup_row w other.
Proof.
  intros Hne. destruct self as [i|i], other as [j|j]; cbn; try done;
    apply list_lookup_alter_ne; congruence.
Qed.

Lemma alter_row_twice a b self w :
  alter_row (set_cells a) self (alter_row (set_cells b) self w)
  = alter_row (set_cells a) self w.
Proof.
  destruct self as [i|i], w; cbn; unfold set_header_rows, set_rows; cbn; f_equal;
    rewrite list_alter_alter_eq; apply list_alter_ext; done.
Qed.

Lemma alter_row_same self w r :
  lookup_row w self = Some r -> alter_row (set_cells (cells r)) self w = w.
Proof.
  intros H.
  assert (forall (l : list Row) i, l !! i = Some r -> alter (set_cells (cells r)) i l = l) as Hl.
  { intros l i Hi. apply list_eq. intros j. destruct (decide (i = j)) as [->|].
    - rewrite list_lookup_alter_eq, Hi. by destruct r.
    - by rewrite list_lookup_alter_ne. }
  destruct self as [i|i], w; cbn in *; unfold set_header_rows, set_rows; cbn;
    f_equal; by apply Hl.
Qed.

Lemma ready_alter_row f self w : ready w -> ready (alter_row f self w).
Proof.
  intros [H1 H2]. split.
  - by destruct self.
  - destruct self; cbn; [|done]. intros E. apply H2.
    apply length_zero_iff_nil. apply (f_equal length) in E.
    by rewrite length_alter in E.
Qed.

Lemma ready_set_max_col n w : ready w -> ready (set_max_col n w).
Proof. by intros [H1 H2]. Qed.

Lemma ready_last w : ready w -> exists hrow, last (_header_rows w) = Some hrow.
Proof.
  intros [_ H]. destruct (last (_header_rows w)) eqn:E; [eauto|].
  by apply last_None in E.
Qed.

Lemma Row_getitem_int svc s self r i :
  ready (ws s) -> lookup_row (ws s) self = Some r -> 0 <= i ->
  Row_getitem svc self (KInt i) s = (Ok (slot_at (cells r) i), s).
Proof.
  intros Hr Hl Hi. destruct (ready_last _ Hr) as [hrow Hh].
  eapply Row_getitem_loaded; eauto. { apply Hr. } apply resolve_key_int.
Qed.

Lemma Row_getitem_last svc s self r cs x :
  ready (ws s) -> lookup_row (ws s) self = Some r -> cells r = cs ++ [x] ->
  Row_getitem svc self (KInt (-1)) s = (Ok x, s).
Proof.
  intros Hr Hl Hc. destruct (ready_last _ Hr) as [hrow Hh].
  unfold Row_getitem. mrun.
  rewrite (get_index_of_key_loaded svc s self _ hrow) by (done || apply Hr).
  rewrite resolve_key_int. mrun. rewrite (read_row_run s self r) by done. mrun.
  rewrite Hc, length_app. cbn [length].
  assert ((-1 <? Z.of_nat (length cs + 1)) = true) as -> by (apply Z.ltb_lt; lia).
  mrun. unfold list_getitem, py_index. rewrite length_app. cbn [length].
  assert ((0 <=? -1) = false) as -> by done. cbn [andb].
  assert ((- Z.of_nat (length cs + 1) <=? -1) = true) as -> by (apply Z.leb_le; lia).
  cbn. replace (Z.to_nat (Z.of_nat (length cs + 1) + -1)) with (length cs) by lia.
  by rewrite list_lookup_middle.
Qed.

Lemma trim_none_snoc_none cs : trim_none (cs ++ [SNone]) = trim_none cs.
Proof. induction cs as [|x cs IH]; cbn; [done|]. by rewrite IH. Qed.

Lemma trim_none_snoc cs x : x <> SNone -> trim_none (cs ++ [x]) = cs ++ [x].
Proof.
  intros Hx. induction cs as [|y cs IH]; cbn.
  - by destruct x.
  - rewrite IH. destruct (cs ++ [x]) eqn:E; [by destruct cs|]. by destruct y.
Qed.

Lemma list_delitem_last (cs : list Slot) x : list_delitem (cs ++ [x]) (-1) = Ok cs.
Proof.
  unfold list_delitem, py_index. rewrite length_app. cbn [length].
  assert ((0 <=? -1) = false) as -> by done. cbn [andb].
  assert ((- Z.of_nat (length cs + 1) <=? -1) = true) as -> by (apply Z.leb_le; lia).
  cbn. replace (Z.to_nat (Z.of_nat (length cs + 1) + -1)) with (length cs) by lia.
  f_equal. rewrite delete_middle. apply app_nil_r.
Qed.

Lemma trim_loop_run svc self : forall n s r,
  ready (ws s) -> lookup_row (ws s) self = Some r -> (length (cells r) <= n)%nat ->
  trim_loop svc n self s
  = (Ok tt, {| ws := alter_row (set_cells (trim_none (cells r))) self (ws s);
               trace := trace s |}).
Proof.
  induction n as [|n IH]; intros s r Hr Hl Hn.
  - destruct (cells r) eqn:E; [|cbn in Hn; lia]. cbn. mrun.
    rewrite <- E, alter_row_same by done. by rewrite state_eta.
  - cbn [trim_loop]. mrun. rewrite (read_row_run s self r) by done. mrun.
    destruct (cells r) as [|y cs0] eqn:E.
    { mrun. cbn [trim_none]. rewrite <- E, alter_row_same by done. by rewrite state_eta. }
    mrun. destruct (exists_last (l:=y :: cs0) ltac:(done)) as (cs & x & Hcs).
    rewrite Hcs in *. clear y cs0 Hcs.
    rewrite (Row_getitem_last svc s self r cs x) by done. mrun.
    destruct x as [|c|t].
    + rewrite list_delitem_last. mrun. unfold write_cells. mrun.
      rewrite length_app in Hn. cbn in Hn.
      rewrite (IH _ (set_cells cs r)); cbn [ws trace].
      * rewrite trim_none_snoc_none. cbn [cells set_cells]. by rewrite alter_row_twice.
      * by apply ready_alter_row.
      * by rewrite lookup_alter_row, Hl.
      * cbn. lia.
    + rewrite trim_none_snoc by done. rewrite <- E, alter_row_same by done.
      by rewrite state_eta.
    + rewrite trim_none_snoc by done. rewrite <- E, alter_row_same by done.
      by rewrite state_eta.
Qed.

(** ** Writing a cell *)

Lemma Row_setitem_same svc s self k v r hrow i :
  has_data (ws s) = true ->
  last (_header_rows (ws s)) = Some hrow ->
  lookup_row (ws s) self = Some r ->
  resolve_key (cells hrow) k = Ok i -> 0 <= i ->
  str_eq_slot (normalize v) (slot_at (cells r) i) = true ->
  Row_setitem svc self k v s = (Ok tt, s).
Proof.
  intros H Hl Hr Hk Hi Heq. unfold Row_setitem. mrun.
  rewrite (get_index_of_key_loaded svc s self k hrow), Hk by done. mrun.
  rewrite (read_row_run s self r) by done. mrun.
  rewrite (Row_getitem_loaded svc s self (KInt i) r hrow i)
    by (done || apply resolve_key_int).
  mrun. rewrite Heq. mrun.
  rewrite (Row_getitem_loaded svc s self (KInt i) r hrow i)
    by (done || apply resolve_key_int).
  by mrun.
Qed.

(** The part of [Row.__setitem__] up to the call of the service. *)
Lemma Row_setitem_calls svc s self k v r hrow i :
  has_data (ws s) = true ->
  last (_header_rows (ws s)) = Some hrow ->
  lookup_row (ws s) self = Some r ->
  resolve_key (cells hrow) k = Ok i -> 0 <= i ->
  str_eq_slot (normalize v) (slot_at (cells r) i) = false ->
  forall e s1,
  UpdateCell svc (row r) (i + 1) (normalize v) (key (ws s)) (id_str (wksht_id (ws s))) s
    = (Raise e, s1) ->
  Row_setitem svc self k v s = (Raise e, s1).
Proof.
  intros H Hl Hr Hk Hi Hne e s1 Hu. unfold Row_setitem. mrun.
  rewrite (get_index_of_key_loaded svc s self k hrow), Hk by done. mrun.
  rewrite (read_row_run s self r) by done. mrun.
  rewrite (Row_getitem_loaded svc s self (KInt i) r hrow i)
    by (done || apply resolve_key_int).
  mrun. rewrite Hne. mrun. rewrite Hu. done.
Qed.

Lemma set_local_cells_in (cs : list Slot) i x :
  0 <= i < Z.of_nat (length cs) -> set_local_cells cs i x = Ok (<[Z.to_nat i:=x]> cs).
Proof.
  intros Hi. unfold set_local_cells.
  replace (Z.to_nat (i + 1 - Z.of_nat (length cs))) with 0%nat by lia.
  cbn [replicate]. rewrite app_nil_r. unfold list_setitem.
  by rewrite py_index_nonneg.
Qed.

Lemma Row_setitem_done svc s self k v r hrow i resp s1 :
  has_data (ws s) = true ->
  last (_header_rows (ws s)) = Some hrow ->
  lookup_row (ws s) self = Some r ->
  resolve_key (cells hrow) k = Ok i -> 0 <= i ->
  str_eq_slot (normalize v) (slot_at (cells r) i) = false ->
  UpdateCell svc (row r) (i + 1) (normalize v) (key (ws s)) (id_str (wksht_id (ws s))) s
    = (Ok (Some resp), s1) ->
  Row_setitem svc self k v s
  = (Ok tt,
     {| ws := written_ws (ws s) self i
                (if String.eqb (normalize v) "" then SNone
                 else SCell (Cell_new resp (row r) (i + 1)));
        trace := trace s1 |}).
Proof.
  intros H Hl Hr Hk Hi Hne Hu.
  assert (ready (ws s)) as Hrd.
  { split; [done|]. intros E. rewrite E in Hl. done. }
  assert (ws s1 = ws s) as Hws.
  { pose proof (UpdateCell_ws svc (row r) (i + 1) (normalize v) (key (ws s))
                  (id_str (wksht_id (ws s))) s) as Hw. by rewrite Hu in Hw. }
  unfold Row_setitem. mrun.
  rewrite (get_index_of_key_loaded svc s self k hrow), Hk by done. mrun.
  rewrite (read_row_run s self r) by done. mrun.
  rewrite (Row_getitem_loaded svc s self (KInt i) r hrow i)
    by (done || apply resolve_key_int).
  mrun. rewrite Hne. mrun. rewrite Hu. mrun.
  set (new_cell := if String.eqb (normalize v) "" then SNone
                   else SCell (Cell_new resp (row r) (i + 1))).
  assert (forall (b : bool) (x y : Slot) (s' : State),
             (if b then (mret x : M Slot) else mret y) s' = (Ok (if b then x else y), s'))
    as -> by (by intros []).
  fold new_cell. mrun. rewrite (read_row_run s1 self r) by (by rewrite Hws). mrun.
  unfold write_cells at 1. mrun. rewrite Hws.
  set (padded := cells r ++ replicate (Z.to_nat (i + 1 - Z.of_nat (length (cells r)))) SNone).
  unfold Row__set_local. mrun.
  erewrite read_row_run by (cbn [ws]; rewrite lookup_alter_row, Hr; reflexivity).
  mrun. cbn [cells set_cells].
  assert (0 <= i < Z.of_nat (length padded)) as Hin.
  { subst padded. rewrite length_app, length_replicate. lia. }
  rewrite set_local_cells_in by done. mrun.
  unfold write_cells. mrun. cbn [ws trace]. rewrite alter_row_twice.
  erewrite read_row_run by (cbn [ws]; rewrite lookup_alter_row, Hr; reflexivity).
  mrun. cbn [cells set_cells].
  erewrite trim_loop_run; cycle 1.
  { cbn [ws]. by apply ready_alter_row. }
  { cbn [ws]. rewrite lookup_alter_row, Hr. reflexivity. }
  { done. }
  mrun. cbn [ws trace cells set_cells]. rewrite alter_row_twice.
  erewrite read_row_run by (cbn [ws]; rewrite lookup_alter_row, Hr; reflexivity).
  mrun. rewrite get_max_col_loaded by (cbn [ws]; by destruct self). mrun.
  cbn [ws trace cells set_cells].
  unfold written_ws. rewrite Hr. unfold written_cells.
  replace (Z.to_nat (i + 1) - length (cells r))%nat
    with (Z.to_nat (i + 1 - Z.of_nat (length (cells r)))) by lia.
  fold padded.
  destruct (_ <? _); by mrun.
Qed.

(** ** Reading back what was written *)

Lemma slot_at_trim cs j : slot_at (trim_none cs) j = slot_at cs j.
Proof.
  unfold slot_at. generalize (Z.to_nat j) as n.
  induction cs as [|x cs IH]; intros n; [done|]. cbn [trim_none].
  destruct (trim_none cs) as [|y t] eqn:E.
  - destruct n as [|n].
    + by destruct x.
    + specialize (IH n). rewrite lookup_nil in IH.
      change ((x :: cs) !! S n) with (cs !! n). rewrite <- IH.
      by destruct x.
  - destruct n as [|n]; [by destruct x|].
    specialize (IH n). change ((x :: cs) !! S n) with (cs !! n). rewrite <- IH.
    by destruct x.
Qed.

Lemma slot_at_written cs i v : 0 <= i -> slot_at (written_cells cs i v) i = v.
Proof.
  intros Hi. unfold written_cells. rewrite slot_at_trim. unfold slot_at.
  rewrite list_lookup_insert_eq; [done|]. rewrite length_app, length_replicate. lia.
Qed.

Lemma slot_at_written_ne cs i j v :
  0 <= i -> 0 <= j -> i <> j -> slot_at (written_cells cs i v) j = slot_at cs j.
Proof.
  intros Hi Hj Hne. unfold written_cells. rewrite slot_at_trim. unfold slot_at.
  rewrite list_lookup_insert_ne by lia.
  destruct (decide (Z.to_nat j < length cs)%nat).
  - by rewrite lookup_app_l.
  - rewrite lookup_app_r by lia. rewrite (lookup_ge_None_2 cs) by lia.
    destruct (replicate _ _ !! _) eqn:E; [|done].
    apply lookup_replicate in E as [-> _]. done.
Qed.

Lemma lookup_written_ws w self r i v :
  lookup_row w self = Some r ->
  lookup_row (written_ws w self i v) self = Some (set_cells (written_cells (cells r) i v) r).
Proof.
  intros Hr. unfold written_ws. rewrite Hr.
  destruct (_ <? _).
  - transitivity (lookup_row (alter_row (set_cells (written_cells (cells r) i v)) self w) self).
    { by destruct self. } by rewrite lookup_alter_row, Hr.
  - by rewrite lookup_alter_row, Hr.
Qed.

Lemma lookup_written_ws_ne w self other i v :
  self <> other -> lookup_row (written_ws w self i v) other = lookup_row w other.
Proof.
  intros Hne. unfold written_ws. destruct (lookup_row w self) eqn:Hr; [|done].
  destruct (_ <? _).
  - transitivity (lookup_row (alter_row (set_cells (written_cells (cells r) i v)) self w) other).
    { by destruct other. } by apply lookup_alter_row_ne.
  - by apply lookup_alter_row_ne.
Qed.


Lemma key_index_nonneg k l : 0 <= key_index k l.
Proof. induction l as [|x l IH]; cbn; [done|]. destruct (key_eq_slot k x); lia. Qed.

(** ** Deleting a row whose values do not match the list feed *)

Lemma list_getitem_lookup {A} (l : list A) (n : nat) x :
  l !! n = Some x -> list_getitem l (Z.of_nat n) = Ok x.
Proof.
  intros H. unfold list_getitem. rewrite py_index_nonneg.
  - by rewrite Nat2Z.id, H.
  - apply lookup_lt_Some in H. lia.
Qed.

Lemma elem_of_obj_vals r t : Some t ∈ obj_vals r <-> t ∈ omap slot_str (cells r).
Proof.
  unfold obj_vals. rewrite elem_of_list_to_set, elem_of_app, list_elem_of_omap.
  rewrite list_elem_of_fmap. split.
  - intros [(x & Hx & Hin)|Hin]; [eauto|]. apply list_elem_of_singleton in Hin. done.
  - intros (x & Hin & Hx). left. eauto.
Qed.

Lemma elem_of_gdata_vals e t :
  Some t ∈ gdata_vals e <-> t <> "" /\ t ∈ omap snd (map_to_list (custom e)).
Proof.
  unfold gdata_vals. rewrite elem_of_list_to_set, elem_of_cons, !list_elem_of_omap. split.
  - intros [?|([k o] & Hin & Hx)]; [done|]. cbn in Hx. destruct o as [u|]; [|done].
    destruct (String.eqb u "") eqn:E; [done|]. apply String.eqb_neq in E.
    simplify_eq. split; [done|]. by exists (k, Some t).
  - intros (Hne & [k o] & Hin & Hx). cbn in Hx. subst o. right. exists (k, Some t).
    split; [done|]. cbn. apply String.eqb_neq in Hne. by rewrite Hne.
Qed.

Lemma vals_agree r e : obj_vals r = gdata_vals e -> local_values r = entry_values e.
Proof.
  intros H. apply set_eq. intros t. unfold local_values, entry_values.
  rewrite !elem_of_list_to_set, !list_elem_of_filter.
  rewrite <- elem_of_obj_vals, H, elem_of_gdata_vals. tauto.
Qed.

(** ** Column tags *)

Lemma fold_tag_step_raise cs e l : fold_left (tag_step cs) l (Raise e) = Raise e.
Proof. induction l; cbn; auto. Qed.

Lemma coltag_step_run svc s tag_row r acc i :
  ready (ws s) -> lookup_row (ws s) tag_row = Some r -> 0 <= i ->
  coltag_step svc tag_row acc i s
  = (tag_step (cells r) (Ok acc) i, s).
Proof.
  intros Hrd Hr Hi. destruct acc as [coltags count].
  unfold coltag_step, tag_step. mrun.
  rewrite (read_row_run s tag_row r) by done. mrun.
  destruct (i <? Z.of_nat (length (cells r))) eqn:E; cbn [andb]; mrun.
  - rewrite (Row_getitem_int svc s tag_row r i) by done. mrun.
    destruct (slot_true (slot_at (cells r) i)) eqn:Et; mrun.
    + rewrite (Row_getitem_int svc s tag_row r i) by done. mrun.
      fold (slot_text (slot_at (cells r) i)).
      destruct (String.eqb (strip_tag (slot_text (slot_at (cells r) i))) "") eqn:Es;
        mrun; rewrite ?Es; mrun.
      * by destruct (list_getitem blank_coltags i).
      * destruct (strip_tag (slot_text (slot_at (cells r) i))) as [|c t] eqn:Et'; [done|].
        by destruct (1 <? S (default 0%nat (count !! String c t)))%nat.
    + cbn. by destruct (list_getitem blank_coltags i).
  - cbn. by destruct (list_getitem blank_coltags i).
Qed.

Lemma coltags_loop_run svc s tag_row r : forall l acc,
  ready (ws s) -> lookup_row (ws s) tag_row = Some r -> Forall (fun i => 0 <= i) l ->
  mfold l (coltag_step svc tag_row) acc s
  = (fold_left (tag_step (cells r)) l (Ok acc), s).
Proof.
  induction l as [|i l IH]; intros acc Hrd Hr Hl; [done|].
  apply Forall_cons in Hl as [Hi Hl]. cbn [mfold fold_left]. mrun.
  rewrite (coltag_step_run svc s tag_row r) by done.
  destruct (tag_step (cells r) (Ok acc) i) as [acc'|e].
  - by apply IH.
  - by rewrite fold_tag_step_raise.
Qed.

Lemma py_range_nonneg a b : 0 <= a -> Forall (fun i => 0 <= i) (py_range a b).
Proof.
  intros Ha. unfold py_range. apply Forall_fmap, Forall_forall. intros k _. cbn. lia.
Qed.

(** On a loaded worksheet with headers the tags are those of the first
    header row. *)
Lemma get_coltags_run svc s h0 rest :
  has_data (ws s) = true ->
  _header_rows (ws s) = h0 :: rest ->
  1 <= nheaders (ws s) ->
  get_coltags svc s = (coltags_of (cells h0) (_max_col (ws s)), s).
Proof.
  intros H Hh Hn.
  assert (ready (ws s)) as Hrd by (split; [done|by rewrite Hh]).
  unfold get_coltags. mrun. rewrite ensure_data_loaded by done. mrun.
  unfold get_row. mrun.
  assert ((1 <=? nheaders (ws s)) = true) as -> by (apply Z.leb_le; lia).
  mrun. rewrite get_all_header_rows_loaded by done. mrun. rewrite Hh.
  rewrite py_index_nonneg by (cbn [length]; lia).
  change (Z.to_nat (1 - 1)) with 0%nat. mrun.
  rewrite get_max_col_loaded by done. mrun.
  rewrite (coltags_loop_run svc s (HeaderRow 0) h0).
  - unfold coltags_of. by destruct (fold_left _ _ _) as [[? ?]|].
  - done.
  - cbn. by rewrite Hh.
  - by apply py_range_nonneg.
Qed.

(** ** Document keys *)

Lemma list_ascii_of_string_app a b :
  list_ascii_of_string (a +:+ b) = list_ascii_of_string a ++ list_ascii_of_string b.
Proof.
  induction a as [|c a IH]; [done|].
  change (String c a +:+ b) with (String c (a +:+ b)). cbn. by rewrite IH.
Qed.

Lemma span_app p a b :
  forallb p a = true ->
  match b with c :: _ => p c = false | [] => True end ->
  span p (a ++ b) = (a, b).
Proof.
  intros Ha Hb. induction a as [|c a IH]; cbn in *.
  - destruct b as [|c b]; [done|]. cbn. by rewrite Hb.
  - apply andb_prop in Ha as [-> Ha]. by rewrite IH.
Qed.

Lemma strip_prefix_app pre l : strip_prefix pre (pre ++ l) = Some l.
Proof.
  induction pre as [|c pre IH]; cbn; [by destruct l|]. by rewrite Ascii.eqb_refl.
Qed.

Lemma forallb_rev {A} (p : A -> bool) l : forallb p (rev l) = forallb p l.
Proof.
  induction l as [|x l IH]; cbn; [done|].
  rewrite forallb_app, IH. cbn. destruct (p x), (forallb p l); done.
Qed.

Lemma strip_gid_fragment k ds :
  ds <> "" -> forallb is_digit (list_ascii_of_string ds) = true ->
  strip_gid (k +:+ "#gid=" +:+ ds) = k.
Proof.
  intros Hne Hds. unfold strip_gid.
  set (lds := list_ascii_of_string ds) in *.
  set (lgid := list_ascii_of_string "#gid=").
  assert (list_ascii_of_string (k +:+ "#gid=" +:+ ds)
          = list_ascii_of_string k ++ lgid ++ lds) as Hl
    by (by rewrite !list_ascii_of_string_app).
  assert (rev (list_ascii_of_string (k +:+ "#gid=" +:+ ds))
          = rev lds ++ rev lgid ++ rev (list_ascii_of_string k)) as Hr
    by (by rewrite Hl, !rev_app_distr, <- app_assoc).
  assert (exists c body, rev lds = c :: body /\ is_digit c = true) as (c & body & Hrev & Hc).
  { destruct (rev lds) as [|c body] eqn:E.
    - apply (f_equal (@rev _)) in E. rewrite rev_involutive in E. cbn in E.
      subst lds. destruct ds; [done|discriminate].
    - exists c, body. split; [done|].
      rewrite <- forallb_rev, E in Hds. cbn in Hds. by apply andb_prop in Hds as [? _]. }
  rewrite Hr. rewrite Hrev at 1. cbn [app].
  assert (Ascii.eqb c newline = false) as ->.
  { destruct (Ascii.eqb c newline) eqn:E; [|done]. apply Ascii.eqb_eq in E. by subst c. }
  unfold strip_gid_at_end. rewrite Hr.
  rewrite (span_app is_digit (rev lds)).
  - rewrite Hrev. fold lgid. rewrite strip_prefix_app, rev_involutive.
    apply string_of_list_ascii_of_string.
  - by rewrite forallb_rev.
  - done.
Qed.

(** ** What a computation sends to the service *)

Lemma emits_same {A} P (m : M A) :
  (forall s, trace (m s).2 = trace s) -> emits P m.
Proof. intros H s. exists []. by rewrite H, app_nil_r. Qed.

Lemma emits_ret {A} P (a : A) : emits P (mret a : M A).
Proof. by apply emits_same. Qed.
Lemma emits_raise {A} P e : emits P (raise (A:=A) e).
Proof. by apply emits_same. Qed.
Lemma emits_lift {A} P (r : result A) : emits P (lift r).
Proof. by apply emits_same. Qed.
Lemma emits_get_ws P : emits P get_ws.
Proof. by apply emits_same. Qed.
Lemma emits_history P : emits P history.
Proof. by apply emits_same. Qed.
Lemma emits_modify_ws P f : emits P (modify_ws f).
Proof. by apply emits_same. Qed.
Lemma emits_emit (P : Event -> Prop) e : P e -> emits P (emit e).
Proof. intros H s. exists [e]. split; [done|]. by apply Forall_singleton. Qed.

Lemma emits_bind {A B} P (m : M A) (k : A -> M B) :
  emits P m -> (forall a, emits P (k a)) -> emits P (m ≫= k).
Proof.
  intros Hm Hk s. rewrite bind_run. destruct (Hm s) as (l1 & E1 & F1).
  destruct (m s) as [[a|e] s1]; cbn [snd] in *.
  - destruct (Hk a s1) as (l2 & E2 & F2). exists (l1 ++ l2).
    rewrite E2, E1, app_assoc. split; [done|]. by apply Forall_app.
  - by exists l1.
Qed.

Lemma emits_mfor {A} P (l : list A) (body : A -> M unit) :
  (forall x, emits P (body x)) -> emits P (mfor l body).
Proof.
  intros H. induction l as [|x l IH]; cbn [mfor]; [apply emits_ret|].
  apply emits_bind; [apply H|]. intros _. apply IH.
Qed.

Lemma emits_mfold {A B} P (l : list A) (body : B -> A -> M B) :
  (forall acc x, emits P (body acc x)) -> forall acc, emits P (mfold l body acc).
Proof.
  intros H. induction l as [|x l IH]; intros acc; cbn [mfold]; [apply emits_ret|].
  apply emits_bind; [apply H|]. intros acc'. apply IH.
Qed.

(** Take a computation apart along its binds and case distinctions. *)
Ltac emits_step :=
  match goal with
  | |- emits _ (_ ≫= _) => apply emits_bind; [|intros ?]
  | |- emits _ (mret _) => apply emits_ret
  | |- emits _ (raise _) => apply emits_raise
  | |- emits _ (lift _) => apply emits_lift
  | |- emits _ get_ws => apply emits_get_ws
  | |- emits _ history => apply emits_history
  | |- emits _ (modify_ws _) => apply emits_modify_ws
  | |- emits _ (emit _) => apply emits_emit; try done
  | |- emits _ (mfor _ _) => apply emits_mfor; intros ?
  | |- emits _ (mfold _ _ _) => apply emits_mfold; intros ? ?
  | |- emits _ (match ?x with _ => _ end) => destruct x
  | |- emits _ (let '(_, _) := ?x in _) => destruct x
  end.
Ltac emits_auto := repeat emits_step.

Lemma mfold_invariant {A B} (I : B -> Prop) (body : B -> A -> M B) (l : list A) :
  (forall acc x s acc' s', I acc -> body acc x s = (Ok acc', s') -> I acc') ->
  forall acc s acc' s', I acc -> mfold l body acc s = (Ok acc', s') -> I acc'.
Proof.
  intros Hb. induction l as [|x l IH]; intros acc s acc' s' Hi; cbn [mfold].
  - rewrite ret_run. by intros [= <- _].
  - rewrite bind_run. destruct (body acc x s) as [[acc1|e] s1] eqn:E; [|done].
    apply IH. by eapply Hb.
Qed.

Lemma emits_GetWorksheetsFeed svc P k :
  P (EvGetWorksheetsFeed k) -> emits P (GetWorksheetsFeed svc k).
Proof. intros H. unfold GetWorksheetsFeed. emits_auto. Qed.

Lemma emits_Worksheet_new svc k e nh :
  emits (fun _ => True) (Worksheet_new svc k e nh).
Proof.
  unfold Worksheet_new, wksht_id_of, wksht_ids, WorksheetID_new.
  emits_auto; try apply emits_GetWorksheetsFeed; done.
Qed.

Lemma Worksheet_new_key svc k e nh s w s' :
  Worksheet_new svc k e nh s = (Ok w, s') -> key w = k.
Proof.
  unfold Worksheet_new. destruct (ws_row_count e <? nh); [done|].
  rewrite bind_run. destruct (wksht_id_of svc (ws_id e) None s) as [[wid|err] s1]; [|done].
  rewrite ret_run. by intros [= <- _].
Qed.

(** ** Uniqueness of the column tags *)

Lemma strip_tag_clean s : clean (strip_tag s).
Proof.
  unfold clean. induction s as [|c s IH]; [done|]. cbn [strip_tag].
  destruct (is_tag_char c) eqn:E; [|done]. cbn. by rewrite E.
Qed.

Lemma clean_head k : clean k -> k <> "" -> exists c t, k = String c t /\ is_tag_char c = true.
Proof.
  intros Hc Hne. destruct k as [|c t]; [done|]. exists c, t. split; [done|].
  unfold clean in Hc. cbn in Hc. by apply andb_prop in Hc as [? _].
Qed.

Lemma clean_no_underscore a d : ~ clean (a +:+ String "_" d).
Proof.
  unfold clean. induction a as [|c a IH].
  - by cbn.
  - change (String c a +:+ String "_" d) with (String c (a +:+ String "_" d)).
    cbn. intros H. apply andb_prop in H as [_ H]. by apply IH.
Qed.

Lemma suffix_split a a' d d' :
  clean a -> clean a' -> a +:+ String "_" d = a' +:+ String "_" d' -> a = a' /\ d = d'.
Proof.
  revert a'. induction a as [|c a IH]; intros [|c' a'] Ha Ha' E.
  - cbn in E. by simplify_eq.
  - change (String c' a' +:+ String "_" d') with (String c' (a' +:+ String "_" d')) in E.
    change ("" +:+ String "_" d) with (String "_" d) in E. simplify_eq.
    unfold clean in Ha'. cbn in Ha'. done.
  - change (String c a +:+ String "_" d) with (String c (a +:+ String "_" d)) in E.
    change ("" +:+ String "_" d') with (String "_" d') in E. simplify_eq.
    unfold clean in Ha. cbn in Ha. done.
  - change (String c a +:+ String "_" d) with (String c (a +:+ String "_" d)) in E.
    change (String c' a' +:+ String "_" d') with (String c' (a' +:+ String "_" d')) in E.
    simplify_eq. unfold clean in Ha, Ha'. cbn in Ha, Ha'.
    apply andb_prop in Ha as [_ Ha]. apply andb_prop in Ha' as [_ Ha'].
    destruct (IH a' Ha Ha' ltac:(done)) as [-> ->]. done.
Qed.

Lemma blank_coltags_head t :
  t ∈ blank_coltags -> exists rest, t = String "_" rest.
Proof.
  unfold blank_coltags. rewrite !elem_of_cons.
  intros H. repeat (destruct H as [->|H]; [eauto|]). by apply elem_of_nil in H.
Qed.

Lemma blank_coltags_NoDup : NoDup blank_coltags.
Proof. apply (bool_decide_unpack (NoDup blank_coltags)). by vm_compute. Qed.

Lemma tag_kind_mono i i' count count' t :
  tag_kind i count t -> i <= i' ->
  (forall k m, count !! k = Some m -> exists m', count' !! k = Some m' /\ (m <= m')%nat) ->
  tag_kind i' count' t.
Proof.
  intros [j Hj Hb|n Hc Hne Hn Hn1|k n m -> Hc Hne Hm Hnm] Hi Hcount.
  - apply (kind_blank _ _ _ j); [lia|done].
  - destruct (Hcount _ _ Hn) as (m' & Hm' & Hle).
    apply (kind_plain _ _ _ m'); [done..|lia].
  - destruct (Hcount _ _ Hm) as (m' & Hm' & Hle).
    apply (kind_suffixed _ _ _ k n m'); [done..|lia].
Qed.

Lemma list_getitem_inv {A} (l : list A) i x :
  0 <= i -> list_getitem l i = Ok x -> l !! Z.to_nat i = Some x.
Proof.
  intros Hi. unfold list_getitem, py_index.
  assert ((0 <=? i) = true) as -> by (apply Z.leb_le; lia). cbn [andb].
  destruct (i <? _) eqn:E.
  - destruct (l !! Z.to_nat i); [|done]. by intros [= ->].
  - assert ((i <? 0) = false) as -> by (apply Z.ltb_ge; lia).
    rewrite andb_false_r. done.
Qed.

Lemma tag_kind_head_blank i count t :
  tag_kind i count t ->
  (exists rest, t = String "_" rest) -> exists j, 0 <= j < i /\ blank_coltags !! Z.to_nat j = Some t.
Proof.
  intros [j Hj Hb|n Hc Hne Hn Hn1|k n m -> Hc Hne Hm Hnm] [rest E]; [eauto|..].
  - destruct (clean_head t Hc Hne) as (c & u & -> & Hch). by simplify_eq.
  - destruct (clean_head k Hc Hne) as (c & u & -> & Hch).
    change (String c u +:+ String "_" (pretty n))
      with (String c (u +:+ String "_" (pretty n))) in E. by simplify_eq.
Qed.

Lemma tag_step_inv cs acc acc' i :
  0 <= i -> tag_step cs (Ok acc) i = Ok acc' -> tags_inv i acc ->
  tags_inv (i + 1) acc' /\ length acc'.1 = S (length acc.1).
Proof.
  intros Hi. destruct acc as [coltags count]. unfold tag_step, tags_inv. cbn [fst snd].
  match goal with |- context [String.eqb ?t ""] => set (tag := t) end.
  assert (clean tag) as Hclean.
  { subst tag. destruct (_ && _); [apply strip_tag_clean|done]. }
  destruct (String.eqb tag "") eqn:Ee.
  - (* the tag comes from the table *)
    destruct (list_getitem blank_coltags i) as [t|] eqn:Eb; [|done].
    intros [= <-] [Hnd Hall]. cbn [fst snd].
    apply list_getitem_inv in Eb; [|done].
    split; [|rewrite length_app; cbn; lia]. split.
    + apply NoDup_app. split; [done|]. split; [|apply NoDup_singleton].
      intros u Hu Hin. apply list_elem_of_singleton in Hin. subst u.
      rewrite Forall_forall in Hall.
      destruct (tag_kind_head_blank _ _ _ (Hall _ Hu)) as (j & Hj & Hb).
      { apply blank_coltags_head. by eapply list_elem_of_lookup_2. }
      pose proof (NoDup_lookup _ _ _ _ blank_coltags_NoDup Hb Eb). lia.
    + apply Forall_app. split.
      * eapply Forall_impl; [exact Hall|]. intros u Hu.
        eapply tag_kind_mono; [exact Hu|lia|eauto].
      * apply Forall_singleton. apply (kind_blank _ _ _ i); [lia|done].
  - (* the tag comes from the header text *)
    apply String.eqb_neq in Ee.
    set (n := S (default 0%nat (count !! tag))).
    intros [= <-] [Hnd Hall]. cbn [fst snd].
    split; [|rewrite length_app; cbn; lia].
    assert (forall k m, count !! k = Some m ->
              exists m', <[tag:=n]> count !! k = Some m' /\ (m <= m')%nat) as Hgrow.
    { intros k m Hk. destruct (decide (k = tag)) as [->|Hkt].
      - rewrite lookup_insert_eq. exists n. split; [done|]. subst n. rewrite Hk. cbn. lia.
      - rewrite lookup_insert_ne by done. eauto. }
    rewrite Forall_forall in Hall. split.
    + apply NoDup_app. split; [done|]. split; [|apply NoDup_singleton].
      intros u Hu Hin. apply list_elem_of_singleton in Hin.
      destruct (clean_head tag Hclean Ee) as (c & rest & Htag & Hch).
      destruct (Hall _ Hu) as [j Hj Hb|m Hc Hne Hm Hm1|k n' m Hk Hc Hne Hm Hnm].
      * (* a blank tag starts with an underscore *)
        destruct (blank_coltags_head u) as [r' Hr']; [by eapply list_elem_of_lookup_2|].
        destruct (1 <? n)%nat; rewrite Hin, Htag in Hr';
          [change (String c rest +:+ "_" +:+ pretty n)
             with (String c (rest +:+ "_" +:+ pretty n)) in Hr'|];
          by simplify_eq.
      * (* a first occurrence *)
        destruct (1 <? n)%nat eqn:En.
        -- subst u. apply (clean_no_underscore tag (pretty n)). exact Hc.
        -- subst u. apply Nat.ltb_ge in En. subst n. rewrite Hm in En. cbn in En. lia.
      * (* a numbered occurrence *)
        destruct (1 <? n)%nat eqn:En.
        -- rewrite Hin in Hk.
           change (tag +:+ "_" +:+ pretty n) with (tag +:+ String "_" (pretty n)) in Hk.
           apply suffix_split in Hk as [-> Hp]; [|done..].
           apply (inj pretty) in Hp. subst n'. subst n. rewrite Hm in Hnm. cbn in Hnm. lia.
        -- subst u. apply (clean_no_underscore k (pretty n')). by rewrite <- Hk.
    + apply Forall_app. split.
      * apply Forall_forall. intros u Hu.
        eapply tag_kind_mono; [exact (Hall _ Hu)|lia|exact Hgrow].
      * apply Forall_singleton. destruct (1 <? n)%nat eqn:En.
        -- apply Nat.ltb_lt in En.
           apply (kind_suffixed _ _ _ tag n n); [done..|by rewrite lookup_insert_eq|lia].
        -- apply (kind_plain _ _ _ n); [done..|by rewrite lookup_insert_eq|].
           subst n. lia.
Qed.

Lemma py_range_nil a b : b <= a -> py_range a b = [].
Proof. intros H. unfold py_range. by replace (Z.to_nat (b - a)) with 0%nat by lia. Qed.

Lemma py_range_cons a b : a < b -> py_range a b = a :: py_range (a + 1) b.
Proof.
  intros H. unfold py_range.
  replace (Z.to_nat (b - a)) with (S (Z.to_nat (b - (a + 1)))) by lia.
  cbn [seq fmap list_fmap]. f_equal; [lia|].
  rewrite <- fmap_S_seq, <- list_fmap_compose. apply list_fmap_ext.
  intros _ k _. cbn. lia.
Qed.

Lemma fold_tag_step_inv cs b : forall (cnt : nat) a acc acc',
  0 <= a -> Z.to_nat (b - a) = cnt ->
  fold_left (tag_step cs) (py_range a b) (Ok acc) = Ok acc' ->
  tags_inv a acc ->
  NoDup acc'.1 /\ length acc'.1 = (length acc.1 + cnt)%nat.
Proof.
  induction cnt as [|cnt IH]; intros a acc acc' Ha Hcnt.
  - rewrite py_range_nil by lia. cbn. intros [= <-] [Hnd _]. split; [done|lia].
  - rewrite py_range_cons by lia. cbn [fold_left].
    destruct (tag_step cs (Ok acc) a) as [acc1|e] eqn:E.
    + intros Hf Hinv. destruct (tag_step_inv cs acc acc1 a Ha E Hinv) as [Hinv1 Hlen].
      destruct (IH (a + 1) acc1 acc' ltac:(lia) ltac:(lia) Hf Hinv1) as [Hnd Hl].
      split; [done|lia].
    + by rewrite fold_tag_step_raise.
Qed.

(** When the tags of a row can be computed, there is one per column up
    to the wider of the data and the table of blank tags, and no tag
    occurs twice. *)
Lemma coltags_of_unique cs mc tags :
  coltags_of cs mc = Ok tags ->
  NoDup tags /\ length tags = Z.to_nat (Z.max mc (Z.of_nat (length blank_coltags))).
Proof.
  unfold coltags_of.
  destruct (fold_left _ _ _) as [[coltags count]|e] eqn:E; [|done].
  intros [= <-].
  destruct (fold_tag_step_inv cs _ _ 0 ([], ∅) (coltags, count) ltac:(lia) eq_refl E)
    as [Hnd Hlen].
  - split; [apply NoDup_nil_2|apply Forall_nil_2].
  - split; [done|]. cbn [fst snd] in Hlen. rewrite Hlen.
    change (length (A:=string) []) with 0%nat. lia.
Qed.

Lemma tag_step_narrow cs acc i :
  0 <= i < Z.of_nat (length blank_coltags) -> exists acc', tag_step cs (Ok acc) i = Ok acc'.
Proof.
  intros Hi. destruct acc as [coltags count]. unfold tag_step.
  destruct (String.eqb _ ""); [|eauto].
  unfold list_getitem. rewrite py_index_nonneg by done.
  destruct (blank_coltags !! Z.to_nat i) eqn:E; [eauto|].
  apply lookup_ge_None in E. lia.
Qed.

(** Up to the width of the table of blank tags the computation cannot
    fail. *)
Lemma coltags_of_narrow cs mc :
  mc <= Z.of_nat (length blank_coltags) -> exists tags, coltags_of cs mc = Ok tags.
Proof.
  intros Hmc. unfold coltags_of. rewrite Z.max_r by done.
  assert (forall (cnt : nat) a acc,
            0 <= a -> a + Z.of_nat cnt = Z.of_nat (length blank_coltags) ->
            exists acc', fold_left (tag_step cs) (py_range a (Z.of_nat (length blank_coltags)))
                           (Ok acc) = Ok acc') as Hfold.
  { induction cnt as [|cnt IH]; intros a acc Ha Hcnt.
    - rewrite py_range_nil by lia. cbn. eauto.
    - rewrite py_range_cons by lia. cbn [fold_left].
      destruct (tag_step_narrow cs acc a ltac:(lia)) as [acc1 ->].
      apply IH; lia. }
  destruct (Hfold (length blank_coltags) 0 ([], ∅) ltac:(lia) ltac:(lia)) as [[tags count] ->].
  eauto.
Qed.

(** On a loaded worksheet with headers, the tags that [get_coltags]
    returns are pairwise different, one per column; it returns whenever
    the data are no wider than the table of blank tags. *)
Lemma get_coltags_unique svc s h0 rest tags :
  has_data (ws s) = true ->
  _header_rows (ws s) = h0 :: rest ->
  1 <= nheaders (ws s) ->
  (get_coltags svc s).1 = Ok tags ->
  NoDup tags /\
  length tags = Z.to_nat (Z.max (_max_col (ws s)) (Z.of_nat (length blank_coltags))).
Proof.
  intros H Hh Hn. rewrite (get_coltags_run svc s h0 rest) by done. cbn [fst].
  apply coltags_of_unique.
Qed.

Lemma get_coltags_narrow svc s h0 rest :
  has_data (ws s) = true ->
  _header_rows (ws s) = h0 :: rest ->
  1 <= nheaders (ws s) ->
  _max_col (ws s) <= Z.of_nat (length blank_coltags) ->
  exists tags, get_coltags svc s = (Ok tags, s).
Proof.
  intros H Hh Hn Hmc. rewrite (get_coltags_run svc s h0 rest) by done.
  destruct (coltags_of_narrow (cells h0) _ Hmc) as [tags ->]. eauto.
Qed.

(** ** Properties of the worksheet that computations keep *)

Lemma keeps_same {A} I (m : M A) : (forall s, ws (m s).2 = ws s) -> keeps I m.
Proof. intros H s Hi. by rewrite H. Qed.

Lemma keeps_ret {A} I (a : A) : keeps I (mret a : M A).
Proof. by apply keeps_same. Qed.
Lemma keeps_raise {A} I e : keeps I (raise (A:=A) e).
Proof. by apply keeps_same. Qed.
Lemma keeps_lift {A} I (r : result A) : keeps I (lift r).
Proof. by apply keeps_same. Qed.
Lemma keeps_get_ws I : keeps I get_ws.
Proof. by apply keeps_same. Qed.
Lemma keeps_history I : keeps I history.
Proof. by apply keeps_same. Qed.
Lemma keeps_emit I e : keeps I (emit e).
Proof. by apply keeps_same. Qed.
Lemma keeps_modify_ws (I : Worksheet -> Prop) f :
  (forall w, I w -> I (f w)) -> keeps I (modify_ws f).
Proof. intros H s Hi. by apply H. Qed.

Lemma keeps_bind {A B} I (m : M A) (k : A -> M B) :
  keeps I m -> (forall a, keeps I (k a)) -> keeps I (m ≫= k).
Proof.
  intros Hm Hk s Hi. rewrite bind_run. specialize (Hm s Hi).
  destruct (m s) as [[a|e] s1]; cbn [snd] in *; [by apply Hk|done].
Qed.

Lemma keeps_mfor {A} I (l : list A) (body : A -> M unit) :
  (forall x, keeps I (body x)) -> keeps I (mfor l body).
Proof.
  intros H. induction l as [|x l IH]; cbn [mfor]; [apply keeps_ret|].
  apply keeps_bind; [apply H|]. intros _. apply IH.
Qed.

Lemma keeps_mfold {A B} I (l : list A) (body : B -> A -> M B) :
  (forall acc x, keeps I (body acc x)) -> forall acc, keeps I (mfold l body acc).
Proof.
  intros H. induction l as [|x l IH]; intros acc; cbn [mfold]; [apply keeps_ret|].
  apply keeps_bind; [apply H|]. intros acc'. apply IH.
Qed.

Ltac keeps_step :=
  match goal with
  | |- keeps _ (_ ≫= _) => apply keeps_bind; [|intros ?]
  | |- keeps _ (mret _) => apply keeps_ret
  | |- keeps _ (raise _) => apply keeps_raise
  | |- keeps _ (lift _) => apply keeps_lift
  | |- keeps _ get_ws => apply keeps_get_ws
  | |- keeps _ history => apply keeps_history
  | |- keeps _ (emit _) => apply keeps_emit
  | |- keeps _ (mfor _ _) => apply keeps_mfor; intros ?
  | |- keeps _ (mfold _ _ _) => apply keeps_mfold; intros ? ?
  | |- keeps _ (match ?x with _ => _ end) => destruct x
  | |- keeps _ (let '(_, _) := ?x in _) => destruct x
  end.

(** *** The numbering of the data rows *)

Lemma rows_contiguous_cells cs self w :
  rows_contiguous w -> rows_contiguous (alter_row (set_cells cs) self w).
Proof.
  intros H. destruct self as [i|i]; [exact H|].
  intros j r. cbn. rewrite list_lookup_alter.
  destruct (decide (i = j)) as [->|]; [|apply H].
  destruct (_rows w !! j) as [r0|] eqn:E; [|done]. cbn. intros [= <-]. cbn. by apply H.
Qed.

Lemma rows_contiguous_append w :
  rows_contiguous w ->
  rows_contiguous
    (set_rows (_rows w ++ [Row_new (Z.of_nat (length (_rows w)) + nheaders w + 1)]) w).
Proof.
  intros H j r. cbn. intros Hj. apply lookup_app_Some in Hj as [Hj|[Hlen Hj]].
  - by apply H.
  - apply list_lookup_singleton_Some in Hj as [Hj <-]. cbn. lia.
Qed.

Lemma keeps_UpdateCell svc I r c v k wid : keeps I (UpdateCell svc r c v k wid).
Proof. apply keeps_same. intros s. apply UpdateCell_ws. Qed.

Lemma keeps_write_cells self cs : keeps rows_contiguous (write_cells self cs).
Proof. apply keeps_modify_ws. intros w. apply rows_contiguous_cells. Qed.

Lemma keeps_Row__set_local self i v : keeps rows_contiguous (Row__set_local self i v).
Proof. unfold Row__set_local, read_row. repeat keeps_step. apply keeps_write_cells. Qed.

Lemma keeps_append_header_row r : keeps rows_contiguous (append_header_row r).
Proof. by apply keeps_modify_ws. Qed.

Lemma keeps_set_max_col n : keeps rows_contiguous (modify_ws (set_max_col n)).
Proof. by apply keeps_modify_ws. Qed.

(** The loop of [init_cell] that adds the missing rows: it starts at
    the number after the last row. *)
Lemma append_rows_contiguous b : forall (cnt : nat) a s,
  rows_contiguous (ws s) ->
  a = Z.of_nat (length (_rows (ws s))) + nheaders (ws s) + 1 ->
  Z.to_nat (b - a) = cnt ->
  rows_contiguous
    (ws (mfor (py_range a b) (fun n => append_data_row (Row_new n)) s).2).
Proof.
  induction cnt as [|cnt IH]; intros a s Hc Ha Hcnt.
  - by rewrite py_range_nil by lia.
  - rewrite py_range_cons by lia. cbn [mfor]. unfold append_data_row at 1. mrun.
    apply IH.
    + cbn [ws]. subst a. by apply rows_contiguous_append.
    + cbn. rewrite length_app. cbn. lia.
    + lia.
Qed.

(** Continue with the rest of a computation once its state satisfies
    the property. *)
Ltac to_keeps H :=
  match goal with
  | |- ?I (ws (?m ?s).2) =>
      let Hk := fresh "Hk" in
      cut (keeps I m); [intros Hk; apply Hk; exact H|]
  end.

Lemma keeps_init_cell r c cell : keeps rows_contiguous (init_cell r c cell).
Proof.
  intros s Hc. unfold init_cell. rewrite bind_run, get_ws_run. cbv beta iota zeta.
  rewrite bind_run.
  pose proof (append_rows_contiguous (r + 1) _ _ s Hc eq_refl eq_refl) as Hloop.
  destruct (mfor _ _ s) as [[[]|e] s1]; cbn [snd] in Hloop; [|done].
  to_keeps Hloop. repeat keeps_step; try apply keeps_set_max_col.
  apply keeps_Row__set_local.
Qed.

Lemma keeps_load_cell cell : keeps rows_contiguous (load_cell cell).
Proof.
  unfold load_cell. repeat keeps_step;
    first [apply keeps_append_header_row | apply keeps_Row__set_local | apply keeps_init_cell].
Qed.

(** Reading the cells feed numbers the data rows from the first row
    after the headers on, one by one. *)
Lemma keeps_get_cells_feed svc : keeps rows_contiguous (get_cells_feed svc).
Proof.
  unfold get_cells_feed, GetCellsFeed. repeat keeps_step;
    first [ apply keeps_append_header_row | apply keeps_load_cell
          | by apply keeps_modify_ws ].
Qed.

Create HintDb keeps discriminated.
#[local] Hint Resolve keeps_append_header_row keeps_Row__set_local keeps_init_cell
  keeps_load_cell keeps_get_cells_feed keeps_set_max_col keeps_write_cells
  keeps_UpdateCell : keeps.

(** Split a computation and close the parts that are known to keep the
    property. *)
Ltac keeps_auto := repeat first [keeps_step | solve [auto with keeps]].

Lemma keeps_ensure_data svc : keeps rows_contiguous (ensure_data svc).
Proof. unfold ensure_data, load_data. keeps_auto. Qed.
#[local] Hint Resolve keeps_ensure_data : keeps.

Lemma keeps_get_rows svc : keeps rows_contiguous (get_rows svc).
Proof. unfold get_rows. keeps_auto. Qed.
Lemma keeps_get_headers svc : keeps rows_contiguous (get_headers svc).
Proof. unfold get_headers. keeps_auto. Qed.
Lemma keeps_get_all_header_rows svc : keeps rows_contiguous (get_all_header_rows svc).
Proof. unfold get_all_header_rows. keeps_auto. Qed.
Lemma keeps_get_max_col svc : keeps rows_contiguous (get_max_col svc).
Proof. unfold get_max_col. keeps_auto. Qed.
Lemma keeps_read_row self : keeps rows_contiguous (read_row self).
Proof. unfold read_row. keeps_auto. Qed.
#[local] Hint Resolve keeps_get_rows keeps_get_headers keeps_get_all_header_rows
  keeps_get_max_col keeps_read_row : keeps.

Lemma keeps_get_max_row svc : keeps rows_contiguous (get_max_row svc).
Proof. unfold get_max_row. keeps_auto. Qed.
Lemma keeps_get_index_of_key svc self k : keeps rows_contiguous (get_index_of_key svc self k).
Proof. unfold get_index_of_key. keeps_auto. Qed.
#[local] Hint Resolve keeps_get_max_row keeps_get_index_of_key : keeps.

Lemma keeps_Row_getitem svc self k : keeps rows_contiguous (Row_getitem svc self k).
Proof. unfold Row_getitem. keeps_auto. Qed.
#[local] Hint Resolve keeps_Row_getitem : keeps.

Lemma keeps_trim_loop svc self n : keeps rows_contiguous (trim_loop svc n self).
Proof. induction n as [|n IH]; cbn [trim_loop]; keeps_auto. Qed.
#[local] Hint Resolve keeps_trim_loop : keeps.

(** A cell write never changes a row number. *)
Lemma keeps_Row_setitem svc self k v : keeps rows_contiguous (Row_setitem svc self k v).
Proof. unfold Row_setitem. keeps_auto. Qed.
#[local] Hint Resolve keeps_Row_setitem : keeps.

Lemma keeps_get_row svc n : keeps rows_contiguous (get_row svc n).
Proof. unfold get_row. keeps_auto. Qed.
#[local] Hint Resolve keeps_get_row : keeps.

Lemma keeps_coltag_step svc tag_row acc i :
  keeps rows_contiguous (coltag_step svc tag_row acc i).
Proof. unfold coltag_step. keeps_auto. Qed.
#[local] Hint Resolve keeps_coltag_step : keeps.

Lemma keeps_get_coltags svc : keeps rows_contiguous (get_coltags svc).
Proof. unfold get_coltags. keeps_auto. Qed.
#[local] Hint Resolve keeps_get_coltags : keeps.

Lemma keeps_RowData_init svc data : keeps rows_contiguous (RowData_init svc data).
Proof. unfold RowData_init, RowData_item, headers_cells. keeps_auto. Qed.

Lemma keeps_get_insert_vals svc rd : keeps rows_contiguous (get_insert_vals svc rd).
Proof. unfold get_insert_vals. keeps_auto. Qed.

Lemma keeps_is_blank rd : keeps rows_contiguous (is_blank rd).
Proof. unfold is_blank. keeps_auto. Qed.

Lemma keeps_fill_blank_header svc acc i :
  keeps rows_contiguous (fill_blank_header svc acc i).
Proof. unfold fill_blank_header. keeps_auto. Qed.

Lemma keeps_Worksheet_getitem svc i : keeps rows_contiguous (Worksheet_getitem svc i).
Proof. unfold Worksheet_getitem. keeps_auto. Qed.
#[local] Hint Resolve keeps_RowData_init keeps_get_insert_vals keeps_is_blank
  keeps_fill_blank_header keeps_Worksheet_getitem : keeps.

Lemma keeps_append_value svc ow res item :
  keeps rows_contiguous (append_value svc ow res item).
Proof. unfold append_value. keeps_auto. Qed.

Lemma keeps_InsertRow svc I vals k wid : keeps I (InsertRow svc vals k wid).
Proof. unfold InsertRow. keeps_auto. Qed.
#[local] Hint Resolve keeps_append_value keeps_InsertRow : keeps.

(** *** Once loaded, always loaded *)

Lemma loaded_write_cells self cs : keeps loaded (write_cells self cs).
Proof. apply keeps_modify_ws. intros w. by destruct self. Qed.

Lemma loaded_Row__set_local self i v : keeps loaded (Row__set_local self i v).
Proof. unfold Row__set_local, read_row. repeat keeps_step. apply loaded_write_cells. Qed.

Lemma loaded_init_cell r c cell : keeps loaded (init_cell r c cell).
Proof.
  unfold init_cell, append_data_row.
  repeat keeps_step; first [apply loaded_Row__set_local | by apply keeps_modify_ws].
Qed.

Lemma loaded_load_cell cell : keeps loaded (load_cell cell).
Proof.
  unfold load_cell, append_header_row.
  repeat keeps_step;
    first [apply loaded_Row__set_local | apply loaded_init_cell | by apply keeps_modify_ws].
Qed.

Lemma get_cells_feed_loaded svc s f s' :
  get_cells_feed svc s = (Ok f, s') -> loaded (ws s').
Proof.
  unfold get_cells_feed. rewrite bind_run, get_ws_run. cbv beta iota.
  destruct (_cells_feed (ws s)) as [f0|] eqn:E.
  - rewrite ret_run. intros [= _ <-]. unfold loaded, has_data. by rewrite E.
  - unfold GetCellsFeed. mrun. cbn [ws trace].
    destruct (svc_GetCellsFeed svc _ _ _) as [f0|e]; mrun; [|done].
    cbn [ws trace]. intros Hrun.
    match type of Hrun with
    | (match ?m ?s0 with _ => _ end) = _ =>
        assert (loaded (ws (m s0).2)) as Hl; [|destruct (m s0) as [[[]|e] s1]]
    end.
    + match goal with |- loaded (ws (?m ?s0).2) =>
        cut (keeps loaded m); [intros Hk; by apply Hk|] end.
      apply keeps_mfor. intros x. apply loaded_load_cell.
    + revert Hrun. mrun.
      match goal with
      | |- (match ?m ?s0 with _ => _ end) = _ -> _ =>
          assert (loaded (ws (m s0).2)) as Hl2; [|destruct (m s0) as [[[]|e] s2]]
      end.
      * match goal with |- loaded (ws (?m ?s0).2) =>
          cut (keeps loaded m); [intros Hk; by apply Hk|] end.
        apply keeps_mfor. intros x. unfold append_header_row. by apply keeps_modify_ws.
      * mrun. by intros [= _ <-].
      * done.
    + done.
Qed.

Lemma get_rows_inv svc s rs s' :
  get_rows svc s = (Ok rs, s') -> loaded (ws s') /\ rs = _rows (ws s').
Proof.
  unfold get_rows, ensure_data, load_data. mrun.
  destruct (has_data (ws s)) eqn:E; mrun.
  - by intros [= <- <-].
  - destruct (get_cells_feed svc s) as [[f|e] s1] eqn:Ef; mrun; [|done].
    intros [= <- <-]. split; [|done]. by eapply get_cells_feed_loaded.
Qed.

Lemma get_max_row_inv svc s n s' :
  get_max_row svc s = (Ok n, s') ->
  loaded (ws s') /\ n = Z.of_nat (length (_rows (ws s'))) + nheaders (ws s').
Proof.
  unfold get_max_row. rewrite bind_run.
  destruct (get_rows svc s) as [[rs|e] s1] eqn:Er; [|done].
  destruct (get_rows_inv _ _ _ _ Er) as [Hl ->]. mrun. by intros [= <- <-].
Qed.

(** [append] keeps the numbering of the data rows: the new row gets the
    number after the last one. *)
Lemma keeps_append svc vals ow : keeps rows_contiguous (append svc vals ow).
Proof.
  unfold append.
  do 6 (apply keeps_bind; [solve [keeps_auto]|intros ?]).
  apply keeps_bind; [solve [keeps_auto]|intros _].
  intros s Hc. rewrite bind_run.
  pose proof (keeps_get_max_row svc s Hc) as Hc1.
  destruct (get_max_row svc s) as [[n|e] s1] eqn:Em; cbn [snd] in Hc1; [|done].
  destruct (get_max_row_inv _ _ _ _ Em) as [Hl ->]. cbv beta iota zeta.
  rewrite bind_run, (get_rows_loaded svc s1) by done. cbv beta iota.
  rewrite bind_run. unfold append_data_row at 1. rewrite modify_ws_run. cbv beta iota.
  match goal with
  | |- rows_contiguous (ws (?m ?s0).2) =>
      cut (keeps rows_contiguous m);
        [intros Hk; apply Hk; cbn [ws]; by apply rows_contiguous_append|]
  end.
  keeps_auto.
Qed.

(** ** Calls made while reading and writing cells *)

Lemma retries_quiet n r c v k wid :
  Forall read_or_update (retries n (EvUpdateCell r c v k wid)).
Proof.
  unfold retries. induction n as [|n IH]; cbn; [done|].
  repeat (apply Forall_cons; split; [done|]). exact IH.
Qed.

Lemma emits_UpdateCell svc r c v k wid : emits read_or_update (UpdateCell svc r c v k wid).
Proof.
  intros s. destruct (UpdateCell_attempts svc r c v k wid s) as (j & _ & _ & -> & _).
  cbn [trace]. eexists. split; [done|]. apply Forall_app. split.
  - apply retries_quiet.
  - by apply Forall_singleton.
Qed.

Create HintDb emits discriminated.
#[local] Hint Resolve emits_UpdateCell : emits.

Ltac emits_quiet := repeat first [emits_step | solve [auto with emits]].

Lemma emits_read_row self : emits read_or_update (read_row self).
Proof. unfold read_row. emits_quiet. Qed.
Lemma emits_write_cells self cs : emits read_or_update (write_cells self cs).
Proof. unfold write_cells. emits_quiet. Qed.
#[local] Hint Resolve emits_read_row emits_write_cells : emits.

Lemma emits_Row__set_local self i v : emits read_or_update (Row__set_local self i v).
Proof. unfold Row__set_local. emits_quiet. Qed.
#[local] Hint Resolve emits_Row__set_local : emits.

Lemma emits_init_cell r c cell : emits read_or_update (init_cell r c cell).
Proof. unfold init_cell, append_data_row. emits_quiet. Qed.
#[local] Hint Resolve emits_init_cell : emits.

Lemma emits_load_cell cell : emits read_or_update (load_cell cell).
Proof. unfold load_cell, append_header_row. emits_quiet. Qed.
#[local] Hint Resolve emits_load_cell : emits.

Lemma emits_get_cells_feed svc : emits read_or_update (get_cells_feed svc).
Proof. unfold get_cells_feed, GetCellsFeed, append_header_row. emits_quiet. Qed.
#[local] Hint Resolve emits_get_cells_feed : emits.

Lemma emits_ensure_data svc : emits read_or_update (ensure_data svc).
Proof. unfold ensure_data, load_data. emits_quiet. Qed.
#[local] Hint Resolve emits_ensure_data : emits.

Lemma emits_get_rows svc : emits read_or_update (get_rows svc).
Proof. unfold get_rows. emits_quiet. Qed.
Lemma emits_get_headers svc : emits read_or_update (get_headers svc).
Proof. unfold get_headers. emits_quiet. Qed.
Lemma emits_get_all_header_rows svc : emits read_or_update (get_all_header_rows svc).
Proof. unfold get_all_header_rows. emits_quiet. Qed.
Lemma emits_get_max_col svc : emits read_or_update (get_max_col svc).
Proof. unfold get_max_col. emits_quiet. Qed.
#[local] Hint Resolve emits_get_rows emits_get_headers emits_get_all_header_rows
  emits_get_max_col : emits.

Lemma emits_get_index_of_key svc self k : emits read_or_update (get_index_of_key svc self k).
Proof. unfold get_index_of_key. emits_quiet. Qed.
#[local] Hint Resolve emits_get_index_of_key : emits.

Lemma emits_Row_getitem svc self k : emits read_or_update (Row_getitem svc self k).
Proof. unfold Row_getitem. emits_quiet. Qed.
#[local] Hint Resolve emits_Row_getitem : emits.

Lemma emits_trim_loop svc self n : emits read_or_update (trim_loop svc n self).
Proof. induction n as [|n IH]; cbn [trim_loop]; emits_quiet. Qed.
#[local] Hint Resolve emits_trim_loop : emits.

(** A cell write reaches the service with updates only. *)
Lemma emits_Row_setitem svc self k v : emits read_or_update (Row_setitem svc self k v).
Proof. unfold Row_setitem. emits_quiet. Qed.
#[local] Hint Resolve emits_Row_setitem : emits.

Lemma emits_get_row svc n : emits read_or_update (get_row svc n).
Proof. unfold get_row. emits_quiet. Qed.
#[local] Hint Resolve emits_get_row : emits.

Lemma emits_coltag_step svc tag_row acc i :
  emits read_or_update (coltag_step svc tag_row acc i).
Proof. unfold coltag_step. emits_quiet. Qed.
#[local] Hint Resolve emits_coltag_step : emits.

Lemma emits_get_coltags svc : emits read_or_update (get_coltags svc).
Proof. unfold get_coltags. emits_quiet. Qed.
#[local] Hint Resolve emits_get_coltags : emits.

Lemma emits_RowData_init svc data : emits read_or_update (RowData_init svc data).
Proof. unfold RowData_init, RowData_item, headers_cells. emits_quiet. Qed.

Lemma emits_get_insert_vals svc rd : emits read_or_update (get_insert_vals svc rd).
Proof. unfold get_insert_vals. emits_quiet. Qed.

Lemma emits_fill_blank_header svc acc i :
  emits read_or_update (fill_blank_header svc acc i).
Proof. unfold fill_blank_header. emits_quiet. Qed.
#[local] Hint Resolve emits_RowData_init emits_get_insert_vals emits_fill_blank_header : emits.

(** Fetching the list feed sends no delete. *)
Lemma emits_get_list_feed svc : emits read_or_update (get_list_feed svc).
Proof. unfold get_list_feed, fill_blank, GetListFeed. emits_quiet. Qed.

(** ** An append without values *)

Lemma bind_inv {A B} (m : M A) (k : A -> M B) s b s' :
  (m ≫= k) s = (Ok b, s') -> exists a s1, m s = (Ok a, s1) /\ k a s1 = (Ok b, s').
Proof.
  rewrite bind_run. destruct (m s) as [[a|e] s1]; [eauto|done].
Qed.

Lemma fails_quietly_bind {A B} (Q : A -> Prop) (m : M A) (k : A -> M B) :
  emits read_or_update m ->
  (forall s a s', m s = (Ok a, s') -> Q a) ->
  (forall a, Q a -> fails_quietly (k a)) ->
  fails_quietly (m ≫= k).
Proof.
  intros Hm Hq Hk s. rewrite bind_run. destruct (Hm s) as (l1 & E1 & F1).
  destruct (m s) as [[a|e] s1] eqn:E; cbn [fst snd] in *.
  - destruct (Hk a (Hq _ _ _ E) s1) as [Hr (l2 & E2 & F2)]. split; [done|].
    exists (l1 ++ l2). rewrite E2, E1, app_assoc. split; [done|]. by apply Forall_app.
  - split; [eauto|]. eauto.
Qed.

Lemma fails_quietly_then {A B} (m : M A) (k : A -> M B) :
  fails_quietly m -> fails_quietly (m ≫= k).
Proof.
  intros Hm s. rewrite bind_run. destruct (Hm s) as [[e He] Ht].
  destruct (m s) as [[a|e'] s1]; cbn [fst snd] in *; [done|]. split; [eauto|done].
Qed.

Lemma coltag_step_nonempty svc tag_row acc i s acc' s' :
  coltag_step svc tag_row acc i s = (Ok acc', s') -> acc'.1 <> [].
Proof.
  destruct acc as [coltags count]. unfold coltag_step. intros H.
  apply bind_inv in H as (r & s1 & _ & H).
  apply bind_inv in H as ([tag count'] & s2 & _ & H).
  apply bind_inv in H as (tag' & s3 & _ & H).
  rewrite ret_run in H. injection H as <- _. cbn. by destruct coltags.
Qed.

Lemma get_coltags_nonempty svc s tags s' :
  get_coltags svc s = (Ok tags, s') -> tags <> [].
Proof.
  unfold get_coltags. intros H.
  apply bind_inv in H as (_ & s1 & _ & H).
  apply bind_inv in H as (tag_row & s2 & _ & H).
  apply bind_inv in H as (mc & s3 & _ & H).
  apply bind_inv in H as ([coltags count] & s4 & H & H').
  rewrite ret_run in H'. injection H' as <- _.
  rewrite py_range_cons in H by (change (length blank_coltags) with 29%nat; lia).
  cbn [mfold] in H. apply bind_inv in H as (acc1 & s5 & Hstep & H).
  apply coltag_step_nonempty in Hstep.
  apply (mfold_invariant (fun acc => acc.1 <> []) _ _
           (fun acc x s0 acc' s0' _ => coltag_step_nonempty svc tag_row acc x s0 acc' s0')
           _ _ _ _ Hstep H).
Qed.

Lemma assign_coltags_blank tags rd : blank_data rd -> blank_data (assign_coltags tags rd).
Proof.
  intros H. revert tags. induction H as [|x rd (it & -> & Hv) Hrd IH]; intros [|t tags]; cbn;
    try done; try (by constructor; eauto).
  apply Forall_cons. split; [|apply IH].
  rewrite Hv. cbn. eauto.
Qed.

Lemma RowData_init_blank svc l s rd s' :
  Forall (fun v => normalize v = "") l ->
  RowData_init svc (InSeq l) s = (Ok rd, s') -> blank_data rd.
Proof.
  intros Hl H. unfold RowData_init in H.
  apply bind_inv in H as (self & s1 & Hself & H).
  apply bind_inv in H as (tags & s2 & _ & H).
  rewrite ret_run in Hself, H. injection Hself as <- _. injection H as <- _.
  apply assign_coltags_blank. unfold blank_data.
  apply Forall_forall. intros x Hx.
  apply elem_of_lookup_imap in Hx as (i & v & -> & Hv).
  eexists. split; [done|]. cbn. rewrite Forall_forall in Hl. apply Hl.
  by eapply list_elem_of_lookup_2.
Qed.

(** With nothing to insert, [get_insert_vals] never returns. *)
Lemma get_insert_vals_blank svc rd : blank_data rd -> fails_quietly (get_insert_vals svc rd).
Proof.
  intros Hrd s. split; [|apply emits_get_insert_vals].
  unfold get_insert_vals. rewrite bind_run.
  assert (forall vals, mfold rd
            (fun (vals : gmap string string) item =>
               match item with
               | None => raise AttributeError
               | Some it =>
                   match coltag it with
                   | Some t =>
                       if negb (String.eqb (val it) "") && negb (String.eqb t "")
                       then mret (<[t:=val it]> vals)
                       else mret vals
                   | None => mret vals
                   end
               end) vals s = (Ok vals, s)) as ->.
  { induction Hrd as [|x rd (it & -> & Hv) Hrd IH]; intros vals; [done|].
    cbn [mfold]. rewrite bind_run, Hv. cbn [String.eqb negb andb].
    destruct (coltag it); rewrite ret_run; apply IH. }
  rewrite bool_decide_eq_true_2 by done. rewrite bind_run.
  destruct (get_coltags svc s) as [[tags|e] s1] eqn:E; cbn [fst]; [|eauto].
  apply get_coltags_nonempty in E. destruct tags; [done|]. rewrite raise_run. eauto.
Qed.

(** An append of empty values raises before anything is inserted: what
    the service has seen until then are reads and cell updates. *)
Lemma append_blank_fails svc l ow :
  Forall (fun v => normalize v = "") l -> fails_quietly (append svc (InSeq l) ow).
Proof.
  intros Hl. unfold append.
  apply (fails_quietly_bind blank_data); [apply emits_RowData_init| |].
  { intros s rd s'. by apply RowData_init_blank. }
  intros rd Hrd.
  apply (fails_quietly_bind (fun _ => True)); [apply emits_get_all_header_rows|done|].
  intros hs _.
  apply (fails_quietly_bind (fun _ => True)); [|done|].
  { apply emits_mfold. intros acc i. apply emits_fill_blank_header. }
  intros blank_rows _.
  apply fails_quietly_then. by apply get_insert_vals_blank.
Qed.

(** ** Deleting a row of a sheet with one header row *)





Lemma get_list_feed_cached svc s f :
  _list_feed (ws s) = Some f -> get_list_feed svc s = (Ok f, s).
Proof. intros H. unfold get_list_feed. mrun. by rewrite H. Qed.




(** ** Capitals *)

Lemma lower_not_upper c : is_upper c = true -> is_upper (lower c) = false.
Proof.
  destruct c as [[] [] [] [] [] [] [] []]; vm_compute; congruence.
Qed.

Lemma lower_low c : is_upper c = false -> lower c = c.
Proof. unfold lower, is_upper. by intros ->. Qed.

Lemma upper_not_newline c : is_upper c = true -> Ascii.eqb c newline = false.
Proof.
  destruct c as [[] [] [] [] [] [] [] []]; vm_compute; congruence.
Qed.

Lemma ends_upper_cons p c a : ends_upper p (c :: a) = ends_upper (is_upper c) a.
Proof.
  unfold ends_upper. destruct a as [|d a]; [done|].
  rewrite last_cons_cons.
  destruct (last (d :: a)) eqn:E; [done|]. by apply last_None in E.
Qed.

Lemma decap_app p a b : decap p (a ++ b) = decap p a ++ decap (ends_upper p a) b.
Proof.
  revert p. induction a as [|c a IH]; intros p; [done|].
  cbn [app decap]. by rewrite IH, ends_upper_cons.
Qed.

Lemma calm_app p a b : calm p (a ++ b) = calm p a && calm (ends_upper p a) b.
Proof.
  revert p. induction a as [|c a IH]; intros p; [done|].
  cbn [app calm]. by rewrite IH, ends_upper_cons, andb_assoc.
Qed.

Lemma decap_calm p l : calm p l = true -> decap p l = l.
Proof.
  revert p. induction l as [|c l IH]; intros p; [done|].
  cbn [calm decap]. intros [H1 H2]%andb_true_iff.
  apply negb_true_iff in H1. rewrite H1. f_equal. by apply IH.
Qed.

Lemma calm_decap q p l : (q = true -> p = true) -> calm q (decap p l) = true.
Proof.
  revert q p. induction l as [|c l IH]; intros q p Hqp; [done|].
  cbn [decap calm]. apply andb_true_iff. split.
  - destruct q; [|done]. rewrite Hqp by done. cbn.
    destruct (is_upper c) eqn:E; cbn; [by rewrite lower_not_upper|by rewrite E].
  - apply IH. destruct (p && is_upper c) eqn:E.
    + apply andb_true_iff in E as [_ E]. by rewrite lower_not_upper.
    + done.
Qed.

Lemma decap_upper run :
  forallb is_upper run = true -> decap true run = lower <$> run.
Proof.
  induction run as [|c run IH]; [done|].
  cbn. intros [H1 H2]%andb_true_iff. rewrite H1. cbn. by rewrite IH.
Qed.

Lemma ends_upper_run p run :
  forallb is_upper run = true -> ends_upper p run = p || match run with [] => false | _ => true end.
Proof.
  revert p. induction run as [|c run IH]; intros p; [by rewrite orb_false_r|].
  cbn [forallb]. intros [H1 H2]%andb_true_iff.
  rewrite ends_upper_cons, IH, H1 by done. cbn. by rewrite orb_true_r.
Qed.

(** What [all_caps] accepts. *)
Lemma all_caps_inv sub :
  all_caps sub = true ->
  exists u, u <> [] /\ forallb is_upper u = true /\ (sub = u \/ sub = u ++ [newline]).
Proof.
  unfold all_caps. destruct (rev sub) as [|c body] eqn:E; [done|].
  assert (sub = rev body ++ [c]) as Hs.
  { by rewrite <- (rev_involutive sub), E. }
  destruct (Ascii.eqb c newline) eqn:Ec.
  - apply Ascii.eqb_eq in Ec as ->. destruct body as [|d body]; [done|].
    intros H. exists (rev (d :: body)). split; [|split].
    + intros Hn. apply (f_equal (@length _)) in Hn. rewrite length_rev in Hn. done.
    + by rewrite forallb_rev.
    + by right.
  - intros H. exists sub. split; [|by auto].
    rewrite Hs. by destruct (rev body).
Qed.

Lemma all_caps_run run :
  run <> [] -> forallb is_upper run = true -> all_caps run = true.
Proof.
  intros Hn H. unfold all_caps. destruct (rev run) as [|c body] eqn:E.
  - apply (f_equal (@length _)) in E. rewrite length_rev in E. by destruct run.
  - assert (is_upper c = true) as Hc.
    { rewrite <- forallb_rev, E in H. cbn in H. by apply andb_true_iff in H as [? _]. }
    by rewrite upper_not_newline.
Qed.

Lemma undo_piece_run c rest :
  forallb is_upper (c :: rest) = true -> undo_piece (c :: rest) = decap false (c :: rest).
Proof.
  intros H. unfold undo_piece. rewrite all_caps_run by done.
  cbn [decap andb forallb] in *. apply andb_true_iff in H as [Hc Hr].
  by rewrite Hc, decap_upper.
Qed.

Lemma undo_piece_calm text : calm false text = true -> undo_piece text = text.
Proof.
  intros Hc. unfold undo_piece. destruct (all_caps text) eqn:E; [|done].
  destruct (all_caps_inv _ E) as (u & Hn & Hu & Ht).
  destruct u as [|c u]; [done|]. cbn [forallb] in Hu.
  apply andb_true_iff in Hu as [Hc1 Hu].
  assert (u = []) as ->.
  { destruct u as [|d u]; [done|]. cbn in Hu. apply andb_true_iff in Hu as [Hd _].
    destruct Ht as [->| ->]; cbn in Hc; rewrite Hc1, Hd in Hc; done. }
  destruct Ht as [->| ->]; [done|]. cbn. done.
Qed.

(** [undo_allcaps] piece by piece is [decap] on the whole text. *)
Lemma split_caps_decap l : forall text run,
  calm false text = true -> ends_upper false text = false ->
  forallb is_upper run = true ->
  concat (undo_piece <$> split_caps text run l) = text ++ decap false (run ++ l).
Proof.
  induction l as [|c l IH]; intros text run Ht He Hr.
  - rewrite app_nil_r. cbn [split_caps].
    destruct run as [|r1 [|r2 run]].
    + cbn. by rewrite !app_nil_r, undo_piece_calm.
    + cbn [fmap list_fmap concat]. rewrite app_nil_r, undo_piece_calm; [done|].
      rewrite calm_app, Ht, He. done.
    + cbn [fmap list_fmap concat]. rewrite undo_piece_calm, undo_piece_run by done.
      by rewrite app_nil_r.
  - cbn [split_caps]. destruct (is_upper c) eqn:Ec.
    + rewrite IH; [by rewrite <- app_assoc|done|done|].
      rewrite forallb_app, Hr. cbn. by rewrite Ec.
    + assert (forall t, decap true (c :: t) = c :: decap false t) as Hlow.
      { intros t. cbn. by rewrite Ec. }
      destruct run as [|r1 [|r2 run]].
      * cbn [app]. rewrite IH; [| | |done].
        -- cbn. rewrite Ec. by rewrite <- app_assoc.
        -- rewrite calm_app, Ht, He. done.
        -- unfold ends_upper. by rewrite last_snoc.
      * cbn in Hr. rewrite andb_true_r in Hr. cbn [app].
        rewrite IH; [| | |done].
        -- cbn. rewrite Hr, Ec. cbn. by rewrite <- !app_assoc.
        -- rewrite calm_app, Ht, He. cbn. by rewrite Ec, andb_false_r.
        -- unfold ends_upper. by rewrite last_app.
      * cbn [fmap list_fmap concat].
        rewrite undo_piece_calm, undo_piece_run by done.
        rewrite IH; [| |done|done].
        -- rewrite (decap_app false (r1 :: r2 :: run)).
           rewrite ends_upper_run by done. cbn [orb]. by rewrite Hlow.
        -- done.
Qed.

Lemma undo_allcaps_decap self :
  undo_allcaps self = string_of_list_ascii (decap false (list_ascii_of_string (text self))).
Proof.
  unfold undo_allcaps. by rewrite split_caps_decap.
Qed.

Lemma decap_length p l : length (decap p l) = length l.
Proof. revert p. induction l as [|c l IH]; intros p; cbn; [done|by rewrite IH]. Qed.

Lemma lower_idem c : lower (lower c) = lower c.
Proof.
  destruct (is_upper c) eqn:E.
  - apply lower_low. by apply lower_not_upper.
  - by rewrite !(lower_low c E).
Qed.

Lemma decap_lower p l : lower <$> decap p l = lower <$> l.
Proof.
  revert p. induction l as [|c l IH]; intros p; [done|].
  cbn. rewrite IH. f_equal. destruct (p && is_upper c); [apply lower_idem|done].
Qed.

(** ** Links *)

Lemma span_all p (l : list ascii) : forallb p l = true -> span p l = (l, []).
Proof.
  intros H. rewrite <- (app_nil_r l) at 1. by apply span_app.
Qed.

Lemma href_at_skip c l : Ascii.eqb "h" (lower c) = false -> href_at (c :: l) = None.
Proof.
  intros H. unfold href_at. cbn [list_ascii_of_string strip_prefix_ci]. by rewrite H.
Qed.

Lemma lacks_h c :
  negb (Ascii.eqb c "h") = true -> negb (Ascii.eqb c "H") = true ->
  Ascii.eqb "h" (lower c) = false.
Proof.
  destruct c as [[] [] [] [] [] [] [] []]; vm_compute; congruence.
Qed.

Lemma href_search_skip pre l :
  forallb (fun x => negb (Ascii.eqb x "h")) pre = true ->
  forallb (fun x => negb (Ascii.eqb x "H")) pre = true ->
  href_search (pre ++ l) = href_search l.
Proof.
  induction pre as [|c pre IH]; [done|].
  cbn [forallb]. intros [H1 H2]%andb_true_iff [H3 H4]%andb_true_iff.
  cbn [app href_search]. rewrite href_at_skip by by apply lacks_h.
  by apply IH.
Qed.

Lemma existsb_snoc (p : ascii -> bool) l c : p c = true -> existsb p (l ++ [c]) = true.
Proof. intros H. rewrite existsb_app. cbn. by rewrite H, orb_true_r. Qed.

Lemma href_at_formula q url rest :
  q = dquote \/ q = squote ->
  forallb (fun x => negb (Ascii.eqb x q)) url = true ->
  forallb (fun x => negb (Ascii.eqb x newline)) url = true ->
  forallb (fun x => negb (Ascii.eqb x newline)) rest = true ->
  href_at (list_ascii_of_string "HYPERLINK(" ++ q :: url ++ q :: rest ++ [")"%char])
  = Some url.
Proof.
  intros Hq Hu Hn Hr. unfold href_at.
  assert (forall t, strip_prefix_ci (list_ascii_of_string "hyperlink(")
                      (list_ascii_of_string "HYPERLINK(" ++ t) = Some t) as -> by done.
  change (mbind ?f (Some ?x)) with (f x). cbv beta iota.
  assert (Ascii.eqb q dquote || Ascii.eqb q squote = true) as ->.
  { destruct Hq as [-> | ->]; done. }
  assert (Ascii.eqb q newline = false) as Hqn.
  { destruct Hq as [-> | ->]; done. }
  rewrite (span_all (fun c => negb (Ascii.eqb c newline))).
  - cbn [fst]. rewrite (span_app _ url (q :: rest ++ [")"%char])).
    + by rewrite existsb_snoc.
    + done.
    + by rewrite Ascii.eqb_refl.
  - rewrite forallb_app, Hn. cbn [forallb]. rewrite Hqn. cbn.
    rewrite forallb_app, Hr. done.
Qed.

Lemma get_href_formula pre q url rest :
  lacks "h" pre -> lacks "H" pre ->
  q = dquote \/ q = squote ->
  lacks q url -> lacks newline url -> lacks newline rest ->
  get_href (pre +:+ "HYPERLINK(" +:+ String q (url +:+ String q (rest +:+ ")")))
  = Some url.
Proof.
  unfold lacks, get_href. intros H1 H2 Hq Hu Hn Hr.
  repeat first [rewrite list_ascii_of_string_app | progress cbn [list_ascii_of_string]].
  rewrite href_search_skip by done.
  pose proof (href_at_formula q _ _ Hq Hu Hn Hr) as Hat.
  cbn [list_ascii_of_string] in Hat.
  match goal with
  | |- context [href_search ?l] =>
      change (href_search l) with
        (match href_at l with
         | Some u => Some u
         | None => href_search (tail l)
         end)
  end.
  rewrite Hat. cbn. by rewrite string_of_list_ascii_of_string.
Qed.

(** ** Worksheet identifiers *)

Lemma word_not_slash c : is_word c = true -> Ascii.eqb c "/" = false.
Proof.
  destruct c as [[] [] [] [] [] [] [] []]; vm_compute; congruence.
Qed.

Lemma last_word_stays w : forall best,
  forallb is_word w = true -> last_word_after_slash w best = best.
Proof.
  induction w as [|c w IH]; intros best; [done|].
  cbn [forallb]. intros [H1 H2]%andb_true_iff.
  cbn [last_word_after_slash]. rewrite word_not_slash by done. by apply IH.
Qed.

Lemma last_word_found a w : forall best,
  w <> [] -> forallb is_word w = true ->
  last_word_after_slash (a ++ "/"%char :: w) best = Some w.
Proof.
  induction a as [|c a IH]; intros best Hn Hw.
  - cbn [app last_word_after_slash]. rewrite Ascii.eqb_refl.
    rewrite span_all by done. cbn [fst].
    destruct w as [|d w]; [done|]. by apply last_word_stays.
  - cbn [app last_word_after_slash].
    destruct (Ascii.eqb c "/"); [|by apply IH].
    destruct (span is_word (a ++ "/"%char :: w)).1; by apply IH.
Qed.

Lemma gdata_id_match_url p id :
  lacks newline p -> word id ->
  gdata_id_match ("https://" +:+ p +:+ "/" +:+ id) = Some id.
Proof.
  unfold lacks, word. intros Hp [Hn Hw].
  unfold gdata_id_match.
  rewrite !list_ascii_of_string_app.
  assert (forall t, strip_prefix_ci (list_ascii_of_string "http")
                      (list_ascii_of_string "https://" ++ t)
                    = Some (list_ascii_of_string "s://" ++ t)) as -> by done.
  change (mbind ?f (Some ?x)) with (f x). cbv beta.
  change (list_ascii_of_string "s://" ++ ?t) with ("s"%char :: list_ascii_of_string "://" ++ t).
  cbv beta iota.
  change (Ascii.eqb (lower "s") "s") with true. cbv iota.
  rewrite strip_prefix_app.
  change (mbind ?f (Some ?x)) with (f x). cbv beta.
  rewrite span_all.
  - cbn [fst list_ascii_of_string app]. rewrite last_word_found; [| |done].
    + cbn. by rewrite string_of_list_ascii_of_string.
    + intros E. apply Hn. by destruct id.
  - rewrite forallb_app, Hp. cbn.
    apply forallb_forall. intros c Hc.
    rewrite forallb_forall in Hw. specialize (Hw c Hc).
    destruct c as [[] [] [] [] [] [] [] []]; vm_compute in Hw |- *; congruence.
Qed.

(** ** Loading the cells feed, cell by cell *)

Lemma slot_in_app_new rows ns i j :
  slot_in (rows ++ (Row_new <$> ns)) i j = slot_in rows i j.
Proof.
  unfold slot_in. destruct (rows !! i) as [r|] eqn:E.
  - by rewrite (lookup_app_l_Some _ _ _ _ E).
  - apply lookup_ge_None in E. rewrite lookup_app_r by done.
    rewrite list_lookup_fmap. destruct (ns !! _); [|done]. cbn.
    unfold slot_at. by rewrite lookup_nil.
Qed.

Lemma slot_in_alter cs k rows i j :
  (k < length rows)%nat ->
  slot_in (alter (set_cells cs) k rows) i j
  = if decide (i = k) then slot_at cs j else slot_in rows i j.
Proof.
  intros Hk. unfold slot_in. rewrite list_lookup_alter.
  destruct (decide (i = k)) as [->|Hne].
  - rewrite decide_True by done.
    destruct (rows !! k) eqn:E; [done|]. apply lookup_ge_None in E. lia.
  - by rewrite decide_False by done.
Qed.

Lemma set_local_cells_run (cs : list Slot) j v :
  0 <= j ->
  exists cs', set_local_cells cs j v = Ok cs' /\
    forall j', 0 <= j' -> slot_at cs' j' = if decide (j' = j) then v else slot_at cs j'.
Proof.
  intros Hj. unfold set_local_cells, list_setitem.
  set (padded := cs ++ replicate _ SNone).
  assert (j < Z.of_nat (length padded)) as Hlen.
  { subst padded. rewrite length_app, length_replicate. lia. }
  rewrite py_index_nonneg by lia.
  eexists. split; [done|]. intros j' Hj'. unfold slot_at.
  destruct (decide (j' = j)) as [->|Hne].
  - rewrite list_lookup_insert_eq; [done|lia].
  - rewrite list_lookup_insert_ne by lia.
    subst padded. destruct (cs !! Z.to_nat j') as [x|] eqn:E.
    + by rewrite (lookup_app_l_Some _ _ _ _ E).
    + apply lookup_ge_None in E. rewrite lookup_app_r by done.
      destruct (replicate _ SNone !! _) as [y|] eqn:E2; [|done].
      apply lookup_replicate in E2 as [-> _]. done.
Qed.

Lemma append_header_row_run r s :
  append_header_row r s
  = (Ok tt, {| ws := set_header_rows (_header_rows (ws s) ++ [r]) (ws s); trace := trace s |}).
Proof. done. Qed.

Lemma append_data_row_run r s :
  append_data_row r s
  = (Ok tt, {| ws := set_rows (_rows (ws s) ++ [r]) (ws s); trace := trace s |}).
Proof. done. Qed.

Lemma append_header_rows_run b : forall (cnt : nat) a s,
  Z.to_nat (b - a) = cnt ->
  mfor (py_range a b) (fun i => append_header_row (Row_new (i + 1))) s
  = (Ok tt, {| ws := set_header_rows
                       (_header_rows (ws s)
                          ++ (Row_new <$> ((fun i => i + 1) <$> py_range a b))) (ws s);
               trace := trace s |}).
Proof.
  induction cnt as [|cnt IH]; intros a s Hcnt.
  - rewrite py_range_nil by lia. cbn. rewrite app_nil_r.
    destruct s as [w t]. by destruct w.
  - rewrite py_range_cons by lia. cbn [mfor]. rewrite bind_run, append_header_row_run.
    cbv beta iota. rewrite IH by lia. cbn [ws trace fmap list_fmap _header_rows set_header_rows].
    by rewrite <- app_assoc.
Qed.

Lemma append_data_rows_run b : forall (cnt : nat) a s,
  Z.to_nat (b - a) = cnt ->
  mfor (py_range a b) (fun n => append_data_row (Row_new n)) s
  = (Ok tt, {| ws := set_rows (_rows (ws s) ++ (Row_new <$> py_range a b)) (ws s);
               trace := trace s |}).
Proof.
  induction cnt as [|cnt IH]; intros a s Hcnt.
  - rewrite py_range_nil by lia. cbn. rewrite app_nil_r.
    destruct s as [w t]. by destruct w.
  - rewrite py_range_cons by lia. cbn [mfor]. rewrite bind_run, append_data_row_run.
    cbv beta iota. rewrite IH by lia. cbn [ws trace fmap list_fmap _rows set_rows].
    by rewrite <- app_assoc.
Qed.

Lemma py_range_length a b : length (py_range a b) = Z.to_nat (b - a).
Proof. unfold py_range. by rewrite length_fmap, length_seq. Qed.

(** [cell_at] through the two lists of rows. *)
Lemma cell_at_slot_in w n c :
  cell_at w n c
  = if n <=? nheaders w then slot_in (_header_rows w) (Z.to_nat (n - 1)) (c - 1)
    else slot_in (_rows w) (Z.to_nat (n - nheaders w - 1)) (c - 1).
Proof. unfold cell_at, sheet_row, slot_in. by destruct (n <=? nheaders w). Qed.

(** Storing a cell in a row that is there. *)
Lemma Row__set_local_run self j v s r :
  lookup_row (ws s) self = Some r -> 0 <= j ->
  exists cs', Row__set_local self j v s
              = (Ok tt, {| ws := alter_row (set_cells cs') self (ws s); trace := trace s |}) /\
    forall j', 0 <= j' -> slot_at cs' j' = if decide (j' = j) then v else slot_at (cells r) j'.
Proof.
  intros Hr Hj. destruct (set_local_cells_run (cells r) j v Hj) as (cs' & Hs & Hat).
  exists cs'. split; [|done].
  unfold Row__set_local. mrun. rewrite (read_row_run s self r) by done. mrun.
  rewrite Hs. unfold write_cells. by mrun.
Qed.

Lemma slot_in_set_local rows k rk cs' j v :
  rows !! k = Some rk ->
  (forall j', 0 <= j' -> slot_at cs' j' = if decide (j' = j) then v else slot_at (cells rk) j') ->
  forall i j', 0 <= j' ->
    slot_in (alter (set_cells cs') k rows) i j'
    = if decide (i = k /\ j' = j) then v else slot_in rows i j'.
Proof.
  intros Hk Hcs i j' Hj'. rewrite slot_in_alter by by eapply lookup_lt_Some.
  destruct (decide (i = k)) as [->|Hne].
  - rewrite Hcs by done. unfold slot_in. rewrite Hk.
    destruct (decide (j' = j)) as [->|Hj].
    + by rewrite decide_True.
    + rewrite decide_False; [done|]. by intros [_ ?].
  - rewrite decide_False; [done|]. by intros [? _].
Qed.

Lemma same_sheet_refl w : same_sheet w w.
Proof. by repeat split. Qed.

Lemma same_sheet_trans w1 w2 w3 : same_sheet w1 w2 -> same_sheet w2 w3 -> same_sheet w1 w3.
Proof.
  intros (A1 & A2 & A3 & A4 & A5 & A6) (B1 & B2 & B3 & B4 & B5 & B6).
  repeat split; congruence.
Qed.

(** One entry of the feed goes to its place, and nothing else moves. *)
Lemma load_cell_run e s :
  1 <= entry_row e -> 1 <= entry_col e ->
  exists s', load_cell e s = (Ok tt, s') /\ trace s' = trace s /\
    same_sheet (ws s) (ws s') /\
    _max_col (ws s')
    = (if entry_row e <=? nheaders (ws s) then _max_col (ws s)
       else Z.max (_max_col (ws s)) (entry_col e)) /\
    forall n c, 1 <= n -> 1 <= c ->
      cell_at (ws s') n c
      = if (entry_row e =? n) && (entry_col e =? c)
        then SCell (Cell_new e n c) else cell_at (ws s) n c.
Proof.
  intros Hr Hc. unfold load_cell. mrun.
  destruct (entry_row e <=? nheaders (ws s)) eqn:Ehdr.
  - apply Z.leb_le in Ehdr.
    rewrite bind_run, (append_header_rows_run _ _ _ _ eq_refl). mrun.
    cbn [ws trace _header_rows set_header_rows].
    set (H1 := _header_rows (ws s) ++ _).
    assert (entry_row e - 1 < Z.of_nat (length H1)) as Hlen.
    { subst H1. rewrite length_app, !length_fmap, py_range_length. lia. }
    rewrite py_index_nonneg by lia.
    destruct (H1 !! Z.to_nat (entry_row e - 1)) as [rk|] eqn:Ek;
      [|apply lookup_ge_None in Ek; lia].
    set (s1 := {| ws := set_header_rows H1 (ws s); trace := trace s |}).
    destruct (Row__set_local_run (HeaderRow (Z.to_nat (entry_row e - 1))) (entry_col e - 1)
                (SCell (Cell_new e (entry_row e) (entry_col e))) s1 rk)
      as (cs' & Hrun & Hcs); [done|lia|].
    rewrite Hrun. eexists. split; [done|]. split; [done|]. split; [done|]. split; [done|].
    intros n c Hn Hc'. rewrite !cell_at_slot_in.
    cbn [ws alter_row s1 nheaders set_header_rows _header_rows _rows].
    destruct (n <=? nheaders (ws s)) eqn:En.
    + rewrite (slot_in_set_local _ _ _ _ _ _ Ek Hcs) by lia.
      subst H1. rewrite slot_in_app_new.
      destruct (decide _) as [[H1 H2]|Hno].
      * assert (entry_row e = n) as -> by lia. assert (entry_col e = c) as -> by lia.
        by rewrite !Z.eqb_refl.
      * destruct (entry_row e =? n) eqn:E1; [|done].
        destruct (entry_col e =? c) eqn:E2; [|done].
        apply Z.eqb_eq in E1, E2. exfalso. apply Hno. split; [by subst|lia].
    + apply Z.leb_gt in En.
      destruct (entry_row e =? n) eqn:E1; [apply Z.eqb_eq in E1; lia|done].
  - apply Z.leb_gt in Ehdr. unfold init_cell. mrun.
    rewrite (append_data_rows_run _ _ _ _ eq_refl). mrun.
    cbn [ws trace _rows set_rows nheaders _max_col].
    set (R1 := _rows (ws s) ++ _).
    assert (entry_row e - nheaders (ws s) - 1 < Z.of_nat (length R1)) as Hlen.
    { subst R1. rewrite length_app, !length_fmap, py_range_length. lia. }
    rewrite py_index_nonneg by lia.
    destruct (R1 !! Z.to_nat (entry_row e - nheaders (ws s) - 1)) as [rk|] eqn:Ek;
      [|apply lookup_ge_None in Ek; lia].
    set (k := Z.to_nat (entry_row e - nheaders (ws s) - 1)) in *.
    assert (forall s1, _rows (ws s1) = R1 -> same_sheet (ws s) (ws s1) ->
              _header_rows (ws s1) = _header_rows (ws s) ->
              _max_col (ws s1) = Z.max (_max_col (ws s)) (entry_col e) ->
              trace s1 = trace s ->
              exists s', Row__set_local (DataRow k) (entry_col e - 1)
                           (SCell (Cell_new e (entry_row e) (entry_col e))) s1 = (Ok tt, s') /\
                trace s' = trace s /\ same_sheet (ws s) (ws s') /\
                _max_col (ws s') = Z.max (_max_col (ws s)) (entry_col e) /\
                forall n c, 1 <= n -> 1 <= c ->
                  cell_at (ws s') n c
                  = if (entry_row e =? n) && (entry_col e =? c)
                    then SCell (Cell_new e n c) else cell_at (ws s) n c) as Hfin.
    { intros s1 HR Hsame Hh Hmc Ht. pose proof Hsame as (_ & _ & _ & Hnh & _).
      destruct (Row__set_local_run (DataRow k) (entry_col e - 1)
                  (SCell (Cell_new e (entry_row e) (entry_col e))) s1 rk)
        as (cs' & Hrun & Hcs); [by cbn; rewrite HR|lia|].
      rewrite Hrun. eexists. split; [done|]. split; [done|]. split; [done|]. split; [done|].
      intros n c Hn Hc'. rewrite !cell_at_slot_in.
      cbn [ws alter_row nheaders set_rows _header_rows _rows]. rewrite Hnh, Hh, HR.
      destruct (n <=? nheaders (ws s)) eqn:En.
      - apply Z.leb_le in En.
        destruct (entry_row e =? n) eqn:E1; [apply Z.eqb_eq in E1; lia|done].
      - apply Z.leb_gt in En.
        rewrite (slot_in_set_local _ _ _ _ _ _ Ek Hcs) by lia.
        subst R1. rewrite slot_in_app_new.
        destruct (decide _) as [[H1 H2]|Hno].
        + assert (entry_row e = n) as -> by lia. assert (entry_col e = c) as -> by lia.
          by rewrite !Z.eqb_refl.
        + destruct (entry_row e =? n) eqn:E1; [|done].
          destruct (entry_col e =? c) eqn:E2; [|done].
          apply Z.eqb_eq in E1, E2. exfalso. apply Hno. split; [subst k; lia|lia]. }
    destruct (_max_col (ws s) <? entry_col e) eqn:Emc; mrun; apply Hfin; try done.
    + cbn. apply Z.ltb_lt in Emc. lia.
    + cbn. apply Z.ltb_ge in Emc. lia.
Qed.

Lemma feed_cell_from f n c : forall acc,
  fold_left (fun acc e => if (entry_row e =? n) && (entry_col e =? c)
                          then SCell (Cell_new e n c) else acc) f acc
  = match feed_cell f n c with SNone => acc | x => x end.
Proof.
  unfold feed_cell. induction f as [|e f IH]; intros acc; [done|].
  cbn [fold_left]. rewrite IH. symmetry. rewrite IH. symmetry.
  by destruct (_ && _), (fold_left _ f SNone).
Qed.

Lemma widest_grows f nh : forall start, start <= widest f nh start.
Proof.
  unfold widest. induction f as [|e f IH]; intros start; [cbn; lia|].
  cbn [fold_left]. etransitivity; [|apply IH]. destruct (_ <=? _); lia.
Qed.

(** The loop over the entries of the feed. *)
Lemma load_cells_run f : forall s,
  Forall (fun e => 1 <= entry_row e /\ 1 <= entry_col e) f ->
  exists s', mfor f load_cell s = (Ok tt, s') /\ trace s' = trace s /\
    same_sheet (ws s) (ws s') /\
    _max_col (ws s') = widest f (nheaders (ws s)) (_max_col (ws s)) /\
    forall n c, 1 <= n -> 1 <= c ->
      cell_at (ws s') n c
      = match feed_cell f n c with SNone => cell_at (ws s) n c | x => x end.
Proof.
  induction f as [|e f IH]; intros s Hf.
  - exists s. split; [done|]. split; [done|]. split; [apply same_sheet_refl|].
    split; [done|done].
  - apply Forall_cons in Hf as [[Hr Hc] Hf].
    destruct (load_cell_run e s Hr Hc) as (s1 & Hrun & Ht & Hsame & Hmc & Hat).
    destruct (IH s1 Hf) as (s2 & Hrun2 & Ht2 & Hsame2 & Hmc2 & Hat2).
    exists s2. cbn [mfor]. rewrite bind_run, Hrun. cbv beta iota.
    split; [done|]. split; [congruence|]. split; [by eapply same_sheet_trans|].
    split.
    { rewrite Hmc2, Hmc. destruct Hsame as (_ & _ & _ & -> & _). done. }
    intros n c Hn Hc'. rewrite Hat2, Hat by done.
    unfold feed_cell at 2. cbn [fold_left]. rewrite feed_cell_from.
    by destruct (feed_cell f n c), ((entry_row e =? n) && (entry_col e =? c)).
Qed.

(** The first load: one call, every entry at its place, nothing else. *)
Lemma get_cells_feed_run svc s f :
  _cells_feed (ws s) = None ->
  svc_GetCellsFeed svc (trace s) (key (ws s)) (short_id (wksht_id (ws s))) = Ok f ->
  Forall (fun e => 1 <= entry_row e /\ 1 <= entry_col e) f ->
  exists s', get_cells_feed svc s = (Ok f, s') /\
    trace s' = trace s ++ [EvGetCellsFeed (key (ws s)) (short_id (wksht_id (ws s)))] /\
    same_sheet (set_cells_feed (Some f) (ws s)) (ws s') /\
    _max_col (ws s') = widest f (nheaders (ws s)) (_max_col (ws s)) /\
    forall n c, 1 <= n -> 1 <= c -> cell_at (ws s') n c = feed_cell f n c.
Proof.
  intros Hnone Hsvc Hf. unfold get_cells_feed, GetCellsFeed. mrun. rewrite Hnone.
  mrun. cbn [ws trace]. rewrite Hsvc. mrun. cbn [ws trace].
  match goal with
  | |- context [mfor f load_cell ?s0] =>
      destruct (load_cells_run f s0 Hf) as (s1 & Hrun & Ht & Hsame & Hmc & Hat)
  end.
  rewrite Hrun. mrun.
  rewrite (append_header_rows_run _ _ _ _ eq_refl). mrun.
  eexists. split; [done|]. cbn [ws trace nheaders _max_col set_header_rows].
  split; [by rewrite Ht|]. split; [exact Hsame|]. split; [exact Hmc|].
  intros n c Hn Hc. rewrite cell_at_slot_in.
  cbn [nheaders set_header_rows _header_rows _rows]. rewrite slot_in_app_new.
  rewrite <- cell_at_slot_in, Hat by done.
  destruct (feed_cell f n c); try done.
  rewrite cell_at_slot_in. cbn. unfold slot_in. rewrite !lookup_nil. by destruct (_ <=? _).
Qed.

(** ** Reading a loaded worksheet *)

Lemma quiet_ret {A} (a : A) : quiet (mret a : M A).
Proof. by intros s _. Qed.
Lemma quiet_raise {A} e : quiet (raise (A:=A) e).
Proof. by intros s _. Qed.
Lemma quiet_lift {A} (r : result A) : quiet (lift r).
Proof. by intros s _. Qed.
Lemma quiet_get_ws : quiet get_ws.
Proof. by intros s _. Qed.
Lemma quiet_history : quiet history.
Proof. by intros s _. Qed.

Lemma quiet_bind {A B} (m : M A) (k : A -> M B) :
  quiet m -> (forall a, quiet (k a)) -> quiet (m ≫= k).
Proof.
  intros Hm Hk s Hl. rewrite bind_run. specialize (Hm s Hl).
  destruct (m s) as [[a|e] s1]; cbn in Hm; subst s1; [by apply Hk|done].
Qed.

Lemma quiet_mfor {A} (l : list A) (body : A -> M unit) :
  (forall x, quiet (body x)) -> quiet (mfor l body).
Proof.
  intros Hb. induction l as [|x l IH]; [apply quiet_ret|].
  cbn [mfor]. apply quiet_bind; [apply Hb|by intros _].
Qed.

Lemma quiet_mfold {A B} (l : list A) (body : B -> A -> M B) :
  (forall acc x, quiet (body acc x)) -> forall acc, quiet (mfold l body acc).
Proof.
  intros Hb. induction l as [|x l IH]; intros acc; [apply quiet_ret|].
  cbn [mfold]. apply quiet_bind; [apply Hb|apply IH].
Qed.

Lemma quiet_ensure_data svc : quiet (ensure_data svc).
Proof. intros s Hl. by rewrite ensure_data_loaded. Qed.

Create HintDb quiet discriminated.
#[local] Hint Resolve quiet_ensure_data : quiet.

Ltac quiet_step :=
  match goal with
  | |- quiet (_ ≫= _) => apply quiet_bind; [|intros ?]
  | |- quiet (mret _) => apply quiet_ret
  | |- quiet (raise _) => apply quiet_raise
  | |- quiet (lift _) => apply quiet_lift
  | |- quiet get_ws => apply quiet_get_ws
  | |- quiet history => apply quiet_history
  | |- quiet (mfor _ _) => apply quiet_mfor; intros ?
  | |- quiet (mfold _ _ _) => apply quiet_mfold; intros ? ?
  | |- quiet (match ?x with _ => _ end) => destruct x
  | |- quiet (let '(_, _) := ?x in _) => destruct x
  end.
Ltac quiet_auto := repeat first [quiet_step | solve [auto with quiet]].

Lemma quiet_get_rows svc : quiet (get_rows svc).
Proof. unfold get_rows. quiet_auto. Qed.
Lemma quiet_get_headers svc : quiet (get_headers svc).
Proof. unfold get_headers. quiet_auto. Qed.
Lemma quiet_get_all_header_rows svc : quiet (get_all_header_rows svc).
Proof. unfold get_all_header_rows. quiet_auto. Qed.
Lemma quiet_get_max_col svc : quiet (get_max_col svc).
Proof. unfold get_max_col. quiet_auto. Qed.
Lemma quiet_read_row self : quiet (read_row self).
Proof. unfold read_row. quiet_auto. Qed.
#[local] Hint Resolve quiet_get_rows quiet_get_headers quiet_get_all_header_rows
  quiet_get_max_col quiet_read_row : quiet.

Lemma quiet_get_max_row svc : quiet (get_max_row svc).
Proof. unfold get_max_row. quiet_auto. Qed.
Lemma quiet_get_row svc n : quiet (get_row svc n).
Proof. unfold get_row. quiet_auto. Qed.
Lemma quiet_get_index_of_key svc self k : quiet (get_index_of_key svc self k).
Proof. unfold get_index_of_key. quiet_auto. Qed.
#[local] Hint Resolve quiet_get_max_row quiet_get_row quiet_get_index_of_key : quiet.

Lemma quiet_Row_getitem svc self k : quiet (Row_getitem svc self k).
Proof. unfold Row_getitem. quiet_auto. Qed.
#[local] Hint Resolve quiet_Row_getitem : quiet.

Lemma quiet_coltag_step svc tag_row acc i : quiet (coltag_step svc tag_row acc i).
Proof. unfold coltag_step. quiet_auto. Qed.
#[local] Hint Resolve quiet_coltag_step : quiet.

Lemma quiet_get_coltags svc : quiet (get_coltags svc).
Proof. unfold get_coltags. quiet_auto. Qed.
#[local] Hint Resolve quiet_get_coltags : quiet.

Lemma quiet_headers_cells svc : quiet (headers_cells svc).
Proof. unfold headers_cells. quiet_auto. Qed.
#[local] Hint Resolve quiet_headers_cells : quiet.

Lemma quiet_RowData_init svc data : quiet (RowData_init svc data).
Proof. unfold RowData_init, RowData_item. quiet_auto. Qed.
Lemma quiet_get_insert_vals svc rd : quiet (get_insert_vals svc rd).
Proof. unfold get_insert_vals. quiet_auto. Qed.
Lemma quiet_is_blank rd : quiet (is_blank rd).
Proof. unfold is_blank. quiet_auto. Qed.
Lemma quiet_Worksheet_len svc : quiet (Worksheet_len svc).
Proof. unfold Worksheet_len. quiet_auto. Qed.
Lemma quiet_Worksheet_getitem svc i : quiet (Worksheet_getitem svc i).
Proof. unfold Worksheet_getitem. quiet_auto. Qed.
Lemma quiet_get_colname svc c : quiet (get_colname svc c).
Proof. unfold get_colname. quiet_auto. Qed.
#[local] Hint Resolve quiet_RowData_init quiet_get_insert_vals quiet_is_blank
  quiet_Worksheet_len quiet_Worksheet_getitem quiet_get_colname : quiet.

Lemma quiet_Row_get svc self k d : quiet (Row_get svc self k d).
Proof.
  intros s Hl. unfold Row_get.
  pose proof (quiet_Row_getitem svc self k s Hl) as H.
  destruct (Row_getitem svc self k s) as [[x|[]] s1]; cbn in H; by subst.
Qed.

Lemma quiet_get_list_feed_cached svc s f :
  _list_feed (ws s) = Some f -> (get_list_feed svc s).2 = s.
Proof. intros H. by rewrite (get_list_feed_cached svc s f). Qed.

(** The result of a quiet computation. *)
Lemma quiet_run {A} (m : M A) s : quiet m -> loaded (ws s) -> m s = ((m s).1, s).
Proof. intros Hq Hl. specialize (Hq s Hl). destruct (m s) as [x s1]. cbn in *. by subst. Qed.

(** ** What a write into one row leaves alone *)

Lemma same_but_refl self w : same_but self w w.
Proof. repeat split; eauto. Qed.

Lemma same_but_trans self w1 w2 w3 :
  same_but self w1 w2 -> same_but self w2 w3 -> same_but self w1 w3.
Proof.
  intros (A1 & A2 & A3 & A4 & A5 & A6) (B1 & B2 & B3 & B4 & B5 & B6).
  repeat split; try congruence.
  - intros other Hne. by rewrite B5, A5.
  - intros r Hr. destruct (A6 r Hr) as (r' & Hr' & Hrow).
    destruct (B6 r' Hr') as (r'' & Hr'' & Hrow'). exists r''. split; [done|congruence].
Qed.

Lemma same_but_ready self w w' : same_but self w w' -> ready w -> ready w'.
Proof.
  intros (_ & A2 & _ & A4 & _) [H1 H2]. split; [congruence|].
  intros E. apply H2. apply length_zero_iff_nil. rewrite <- A4, E. done.
Qed.

Lemma same_but_alter self cs w :
  same_but self w (alter_row (set_cells cs) self w).
Proof.
  repeat split.
  - by destruct self.
  - by destruct self.
  - destruct self; cbn; [done|by rewrite length_alter].
  - destruct self; cbn; [by rewrite length_alter|done].
  - intros other Hne. by apply lookup_alter_row_ne.
  - intros r Hr. rewrite lookup_alter_row, Hr. by eexists.
Qed.

Lemma same_but_max_col self n w : same_but self w (set_max_col n w).
Proof. repeat split; eauto. Qed.

Lemma same_but_written self i v w : same_but self w (written_ws w self i v).
Proof.
  unfold written_ws. destruct (lookup_row w self) as [r|] eqn:E; [|apply same_but_refl].
  cbv zeta. destruct (_ <? _).
  - eapply same_but_trans; [apply same_but_alter|apply same_but_max_col].
  - apply same_but_alter.
Qed.

Lemma str_eq_slot_true t x : str_eq_slot t x = true -> slot_text x = t.
Proof.
  unfold str_eq_slot, slot_text. destruct (slot_str x) as [u|]; [|done].
  intros H. apply String.eqb_eq in H. by subst.
Qed.

(** A cell write at a column index that returns: the slot shows the
    value, the other slots of the row and the other rows are as before. *)
Lemma Row_setitem_int_ok svc s s' self r i v :
  faithful svc -> ready (ws s) -> lookup_row (ws s) self = Some r -> 0 <= i ->
  Row_setitem svc self (KInt i) v s = (Ok tt, s') ->
  same_but self (ws s) (ws s') /\
  exists r', lookup_row (ws s') self = Some r' /\
    slot_text (slot_at (cells r') i) = normalize v /\
    forall j, 0 <= j -> j <> i -> slot_at (cells r') j = slot_at (cells r) j.
Proof.
  intros Hf Hrd Hr Hi Hrun.
  destruct (ready_last _ Hrd) as [hrow Hl]. destruct Hrd as [Hd Hh].
  pose proof (resolve_key_int (cells hrow) i) as Hk.
  destruct (str_eq_slot (normalize v) (slot_at (cells r) i)) eqn:Eeq.
  - rewrite (Row_setitem_same svc s self (KInt i) v r hrow i) in Hrun by done.
    injection Hrun as <-. split; [apply same_but_refl|].
    exists r. split; [done|]. split; [by apply str_eq_slot_true|done].
  - destruct (UpdateCell svc (row r) (i + 1) (normalize v) (key (ws s))
                (id_str (wksht_id (ws s))) s) as [[[resp|]|e] s1] eqn:Eu.
    + rewrite (Row_setitem_done svc s self (KInt i) v r hrow i resp s1) in Hrun by done.
      injection Hrun as <-. cbn [ws]. split; [apply same_but_written|].
      eexists. split; [by apply lookup_written_ws|]. cbn [cells set_cells].
      split.
      * rewrite slot_at_written by done.
        destruct (String.eqb (normalize v) "") eqn:Ee.
        -- apply String.eqb_eq in Ee. by rewrite Ee.
        -- cbn. destruct (UpdateCell_attempts svc (row r) (i + 1) (normalize v)
                            (key (ws s)) (id_str (wksht_id (ws s))) s)
             as (j & _ & _ & _ & Hout & _).
           rewrite Eu in Hout. cbn [fst] in Hout. unfold attempt_outcome in Hout.
           destruct (svc_UpdateCell svc _ _ _ _ _ _) as [e0|e0] eqn:Es; [|done].
           injection Hout as ->. by apply Hf in Es.
      * intros j Hj Hne. by apply slot_at_written_ne.
    + exfalso. apply (UpdateCell_result svc (row r) (i + 1) (normalize v) (key (ws s))
                        (id_str (wksht_id (ws s))) s). by rewrite Eu.
    + by rewrite (Row_setitem_calls svc s self (KInt i) v r hrow i Hd Hl Hr Hk Hi Eeq e s1)
        in Hrun.
Qed.

(** The same for [_set_local]. *)
Lemma Row__set_local_ok self j v s r :
  lookup_row (ws s) self = Some r -> 0 <= j ->
  exists s', Row__set_local self j v s = (Ok tt, s') /\ trace s' = trace s /\
    same_but self (ws s) (ws s') /\
    exists r', lookup_row (ws s') self = Some r' /\
      slot_at (cells r') j = v /\
      forall j', 0 <= j' -> j' <> j -> slot_at (cells r') j' = slot_at (cells r) j'.
Proof.
  intros Hr Hj. destruct (Row__set_local_run self j v s r Hr Hj) as (cs' & Hrun & Hcs).
  eexists. split; [exact Hrun|]. split; [done|]. cbn [ws].
  split; [apply same_but_alter|].
  eexists. split; [by rewrite lookup_alter_row, Hr|]. cbn [cells set_cells]. split.
  - rewrite Hcs by done. by rewrite decide_True.
  - intros j' Hj' Hne. rewrite Hcs by done. by rewrite decide_False.
Qed.

(** ** Writing a whole row *)

Lemma normalize_item_value x : normalize (item_value x) = item_text x.
Proof. by destruct x. Qed.

Lemma slot_ne_item_false x item : slot_ne_item x item = false -> slot_text x = item_text item.
Proof.
  destruct item as [it|]; cbn.
  - intros H. apply negb_false_iff in H. by apply str_eq_slot_true.
  - by destruct x.
Qed.

(** The loop of [set_row] from column [k] on. *)
Lemma set_row_items_run svc ref : forall (rd : list (option RowDataVal)) (k : nat) s s' r,
  faithful svc -> ready (ws s) -> lookup_row (ws s) ref = Some r ->
  mfor (imap (fun i x => ((k + i)%nat, x)) rd) (set_row_item svc ref) s = (Ok tt, s') ->
  same_but ref (ws s) (ws s') /\
  exists r', lookup_row (ws s') ref = Some r' /\
    (forall i x, rd !! i = Some x ->
       slot_text (slot_at (cells r') (Z.of_nat (k + i))) = item_text x) /\
    (forall j, 0 <= j < Z.of_nat k -> slot_at (cells r') j = slot_at (cells r) j).
Proof.
  induction rd as [|x rd IH]; intros k s s' r Hf Hrd Hr Hrun.
  - injection Hrun as <-. split; [apply same_but_refl|]. exists r. by split.
  - cbn [imap mfor] in Hrun. rewrite bind_run in Hrun.
    rewrite (imap_ext _ (fun i x => ((S k + i)%nat, x))) in Hrun
      by (intros; cbn; f_equal; lia).
    rewrite Nat.add_0_r in Hrun.
    assert (exists s1 r1, set_row_item svc ref (k, x) s = (Ok tt, s1) /\
              same_but ref (ws s) (ws s1) /\ lookup_row (ws s1) ref = Some r1 /\
              slot_text (slot_at (cells r1) (Z.of_nat k)) = item_text x /\
              forall j, 0 <= j -> j <> Z.of_nat k ->
                slot_at (cells r1) j = slot_at (cells r) j) as (s1 & r1 & Hs1 & Hsb & Hr1 & Ht & Hfr).
    { destruct (set_row_item svc ref (k, x) s) as [[[]|e] s1] eqn:Ei; [|done].
      exists s1. revert Ei. unfold set_row_item. cbn [fst snd]. rewrite bind_run.
      rewrite (Row_getitem_int svc s ref r) by (done || lia). cbv beta iota.
      destruct (slot_ne_item _ x) eqn:Ene.
      - intros Hset.
        destruct (Row_setitem_int_ok svc s s1 ref r (Z.of_nat k) (item_value x))
          as (Hsb & r1 & Hr1 & Ht & Hfr); [done|done|done|lia|done|].
        exists r1. rewrite normalize_item_value in Ht. done.
      - rewrite ret_run. intros [= <-]. exists r.
        split; [done|]. split; [apply same_but_refl|]. split; [done|].
        split; [by apply slot_ne_item_false|done]. }
    rewrite Hs1 in Hrun. cbv beta iota in Hrun.
    destruct (IH (S k) s1 s' r1 Hf (same_but_ready _ _ _ Hsb Hrd) Hr1 Hrun)
      as (Hsb2 & r' & Hr' & Hall & Hlow).
    split; [by eapply same_but_trans|]. exists r'. split; [done|]. split.
    + intros [|i] y Hy.
      * injection Hy as <-. rewrite Nat.add_0_r, Hlow by lia. done.
      * cbn in Hy. replace (k + S i)%nat with (S k + i)%nat by lia. by apply Hall.
    + intros j Hj. rewrite Hlow by lia. apply Hfr; lia.
Qed.

Lemma assign_coltags_text tags : forall rd,
  item_text <$> assign_coltags tags rd = item_text <$> rd.
Proof.
  induction tags as [|t tags IH]; intros [|[it|] rd]; try done.
  - cbn. rewrite IH. by destruct (String.eqb (val it) "").
  - cbn. by rewrite IH.
Qed.

Lemma imap_text (l : list PyVal) : forall (f : nat -> Z),
  item_text <$> imap (fun i v => Some (RowDataVal_new (f i) v)) l = normalize <$> l.
Proof.
  induction l as [|v l IH]; intros f; [done|].
  cbn. f_equal. apply (IH (f ∘ S)).
Qed.

(** The row data of a sequence stand for the values given. *)
Lemma RowData_init_seq svc l s rd s1 :
  RowData_init svc (InSeq l) s = (Ok rd, s1) -> item_text <$> rd = normalize <$> l.
Proof.
  unfold RowData_init. mrun.
  destruct (get_coltags svc s) as [[tags|e] s2]; mrun; [|done].
  intros [= <- _]. rewrite assign_coltags_text. apply (imap_text l Z.of_nat).
Qed.

Lemma get_row_lookup svc n s ref :
  loaded (ws s) -> get_row svc n s = (Ok ref, s) ->
  exists r, lookup_row (ws s) ref = Some r.
Proof.
  intros Hl. unfold get_row. mrun.
  destruct (n <=? nheaders (ws s)).
  - rewrite bind_run, get_all_header_rows_loaded by done. cbv beta iota.
    destruct (py_index _ _) as [k|] eqn:E; mrun; [|done].
    intros [= <-]. cbn. apply lookup_lt_is_Some.
    unfold py_index in E. repeat case_match; simplify_eq; lia.
  - rewrite bind_run, get_rows_loaded by done. mrun.
    destruct (py_index _ _) as [k|] eqn:E; mrun; [|done].
    intros [= <-]. cbn. apply lookup_lt_is_Some.
    unfold py_index in E. repeat case_match; simplify_eq; lia.
Qed.

(** [set_row] on a loaded worksheet with a header row. *)
Lemma set_row_run svc s s' n vals :
  faithful svc -> ready (ws s) ->
  set_row svc n (InSeq vals) s = (Ok tt, s') ->
  exists ref r', get_row svc n s = (Ok ref, s) /\
    same_but ref (ws s) (ws s') /\
    lookup_row (ws s') ref = Some r' /\
    forall i v, vals !! i = Some v ->
      slot_text (slot_at (cells r') (Z.of_nat i)) = normalize v.
Proof.
  intros Hf Hrd. pose proof Hrd as [Hl _]. unfold set_row. rewrite bind_run.
  rewrite (quiet_run _ s (quiet_RowData_init svc (InSeq vals)) Hl).
  destruct (RowData_init svc (InSeq vals) s).1 as [rd|e] eqn:Ei; [|done].
  assert (item_text <$> rd = normalize <$> vals) as Hrd_text.
  { eapply (RowData_init_seq svc vals s rd s).
    rewrite (quiet_run _ s (quiet_RowData_init svc (InSeq vals)) Hl). by rewrite Ei. }
  rewrite bind_run, (quiet_run _ s (quiet_get_row svc n) Hl).
  destruct (get_row svc n s).1 as [ref|e] eqn:Eg; [|done].
  assert (get_row svc n s = (Ok ref, s)) as Hg.
  { rewrite (quiet_run _ s (quiet_get_row svc n) Hl). by rewrite Eg. }
  destruct (get_row_lookup svc n s ref Hl Hg) as [r Hr].
  intros Hrun.
  destruct (set_row_items_run svc ref rd 0 s s' r Hf Hrd Hr) as (Hsb & r' & Hr' & Hall & _).
  { rewrite <- Hrun. f_equal. }
  exists ref, r'. split; [done|]. split; [done|]. split; [done|].
  intros i v Hv.
  assert ((item_text <$> rd) !! i = Some (normalize v)) as Hi.
  { by rewrite Hrd_text, list_lookup_fmap, Hv. }
  rewrite list_lookup_fmap in Hi. destruct (rd !! i) as [x|] eqn:Ex; [|done].
  injection Hi as <-. by apply (Hall i x).
Qed.


(** ** Appending a row *)

Lemma Worksheet_getitem_last svc s :
  loaded (ws s) -> (0 < length (_rows (ws s)))%nat ->
  Worksheet_getitem svc (-1) s = (Ok (DataRow (length (_rows (ws s)) - 1)), s).
Proof.
  intros Hl Hn. unfold Worksheet_getitem. rewrite bind_run, get_rows_loaded by done.
  cbv beta iota. unfold py_index.
  destruct ((0 <=? -1) && _) eqn:E1; [by apply andb_true_iff in E1 as [? _]|].
  destruct ((- Z.of_nat (length (_rows (ws s))) <=? -1) && (-1 <? 0)) eqn:E2.
  - mrun. do 3 f_equal. lia.
  - apply andb_false_iff in E2 as [E2|E2]; [apply Z.leb_gt in E2; lia|done].
Qed.

(** The loop of [append] over the row data, from column [k] on: every
    value ends up in the last row. *)
Lemma append_values_run svc ow res : forall (rd : list (option RowDataVal)) (k : nat) s s' r,
  faithful svc -> ready (ws s) ->
  let self := DataRow (length (_rows (ws s)) - 1) in
  (0 < length (_rows (ws s)))%nat ->
  lookup_row (ws s) self = Some r ->
  (forall i x, rd !! i = Some x -> exists it, x = Some it /\ icol it = Z.of_nat (k + i)) ->
  mfor rd (append_value svc ow res) s = (Ok tt, s') ->
  same_but self (ws s) (ws s') /\
  exists r', lookup_row (ws s') self = Some r' /\
    (forall i x, rd !! i = Some x ->
       slot_text (slot_at (cells r') (Z.of_nat (k + i))) = item_text x) /\
    (forall j, 0 <= j < Z.of_nat k -> slot_at (cells r') j = slot_at (cells r) j).
Proof.
  induction rd as [|x rd IH]; intros k s s' r Hf Hrd self Hn Hr Hrd_ok Hrun.
  - injection Hrun as <-. split; [apply same_but_refl|]. exists r. by split.
  - cbn [mfor] in Hrun. rewrite bind_run in Hrun.
    destruct (Hrd_ok 0%nat x eq_refl) as (it & -> & Hicol). rewrite Nat.add_0_r in Hicol.
    pose proof Hrd as [Hl _].
    assert (exists s1 r1, append_value svc ow res (Some it) s = (Ok tt, s1) /\
              same_but self (ws s) (ws s1) /\ lookup_row (ws s1) self = Some r1 /\
              slot_text (slot_at (cells r1) (Z.of_nat k)) = val it /\
              forall j, 0 <= j -> j <> Z.of_nat k ->
                slot_at (cells r1) j = slot_at (cells r) j)
      as (s1 & r1 & Hs1 & Hsb & Hr1 & Ht & Hfr).
    { destruct (append_value svc ow res (Some it) s) as [[[]|e] s1] eqn:Ei; [|done].
      exists s1. revert Ei. unfold append_value. rewrite Hicol.
      destruct (_ && _ && _).
      - rewrite bind_run, Worksheet_getitem_last by done. cbv beta iota. intros Hset.
        destruct (Row_setitem_int_ok svc s s1 self r (Z.of_nat k) (PStr (val it)))
          as (Hsb & r1 & Hr1 & Ht & Hfr); [done|done|done|lia|done|].
        by exists r1.
      - rewrite bind_run, Worksheet_getitem_last by done. cbv beta iota.
        destruct (Row__set_local_ok self (Z.of_nat k) (SStr (val it)) s r Hr)
          as (s2 & Hrun2 & _ & Hsb & r1 & Hr1 & Hv & Hfr); [lia|].
        fold self. rewrite Hrun2. intros [= <-]. exists r1.
        split; [done|]. split; [done|]. split; [done|]. split; [by rewrite Hv|done]. }
    rewrite Hs1 in Hrun. cbv beta iota in Hrun.
    assert (length (_rows (ws s1)) = length (_rows (ws s))) as Hlen by apply Hsb.
    destruct (IH (S k) s1 s' r1 Hf (same_but_ready _ _ _ Hsb Hrd)) as (Hsb2 & r' & Hr' & Hall & Hlow).
    + by rewrite Hlen.
    + by rewrite Hlen.
    + intros i y Hy. destruct (Hrd_ok (S i) y Hy) as (it' & -> & Hic).
      exists it'. split; [done|]. rewrite Hic. f_equal. lia.
    + done.
    + rewrite Hlen in Hsb2, Hr'. fold self in Hsb2, Hr'.
      split; [by eapply same_but_trans|]. exists r'. split; [done|]. split.
      * intros [|i] y Hy.
        -- injection Hy as <-. rewrite Nat.add_0_r, Hlow by lia. done.
        -- cbn in Hy. replace (k + S i)%nat with (S k + i)%nat by lia. by apply Hall.
      * intros j Hj. rewrite Hlow by lia. apply Hfr; lia.
Qed.

Lemma assign_coltags_icol tags : forall rd,
  item_icol <$> assign_coltags tags rd = item_icol <$> rd.
Proof.
  induction tags as [|t tags IH]; intros [|[it|] rd]; try done.
  - cbn. rewrite IH. by destruct (String.eqb (val it) "").
  - cbn. by rewrite IH.
Qed.

Lemma RowData_init_seq_icol svc l s rd s1 :
  RowData_init svc (InSeq l) s = (Ok rd, s1) ->
  forall i x, rd !! i = Some x -> exists it, x = Some it /\ icol it = Z.of_nat i.
Proof.
  unfold RowData_init. mrun.
  destruct (get_coltags svc s) as [[tags|e] s2]; mrun; [|done].
  intros [= <- _] i x Hx.
  assert ((item_icol <$> assign_coltags tags
             (imap (fun i v => Some (RowDataVal_new (Z.of_nat i) v)) l)) !! i
          = Some (item_icol x)) as H by by rewrite list_lookup_fmap, Hx.
  rewrite assign_coltags_icol, list_lookup_fmap, list_lookup_imap in H.
  destruct (l !! i) as [v|]; [|done]. cbn in H. injection H as H.
  destruct x as [it|]; [|done]. cbn in H. injection H as H. by exists it.
Qed.

(** Header rows that are not blank need no filling. *)
Lemma fill_blank_headers_none svc s : forall l acc,
  (forall i, i ∈ l -> exists r, _header_rows (ws s) !! i = Some r /\ cells r <> []) ->
  mfold l (fill_blank_header svc) acc s = (Ok acc, s).
Proof.
  induction l as [|i l IH]; intros acc Hl; [done|].
  cbn [mfold]. rewrite bind_run.
  destruct (Hl i) as (r & Hr & Hne); [by left|].
  unfold fill_blank_header at 1. rewrite bind_run, (read_row_run s (HeaderRow i) r) by done.
  cbv beta iota. destruct (cells r); [done|]. rewrite ret_run. cbv beta iota.
  apply IH. intros j Hj. apply Hl. by right.
Qed.

Lemma is_blank_fold : forall (rd : list (option RowDataVal)) acc s b s',
  (mfold rd
     (fun (xs : list RowDataVal) item =>
        match item with
        | None => raise AttributeError
        | Some it => mret (if String.eqb (val it) "" then xs else xs ++ [it])
        end) acc ≫= fun xs => mret (match xs with [] => true | _ :: _ => false end)) s
  = (Ok b, s') ->
  b = true -> acc = [] /\ forall i x, rd !! i = Some x -> item_text x = "".
Proof.
  induction rd as [|x rd IH]; intros acc s b s' Hrun Hb.
  - revert Hrun. cbn [mfold]. mrun. intros [= <- _]. by destruct acc.
  - revert Hrun. cbn [mfold]. rewrite !bind_run. destruct x as [it|]; mrun; [|done].
    intros Hrun. rewrite <- bind_run in Hrun.
    destruct (IH _ _ _ _ Hrun Hb) as [Hacc Hall].
    destruct (String.eqb (val it) "") eqn:E.
    + split; [done|]. intros [|i] y Hy; [|by apply (Hall i)].
      injection Hy as <-. by apply String.eqb_eq.
    + by destruct acc.
Qed.

Lemma is_blank_true rd s s' :
  is_blank rd s = (Ok true, s') -> forall i x, rd !! i = Some x -> item_text x = "".
Proof.
  intros Hrun. by destruct (is_blank_fold rd [] s true s' Hrun eq_refl).
Qed.

Lemma InsertRow_run svc vals k wid s :
  InsertRow svc vals k wid s
  = (svc_InsertRow svc (trace s) vals k wid,
     {| ws := ws s; trace := trace s ++ [EvInsertRow vals k wid] |}).
Proof. unfold InsertRow. by mrun. Qed.

Lemma same_but_rows (i : nat) w w' r' :
  same_but (DataRow i) w w' -> _rows w' !! i = Some r' -> i = (length (_rows w) - 1)%nat ->
  _rows w' = take i (_rows w) ++ [r'].
Proof.
  intros (_ & _ & Hlen & _ & Hother & _) Hr' Hi.
  assert (i < length (_rows w'))%nat as Hlt by by eapply lookup_lt_Some.
  apply list_eq. intros j. destruct (decide (j < i)%nat) as [Hj|Hj].
  - rewrite lookup_app_l by (rewrite length_take; lia).
    rewrite lookup_take_lt by done. apply (Hother (DataRow j)). intros [= ->]. lia.
  - rewrite lookup_app_r by (rewrite length_take; lia).
    rewrite length_take, Nat.min_l by lia.
    destruct (decide (j = i)) as [->|Hne].
    + by rewrite Nat.sub_diag.
    + rewrite lookup_ge_None_2 by lia.
      destruct (j - i)%nat eqn:E; [lia|done].
Qed.

(** An append that returns has added one row after the others, with
    the next number, and every value given can be read in it. *)
Lemma append_run svc s s' vals ow :
  faithful svc -> ready (ws s) ->
  Forall (fun r => cells r <> []) (_header_rows (ws s)) ->
  append svc (InSeq vals) ow s = (Ok tt, s') ->
  exists r', _rows (ws s') = _rows (ws s) ++ [r'] /\
    _header_rows (ws s') = _header_rows (ws s) /\
    row r' = Z.of_nat (length (_rows (ws s))) + nheaders (ws s) + 1 /\
    forall i v, vals !! i = Some v ->
      slot_text (slot_at (cells r') (Z.of_nat i)) = normalize v.
Proof.
  intros Hf Hrd Hhdr. pose proof Hrd as [Hl Hne]. unfold append. rewrite bind_run.
  rewrite (quiet_run _ s (quiet_RowData_init svc (InSeq vals)) Hl).
  destruct (RowData_init svc (InSeq vals) s).1 as [rd|e] eqn:Ei; [|done].
  assert (RowData_init svc (InSeq vals) s = (Ok rd, s)) as Hinit.
  { rewrite (quiet_run _ s (quiet_RowData_init svc (InSeq vals)) Hl). by rewrite Ei. }
  pose proof (RowData_init_seq _ _ _ _ _ Hinit) as Htext.
  pose proof (RowData_init_seq_icol _ _ _ _ _ Hinit) as Hicol.
  rewrite bind_run, get_all_header_rows_loaded by done. cbv beta iota.
  rewrite bind_run, fill_blank_headers_none.
  2:{ intros i Hi. apply elem_of_seq in Hi.
      destruct (lookup_lt_is_Some_2 (_header_rows (ws s)) i) as [r Hr]; [lia|].
      exists r. split; [done|]. rewrite Forall_forall in Hhdr. apply Hhdr.
      by eapply list_elem_of_lookup_2. }
  cbv beta iota.
  rewrite bind_run, (quiet_run _ s (quiet_get_insert_vals svc rd) Hl).
  destruct (get_insert_vals svc rd s).1 as [iv|e]; [|done].
  rewrite bind_run, get_ws_run. cbv beta iota.
  rewrite bind_run, InsertRow_run.
  destruct (svc_InsertRow svc _ _ _ _) as [res|e]; [|done].
  cbn [mfor]. mrun.
  set (s2 := {| ws := ws s; trace := _ |}).
  rewrite (quiet_run _ s2 (quiet_get_max_row svc) Hl).
  unfold get_max_row at 1. rewrite bind_run, get_rows_loaded by done. mrun.
  cbn [fst]. rewrite bind_run, get_rows_loaded by done. cbv beta iota.
  rewrite bind_run, append_data_row_run. cbv beta iota.
  set (N := Z.of_nat (length (_rows (ws s2))) + nheaders (ws s2) + 1).
  set (s3 := {| ws := set_rows (_rows (ws s2) ++ [Row_new N]) (ws s2); trace := trace s2 |}).
  assert (ready (ws s3)) as Hrd3 by done.
  assert (length (_rows (ws s3)) = S (length (_rows (ws s)))) as Hlen3.
  { cbn. rewrite length_app. cbn. lia. }
  assert (lookup_row (ws s3) (DataRow (length (_rows (ws s3)) - 1)) = Some (Row_new N)) as Hr3.
  { rewrite Hlen3. cbn. rewrite Nat.sub_0_r. by rewrite list_lookup_middle. }
  rewrite bind_run.
  destruct (mfor rd (append_value svc ow res) s3) as [[[]|e] s4] eqn:Eloop; [|done].
  destruct (append_values_run svc ow res rd 0 s3 s4 (Row_new N) Hf Hrd3)
    as (Hsb & r4 & Hr4 & Hall & _); [lia|done|done|done|].
  pose proof (same_but_ready _ _ _ Hsb Hrd3) as Hrd4. pose proof Hrd4 as [Hl4 _].
  rewrite Hlen3 in Hsb, Hr4. cbn [Nat.sub] in Hsb, Hr4. rewrite Nat.sub_0_r in Hsb, Hr4.
  set (L := length (_rows (ws s))) in *.
  assert (length (_rows (ws s4)) = S L) as Hlen4.
  { destruct Hsb as (_ & _ & -> & _). done. }
  cbv beta iota. rewrite bind_run, (quiet_run _ s4 (quiet_is_blank rd) Hl4).
  destruct (is_blank rd s4).1 as [b|e] eqn:Eb; [|done].
  cbn [fst]. intros Hfin.
  assert (exists r', same_but (DataRow L) (ws s3) (ws s') /\
            lookup_row (ws s') (DataRow L) = Some r' /\
            forall i x, rd !! i = Some x ->
              slot_text (slot_at (cells r') (Z.of_nat i)) = item_text x)
    as (r' & Hsb' & Hr' & Hall').
  { revert Hfin. destruct b.
    - rewrite bind_run, Worksheet_getitem_last by (done || lia). cbv beta iota.
      rewrite Hlen4. cbn [Nat.sub]. rewrite Nat.sub_0_r. intros Hset.
      destruct (Row_setitem_int_ok svc s4 s' (DataRow L) r4 0 PNone)
        as (Hsb5 & r5 & Hr5 & Ht & Hfr); [done|done|done|lia|done|].
      exists r5. split; [by eapply same_but_trans|]. split; [done|].
      assert (is_blank rd s4 = (Ok true, s4)) as Hb.
      { rewrite (quiet_run _ s4 (quiet_is_blank rd) Hl4). by rewrite Eb. }
      intros [|i] x Hx.
      + rewrite (is_blank_true _ _ _ Hb 0%nat x Hx). exact Ht.
      + rewrite Hfr by lia. apply (Hall (S i) x Hx).
    - rewrite ret_run. intros [= <-]. exists r4. split; [done|]. split; [done|].
      intros i x Hx. apply (Hall i x Hx). }
  exists r'. split; [|split; [|split]].
  - rewrite (same_but_rows L (ws s3) (ws s') r' Hsb' Hr') by (rewrite Hlen3; lia).
    subst s3 s2 L. cbn [ws _rows set_rows]. by rewrite take_app_length.
  - destruct Hsb' as (_ & _ & _ & Hlh & Hother & _).
    apply list_eq. intros j. apply (Hother (HeaderRow j)). done.
  - destruct Hsb' as (_ & _ & _ & _ & _ & Hrow).
    destruct (Hrow (Row_new N)) as (r'' & Hr'' & Hrow'').
    { cbn. by rewrite list_lookup_middle. }
    rewrite Hr' in Hr''. injection Hr'' as <-. rewrite Hrow''. done.
  - intros i v Hv.
    assert ((item_text <$> rd) !! i = Some (normalize v)) as Hi.
    { by rewrite Htext, list_lookup_fmap, Hv. }
    rewrite list_lookup_fmap in Hi. destruct (rd !! i) as [x|] eqn:Ex; [|done].
    injection Hi as <-. by apply (Hall' i x).
Qed.

(** ** Choosing a worksheet by its position *)

Lemma worksheet_step_num n (m : nat) : forall (l : list Worksheet) (k0 : nat) acc,
  1 <= n -> m = Z.to_nat (n - 1) ->
  fold_left (worksheet_step (Some n) None None)
            (imap (fun i w => ((k0 + i)%nat, w)) l) acc
  = acc ++ (if decide (k0 <= m)%nat then option_list (l !! (m - k0)%nat) else []).
Proof.
  induction l as [|x l IH]; intros k0 acc Hn Hm.
  - cbn. destruct (decide _); cbn; by rewrite app_nil_r.
  - cbn [imap fold_left].
    rewrite (imap_ext _ (fun i w => ((S k0 + i)%nat, w))) by (intros; cbn; f_equal; lia).
    rewrite IH by done. unfold worksheet_step. cbn [fst snd].
    rewrite Nat.add_0_r.
    destruct (n =? 0) eqn:E0; [apply Z.eqb_eq in E0; lia|]. cbn [negb andb].
    destruct (n =? Z.of_nat k0 + 1) eqn:E1.
    + apply Z.eqb_eq in E1. cbn [negb]. assert (k0 = m) as -> by lia.
      rewrite decide_False by lia. rewrite decide_True by lia.
      rewrite Nat.sub_diag. cbn. by rewrite app_nil_r.
    + apply Z.eqb_neq in E1. cbn [negb].
      destruct (decide (S k0 <= m)%nat) as [H|H].
      * rewrite decide_True by lia. replace (m - k0)%nat with (S (m - S k0)) by lia. done.
      * rewrite decide_False by lia. done.
Qed.

Lemma worksheet_by_num svc k n nh s l s1 :
  1 <= n -> worksheets svc k None s = (Ok l, s1) ->
  worksheet svc k (Some n) None None nh s
  = (match l !! Z.to_nat (n - 1) with
     | Some w => Ok (with_nheaders nh w)
     | None => Raise (ValueError "worksheets matching")
     end, s1).
Proof.
  intros Hn Hws. unfold worksheet.
  destruct (n <=? 0) eqn:E; [apply Z.leb_le in E; lia|].
  rewrite bind_run, Hws. cbv beta iota.
  rewrite (imap_ext _ (fun i w => ((0 + i)%nat, w))) by done.
  rewrite (worksheet_step_num n (Z.to_nat (n - 1))) by done.
  rewrite decide_True by lia. rewrite Nat.sub_0_r. cbn [app].
  by destruct (l !! Z.to_nat (n - 1)).
Qed.

(** ** Loading again *)

Lemma reload_run svc s f :
  svc_GetCellsFeed svc (trace s) (key (ws s)) (short_id (wksht_id (ws s))) = Ok f ->
  Forall (fun e => 1 <= entry_row e /\ 1 <= entry_col e) f ->
  exists s', reload svc s = (Ok tt, s') /\
    trace s' = trace s ++ [EvGetCellsFeed (key (ws s)) (short_id (wksht_id (ws s)))] /\
    _cells_feed (ws s') = Some f /\ _list_feed (ws s') = None /\
    nheaders (ws s') = nheaders (ws s) /\
    forall n c, 1 <= n -> 1 <= c -> cell_at (ws s') n c = feed_cell f n c.
Proof.
  intros Hsvc Hf. unfold reload. mrun. cbn [ws trace].
  set (s0 := {| ws := set_list_feed None (set_cells_feed None (ws s)); trace := trace s |}).
  destruct (get_cells_feed_run svc s0 f) as (s' & Hrun & Ht & Hsame & _ & Hat);
    [done|done|done|].
  rewrite Hrun. mrun. exists s'. split; [done|]. split; [done|].
  destruct Hsame as (_ & _ & _ & Hnh & Hcf & Hlf). by repeat split.
Qed.

(** A load that fetches the cells starts from no rows at all, so the
    rows it leaves are numbered one by one. *)
Lemma fetch_contiguous svc s f s' :
  _cells_feed (ws s) = None -> get_cells_feed svc s = (Ok f, s') ->
  rows_contiguous (ws s').
Proof.
  intros Hnone. unfold get_cells_feed, GetCellsFeed. mrun. rewrite Hnone. mrun.
  cbn [ws trace]. destruct (svc_GetCellsFeed svc _ _ _) as [f0|e]; mrun; [|done].
  cbn [ws trace].
  match goal with
  | |- match ?m ?s0 with _ => _ end = _ -> _ =>
      assert (rows_contiguous (ws (m s0).2)) as Hc;
        [|destruct (m s0) as [[[]|e] s1]; [|done]]
  end.
  { match goal with |- rows_contiguous (ws (?m ?s0).2) =>
      cut (keeps rows_contiguous m); [intros Hk; apply Hk|] end.
    - intros i r. cbn. by rewrite lookup_nil.
    - keeps_auto. }
  cbn [snd] in Hc. mrun.
  match goal with
  | |- match ?m ?s0 with _ => _ end = _ -> _ =>
      assert (rows_contiguous (ws (m s0).2)) as Hc2;
        [|destruct (m s0) as [[[]|e] s2]; [|done]]
  end.
  { match goal with |- rows_contiguous (ws (?m ?s0).2) =>
      cut (keeps rows_contiguous m); [intros Hk; by apply Hk|] end.
    keeps_auto. }
  mrun. by intros [= _ <-].
Qed.

Lemma reload_contiguous svc s s' :
  reload svc s = (Ok tt, s') -> rows_contiguous (ws s').
Proof.
  unfold reload. mrun. cbn [ws trace].
  destruct (get_cells_feed svc _) as [[f|e] s1] eqn:E; mrun; [|done].
  intros [= <-]. eapply fetch_contiguous; [|exact E]. done.
Qed.

(** ** [Row.get] and the name of a column *)

Lemma Row_get_run svc s self k d r hrow :
  ready (ws s) -> last (_header_rows (ws s)) = Some hrow ->
  lookup_row (ws s) self = Some r ->
  (forall i, resolve_key (cells hrow) k = Ok i -> 0 <= i) ->
  Row_get svc self k d s
  = (Ok (match resolve_key (cells hrow) k with
         | Ok i => slot_at (cells r) i
         | Raise _ => d
         end), s).
Proof.
  intros [Hl _] Hh Hr Hpos. unfold Row_get.
  destruct (resolve_key (cells hrow) k) as [i|e] eqn:Ek.
  - by rewrite (Row_getitem_loaded svc s self k r hrow i) by auto.
  - unfold Row_getitem. rewrite bind_run.
    rewrite (get_index_of_key_loaded svc s self k hrow) by done. rewrite Ek.
    unfold resolve_key in Ek. destruct (key_in k (cells hrow)); [done|].
    destruct (py_int k); [done|]. by injection Ek as <-.
Qed.

(** ** The header rows after a load *)

Lemma hdr_ok_cells nh cs self w : hdr_ok nh w -> hdr_ok nh (alter_row (set_cells cs) self w).
Proof.
  intros (H1 & H2 & H3). destruct self as [i|i]; [|done].
  split; [done|]. split; [by cbn; rewrite length_alter|].
  intros j r. cbn. rewrite list_lookup_alter.
  destruct (decide (i = j)) as [->|]; [|apply H3].
  destruct (_header_rows w !! j) as [r0|] eqn:E; [|done]. cbn. intros [= <-]. cbn. by apply H3.
Qed.

Lemma hdr_ok_Row__set_local nh self i v : keeps (hdr_ok nh) (Row__set_local self i v).
Proof.
  unfold Row__set_local, read_row, write_cells. repeat keeps_step.
  apply keeps_modify_ws. intros w. apply hdr_ok_cells.
Qed.

Lemma hdr_ok_init_cell nh r c cell : keeps (hdr_ok nh) (init_cell r c cell).
Proof.
  unfold init_cell, append_data_row.
  repeat keeps_step; first [apply hdr_ok_Row__set_local | by apply keeps_modify_ws].
Qed.

Lemma py_range_lookup a b (j : nat) :
  (j < Z.to_nat (b - a))%nat -> py_range a b !! j = Some (a + Z.of_nat j).
Proof.
  intros Hj. unfold py_range. rewrite list_lookup_fmap, lookup_seq_lt by done. done.
Qed.

Lemma hdr_ok_append nh w b :
  hdr_ok nh w -> b <= Z.max 0 nh ->
  hdr_ok nh (set_header_rows
               (_header_rows w ++ (Row_new <$> ((fun i => i + 1) <$>
                  py_range (Z.of_nat (length (_header_rows w))) b))) w).
Proof.
  intros (H1 & H2 & H3) Hb. split; [done|]. split.
  - cbn. rewrite length_app, !length_fmap, py_range_length. lia.
  - intros j r. cbn. intros Hj. apply lookup_app_Some in Hj as [Hj|[Hlen Hj]]; [by apply H3|].
    rewrite !list_lookup_fmap in Hj.
    destruct (py_range _ b !! _) as [x|] eqn:E; [|done].
    cbn in Hj. injection Hj as <-. cbn.
    assert (j - length (_header_rows w) < Z.to_nat (b - Z.of_nat (length (_header_rows w))))%nat.
    { apply lookup_lt_Some in E. by rewrite py_range_length in E. }
    rewrite py_range_lookup in E by done. injection E as <-. lia.
Qed.

Lemma hdr_ok_load_cell nh cell : keeps (hdr_ok nh) (load_cell cell).
Proof.
  intros s H. unfold load_cell. rewrite bind_run, get_ws_run. cbv beta iota.
  destruct (entry_row cell <=? nheaders (ws s)) eqn:E; [|by apply hdr_ok_init_cell].
  apply Z.leb_le in E.
  rewrite bind_run, (append_header_rows_run _ _ _ _ eq_refl). cbv beta iota.
  to_keeps (hdr_ok_append nh (ws s) (entry_row cell) H ltac:(destruct H as [<- _]; lia)).
  repeat keeps_step. apply hdr_ok_Row__set_local.
Qed.

(** A load that fetches the cells leaves as many header rows as the
    worksheet is said to have, numbered from 1. *)
Lemma fetch_headers svc s f s' :
  _cells_feed (ws s) = None -> get_cells_feed svc s = (Ok f, s') ->
  nheaders (ws s') = nheaders (ws s) /\
  Z.of_nat (length (_header_rows (ws s'))) = Z.max 0 (nheaders (ws s)) /\
  headers_numbered (ws s').
Proof.
  intros Hnone. unfold get_cells_feed, GetCellsFeed. mrun. rewrite Hnone. mrun.
  cbn [ws trace]. destruct (svc_GetCellsFeed svc _ _ _) as [f0|e]; mrun; [|done].
  cbn [ws trace].
  match goal with
  | |- match ?m ?s0 with _ => _ end = _ -> _ =>
      assert (hdr_ok (nheaders (ws s)) (ws (m s0).2)) as Hc;
        [|destruct (m s0) as [[[]|e] s1]; [|done]]
  end.
  { match goal with |- hdr_ok _ (ws (?m ?s0).2) =>
      cut (keeps (hdr_ok (nheaders (ws s))) m); [intros Hk; apply Hk|] end.
    - split; [done|]. split; [cbn; lia|]. intros i r. cbn. by rewrite lookup_nil.
    - apply keeps_mfor. intros x. apply hdr_ok_load_cell. }
  cbn [snd] in Hc. mrun.
  rewrite (append_header_rows_run _ _ _ _ eq_refl). mrun. intros [= _ <-]. cbn [ws].
  pose proof Hc as (Hnh & Hlen & _).
  destruct (hdr_ok_append _ (ws s1) (nheaders (ws s1)) Hc ltac:(lia)) as (H1 & H2 & H3).
  split; [done|]. split; [|done].
  cbn. rewrite length_app, !length_fmap, py_range_length. lia.
Qed.

(** With rows that carry their numbers, [get_row] finds every row
    under its own number. *)
Lemma get_row_of_number svc s ref r :
  loaded (ws s) -> rows_contiguous (ws s) -> headers_numbered (ws s) ->
  Z.of_nat (length (_header_rows (ws s))) = Z.max 0 (nheaders (ws s)) ->
  lookup_row (ws s) ref = Some r ->
  get_row svc (row r) s = (Ok ref, s).
Proof.
  intros Hl Hc Hh Hlen Hr. unfold get_row. mrun. destruct ref as [i|i]; cbn in Hr.
  - rewrite (Hh i r Hr). pose proof (lookup_lt_Some _ _ _ Hr).
    destruct (_ <=? _) eqn:E; [|apply Z.leb_gt in E; lia].
    rewrite bind_run, get_all_header_rows_loaded by done. cbv beta iota.
    rewrite py_index_nonneg by lia. mrun. do 3 f_equal. lia.
  - rewrite (Hc i r Hr). pose proof (lookup_lt_Some _ _ _ Hr).
    destruct (_ <=? _) eqn:E; [apply Z.leb_le in E; lia|].
    rewrite bind_run, get_rows_loaded by done. mrun.
    rewrite py_index_nonneg by lia. mrun. do 3 f_equal. lia.
Qed.

(** ** Writing rows: what reaches the service, and the numbering *)

Lemma emits_set_row_item svc r iv : emits read_or_update (set_row_item svc r iv).
Proof. unfold set_row_item. emits_quiet. Qed.

Lemma emits_set_row svc n vals : emits read_or_update (set_row svc n vals).
Proof. unfold set_row. emits_quiet. apply emits_set_row_item. Qed.

Lemma emits_Worksheet_setitem svc i vals :
  emits read_or_update (Worksheet_setitem svc i vals).
Proof.
  unfold Worksheet_setitem, Worksheet_getitem. emits_quiet. apply emits_set_row.
Qed.

Lemma emits_set_headers svc vals : emits read_or_update (set_headers svc vals).
Proof. unfold set_headers. emits_quiet. apply emits_set_row. Qed.

Lemma keeps_set_row svc n vals : keeps rows_contiguous (set_row svc n vals).
Proof. unfold set_row, set_row_item. keeps_auto. Qed.

Lemma keeps_Worksheet_setitem svc i vals :
  keeps rows_contiguous (Worksheet_setitem svc i vals).
Proof. unfold Worksheet_setitem. keeps_auto. apply keeps_set_row. Qed.

Lemma keeps_set_headers svc vals : keeps rows_contiguous (set_headers svc vals).
Proof. unfold set_headers. keeps_auto. apply keeps_set_row. Qed.

(** ** The name of a column *)

Lemma headers_cells_run svc s hrow :
  loaded (ws s) -> last (_header_rows (ws s)) = Some hrow ->
  headers_cells svc s = (Ok (cells hrow), s).
Proof.
  intros Hl Hh. destruct (get_headers_loaded svc s hrow Hl Hh) as (hr & Hg & Hr).
  unfold headers_cells. rewrite bind_run, Hg. cbv beta iota.
  rewrite bind_run, (read_row_run s hr hrow) by done. done.
Qed.

Lemma get_colname_run svc s hrow c :
  ready (ws s) -> last (_header_rows (ws s)) = Some hrow -> 1 <= cell_col c ->
  get_colname svc c s = (Ok (slot_at (cells hrow) (cell_col c - 1)), s).
Proof.
  intros Hrd Hh Hc. pose proof Hrd as [Hl _].
  destruct (get_headers_loaded svc s hrow Hl Hh) as (hr & Hg & Hr).
  unfold get_colname. rewrite bind_run, (headers_cells_run svc s hrow) by done.
  cbv beta iota. destruct (_ <=? _) eqn:E.
  - rewrite bind_run, Hg. cbv beta iota.
    by rewrite (Row_getitem_int svc s hr hrow) by (done || lia).
  - apply Z.leb_gt in E. rewrite ret_run, slot_at_past by lia. done.
Qed.

(** ** Adding a worksheet *)

Lemma AddWorksheet_run svc t r c k s :
  AddWorksheet svc t r c k s
  = (svc_AddWorksheet svc (trace s) t r c k,
     {| ws := ws s; trace := trace s ++ [EvAddWorksheet t r c k] |}).
Proof. unfold AddWorksheet. by mrun. Qed.

Lemma wksht_id_of_url svc p id t s :
  lacks newline p -> word id ->
  wksht_id_of svc ("https://" +:+ p +:+ "/" +:+ id) t s
  = (Ok {| full_id := Some ("https://" +:+ p +:+ "/" +:+ id); short_id := Some id |}, s).
Proof.
  intros Hp Hw. unfold wksht_id_of, WorksheetID_new.
  rewrite gdata_id_match_url by done. done.
Qed.

Lemma add_worksheet_run svc k t r c nh s e p id :
  svc_AddWorksheet svc (trace s) t r c k = Ok e ->
  ws_id e = "https://" +:+ p +:+ "/" +:+ id -> lacks newline p -> word id ->
  add_worksheet svc k t r c nh s
  = (if ws_row_count e <? nh then Raise (ValueError "Fewer rows than specified headers")
     else Ok {| key := k;
                wksht_id := {| full_id := Some (ws_id e); short_id := Some id |};
                title := ws_title e; nheaders := nh;
                _cells_feed := None; _list_feed := None;
                _header_rows := []; _rows := []; _max_col := 0 |},
     {| ws := ws s; trace := trace s ++ [EvAddWorksheet t r c k] |}).
Proof.
  intros Hsvc Hid Hp Hw. unfold add_worksheet. rewrite bind_run, AddWorksheet_run, Hsvc.
  cbv beta iota. unfold Worksheet_new. destruct (_ <? _); [done|].
  rewrite bind_run, Hid, wksht_id_of_url by done. done.
Qed.

(** ** Keys without a fragment *)

Lemma span_eq (p : ascii -> bool) l : forall a b, span p l = (a, b) -> l = a ++ b.
Proof.
  induction l as [|c l IH]; intros a b; cbn.
  - by intros [= <- <-].
  - destruct (p c); [|by intros [= <- <-]].
    destruct (span p l) as [a' b'] eqn:E. intros [= <- <-]. cbn. f_equal. by apply IH.
Qed.

Lemma strip_prefix_eq pre : forall l body, strip_prefix pre l = Some body -> l = pre ++ body.
Proof.
  induction pre as [|c pre IH]; intros l body; cbn.
  - by intros [= <-].
  - destruct l as [|d l]; [done|]. destruct (Ascii.eqb c d) eqn:E; [|done].
    apply Ascii.eqb_eq in E as ->. intros H. cbn. f_equal. by apply IH.
Qed.

Lemma strip_gid_at_end_plain l :
  forallb (fun x => negb (Ascii.eqb x "#")) l = true -> strip_gid_at_end l = l.
Proof.
  intros Hl. unfold strip_gid_at_end.
  destruct (span is_digit (rev l)) as [ds rest] eqn:E.
  destruct ds as [|d ds]; [done|].
  destruct (strip_prefix _ rest) as [body|] eqn:E2; [|done].
  exfalso. apply span_eq in E. apply strip_prefix_eq in E2. subst rest.
  rewrite <- forallb_rev, E in Hl. rewrite !forallb_app in Hl.
  apply andb_true_iff in Hl as [_ Hl]. apply andb_true_iff in Hl as [Hl _].
  by vm_compute in Hl.
Qed.

Lemma strip_gid_plain k : lacks "#" k -> strip_gid k = k.
Proof.
  unfold lacks, strip_gid. intros Hk.
  destruct (rev (list_ascii_of_string k)) as [|c body] eqn:E; [done|].
  assert (list_ascii_of_string k = rev body ++ [c]) as Hl.
  { by rewrite <- (rev_involutive (list_ascii_of_string k)), E. }
  destruct (Ascii.eqb c newline) eqn:Ec.
  - apply Ascii.eqb_eq in Ec as ->. rewrite strip_gid_at_end_plain.
    + by rewrite <- Hl, string_of_list_ascii_of_string.
    + rewrite Hl, forallb_app in Hk. by apply andb_true_iff in Hk as [? _].
  - rewrite strip_gid_at_end_plain by done. apply string_of_list_ascii_of_string.
Qed.

(** The first thing [worksheets] does is to ask for the worksheets of
    the key without its fragment. *)
Lemma worksheets_first_event svc k titles s :
  exists rest,
    trace (worksheets svc k titles s).2 = trace s ++ EvGetWorksheetsFeed (strip_gid k) :: rest.
Proof.
  unfold worksheets.
  set (body := fun (wslist : list Worksheet) (wsdata : WsEntry) => _).
  unfold GetWorksheetsFeed. mrun. cbn [ws trace].
  destruct (svc_GetWorksheetsFeed svc (trace s) (strip_gid k)) as [feed|e]; mrun.
  2: { by exists []. }
  assert (emits (fun _ => True) (mfold feed body [])) as He.
  { apply emits_mfold. intros acc x. subst body. cbv beta.
    apply emits_bind; [apply emits_Worksheet_new|]. intros w. emits_auto. }
  destruct (He {| ws := ws s; trace := trace s ++ [EvGetWorksheetsFeed (strip_gid k)] |})
    as (l & -> & _). cbn [trace]. exists l. by rewrite <- app_assoc.
Qed.

(** ** The claims *)



(** C2, at a sheet with two header rows.  After the load the data rows
    are numbered 3 and 4.  Deleting the first one succeeds, and the row
    that moves up keeps its number 4 although it is now data row 0 of a
    sheet with two headers: the renumbering loop starts at the
    list-feed position [row - 2], one past the row that took the place
    of the deleted one. *)
Lemma delete_keeps_stale_number :
  let out := Row_delete two_header_service (DataRow 0) two_header_sheet in
  rows_contiguous (ws two_header_sheet) /\
  (row <$> _rows (ws two_header_sheet)) = [3; 4] /\
  out.1 = Ok tt /\
  nheaders (ws out.2) = 2 /\
  _rows (ws out.2)
  = [{| row := 4; cells := [SCell {| text := "y"; cell_row := 4; cell_col := 1 |}] |}] /\
  ~ rows_contiguous (ws out.2).
Proof.
  split; [by apply (keeps_get_cells_feed two_header_service (fresh_sheet 2))|].
  split; [by vm_compute|]. split; [by vm_compute|]. split; [by vm_compute|].
  assert (_rows (ws (Row_delete two_header_service (DataRow 0) two_header_sheet).2)
          = [{| row := 4; cells := [SCell {| text := "y"; cell_row := 4; cell_col := 1 |}] |}])
    as Hrows by (by vm_compute).
  split; [done|]. intros Hc.
  specialize (Hc 0%nat _ ltac:(cbv zeta; rewrite Hrows; reflexivity)).
  vm_compute in Hc. discriminate.
Qed.

(** The numbering also breaks with a single header row.  [append]
    stores the values that the insert confirmed as plain strings; when
    an earlier row is deleted, the service deletes it, the row leaves
    the list, and the renumbering raises at the first such string, which
    has no [row] to decrement.  The rows after it keep their numbers. *)
Lemma delete_after_append_raises :
  let out := Row_delete grown_service (DataRow 0) grown_sheet in
  nheaders (ws grown_sheet) = 1 /\
  rows_contiguous (ws grown_sheet) /\
  (row <$> _rows (ws grown_sheet)) = [2; 3; 4] /\
  out.1 = Raise AttributeError /\
  _rows (ws out.2)
  = [{| row := 2; cells := [SStr "Bob"] |}; {| row := 4; cells := [SStr "Cy"] |}] /\
  ~ rows_contiguous (ws out.2).
Proof.
  split; [by vm_compute|]. split.
  { unfold grown_sheet, after. apply (keeps_bind rows_contiguous).
    - apply keeps_append.
    - intros _. apply keeps_append.
    - by apply (keeps_get_cells_feed people_service (fresh_sheet 1)). }
  split; [by vm_compute|]. split; [by vm_compute|].
  assert (_rows (ws (Row_delete grown_service (DataRow 0) grown_sheet).2)
          = [{| row := 2; cells := [SStr "Bob"] |}; {| row := 4; cells := [SStr "Cy"] |}])
    as Hrows by (by vm_compute).
  split; [done|]. intros Hc.
  specialize (Hc 1%nat _ ltac:(cbv zeta; rewrite Hrows; reflexivity)).
  vm_compute in Hc. discriminate.
Qed.

(** C3, at a sheet whose data reach column 30 under a single header
    cell.  The thirtieth tag has to come from the table of 29 blank
    tags, and the lookup raises. *)
Lemma wide_sheet_coltags_raise :
  _max_col (ws wide_sheet) = 30 /\
  get_coltags wide_service wide_sheet = (Raise IndexError, wide_sheet).
Proof. by vm_compute. Qed.

(** C4, at an append without values.  Building the values of the
    insert raises on the unbound name, so no insert is sent and no row
    is added. *)
Lemma append_blank_raises :
  append people_service (InSeq []) true people_sheet
  = (Raise (NameError "insert_vals"), people_sheet) /\
  append people_service (InSeq [PStr ""; PNone]) true people_sheet
  = (Raise (NameError "insert_vals"), people_sheet).
Proof. by vm_compute. Qed.

(** C5, at a sheet with two header rows after one delete.  The first
    delete leaves the row that moved up with its old number 4.  A
    delete of that row takes both the list-feed entry and the cached
    row to compare from the number, so it compares the row below with
    the entry of the row below: although the values of the row are
    those of no entry of the list feed, nothing is raised, and the
    service is told to delete the row below, which also leaves the
    cache while the row itself stays. *)
Lemma delete_checks_other_row :
  let y := {| row := 4; cells := [SCell {| text := "y"; cell_row := 4; cell_col := 1 |}] |} in
  let z := {| row := 4; cells := [SCell {| text := "z"; cell_row := 4; cell_col := 1 |}] |} in
  let s1 := after (Row_delete drift_service (DataRow 0)) drift_sheet in
  let out := Row_delete drift_service (DataRow 0) s1 in
  (Row_delete drift_service (DataRow 0) drift_sheet).1 = Ok tt /\
  nheaders (ws s1) = 2 /\
  _rows (ws s1) = [y; z] /\
  _list_feed (ws s1)
  = Some [list_entry [("first", "Second")]; list_entry [("first", "Y")];
          list_entry [("first", "z")]] /\
  Forall (fun e => local_values y <> entry_values e)
         [list_entry [("first", "Second")]; list_entry [("first", "Y")];
          list_entry [("first", "z")]] /\
  out.1 = Ok tt /\
  trace out.2 = trace s1 ++ [EvDeleteRow (list_entry [("first", "z")])] /\
  _rows (ws out.2) = [y] /\
  _list_feed (ws out.2)
  = Some [list_entry [("first", "Second")]; list_entry [("first", "Y")]].
Proof.
  cbv zeta. split; [by vm_compute|]. split; [by vm_compute|].
  split; [by vm_compute|]. split; [by vm_compute|]. split.
  { repeat constructor; refine (bool_decide_eq_false_1 _ _); vm_compute; reflexivity. }
  split; [by vm_compute|]. split; [by vm_compute|]. split; by vm_compute.
Qed.

(** Where the row carries the number of its place, the comparison is
    with the row itself.  When its non-empty values are not those of its
    list-feed entry, [delete] raises the mismatch error from the state in
    which the list feed was obtained.  Until then the service has seen
    reads and cell updates only, so no delete, and with the list feed
    already cached that state is the state before the call: rows, feed
    and history are untouched. *)
Theorem delete_mismatch svc s s1 feed i r e :
  get_list_feed svc s = (Ok feed, s1) ->
  _rows (ws s1) !! i = Some r ->
  row r = nheaders (ws s1) + Z.of_nat i + 1 ->
  list_getitem feed (row r - 2) = Ok e ->
  local_values r <> entry_values e ->
  Row_delete svc (DataRow i) s
  = (Raise (ValueError "Mismatch of gdata and internal values!!"), s1) /\
  (exists evs, trace s1 = trace s ++ evs /\ Forall read_or_update evs) /\
  (forall f, _list_feed (ws s) = Some f -> s1 = s /\ feed = f).
Proof.
  intros Hf Hr Hn He Hdiff. split; [|split].
  - unfold Row_delete. mrun. rewrite Hf. mrun.
    rewrite (read_row_run s1 (DataRow i) r) by done. mrun.
    rewrite He. mrun.
    replace (row r - nheaders (ws s1) - 1) with (Z.of_nat i) by lia.
    rewrite (list_getitem_lookup _ i r) by done. mrun.
    rewrite bool_decide_eq_false_2; [done|].
    intros Heq. by apply Hdiff, vals_agree.
  - destruct (emits_get_list_feed svc s) as (evs & Ht & Hq). rewrite Hf in Ht. eauto.
  - intros f Hs. unfold get_list_feed in Hf. revert Hf. mrun. rewrite Hs. mrun.
    intros [= -> ->]. done.
Qed.

Lemma delete_mismatch_witness :
  (Row_delete renamed_service (DataRow 0) people_sheet).1
  = Raise (ValueError "Mismatch of gdata and internal values!!").
Proof.
  refine (f_equal fst (proj1
    (delete_mismatch renamed_service people_sheet _ _ 0%nat _ _ _ _ _ _ _))).
  - vm_compute. reflexivity.
  - vm_compute. reflexivity.
  - vm_compute. reflexivity.
  - vm_compute. reflexivity.
  - refine (bool_decide_eq_false_1 _ _). vm_compute. reflexivity.
Defined.

(** C6, as the code has it.  The column tags come from sheet row 1, the
    first header row, and from the widest data column; that row is
    [headers] when the worksheet has a single header row. *)
Theorem coltags_from_first_row svc s h0 rest :
  has_data (ws s) = true ->
  _header_rows (ws s) = h0 :: rest ->
  1 <= nheaders (ws s) ->
  get_coltags svc s = (coltags_of (cells h0) (_max_col (ws s)), s) /\
  (rest = [] ->
   get_headers svc s = (Ok (Some (HeaderRow 0)), s) /\
   lookup_row (ws s) (HeaderRow 0) = Some h0).
Proof.
  intros H Hh Hn. split; [by apply (get_coltags_run svc s h0 rest)|].
  intros ->. split; [|cbn; by rewrite Hh].
  unfold get_headers. mrun. rewrite ensure_data_loaded by done. mrun. by rewrite Hh.
Qed.

Lemma coltags_from_first_row_witness :
  (get_coltags people_service people_sheet).1
  = Ok ("Name" :: "Age" :: drop 2 blank_coltags).
Proof.
  rewrite (proj1 (coltags_from_first_row people_service people_sheet
       {| row := 1; cells := [SCell {| text := "Name"; cell_row := 1; cell_col := 1 |};
                              SCell {| text := "Age"; cell_row := 1; cell_col := 2 |}] |}
       [] ltac:(vm_compute; reflexivity) ltac:(vm_compute; reflexivity)
       ltac:(vm_compute; discriminate))).
  vm_compute. reflexivity.
Defined.

(** C6, as stated, fails with two header rows: [headers] is the second
    one, and the tags are those of the first. *)
Lemma coltags_not_from_headers :
  exists hrow,
    (get_headers two_header_service two_header_sheet).1 = Ok (Some (HeaderRow 1)) /\
    lookup_row (ws two_header_sheet) (HeaderRow 1) = Some hrow /\
    (get_coltags two_header_service two_header_sheet).1
    <> coltags_of (cells hrow) (_max_col (ws two_header_sheet)).
Proof.
  eexists. split; [by vm_compute|]. split; [by vm_compute|].
  vm_compute. discriminate.
Qed.

(** C7, as the code has it.  A trailing [#gid=<digits>] is cut off the
    key, and what is left is the key: it is sent to the service as it is
    and stored in every worksheet that is returned. *)
Theorem worksheets_strip_fragment svc k ds titles s :
  ds <> "" -> forallb is_digit (list_ascii_of_string ds) = true ->
  let out := worksheets svc (k +:+ "#gid=" +:+ ds) titles s in
  strip_gid (k +:+ "#gid=" +:+ ds) = k /\
  (exists rest, trace out.2 = trace s ++ EvGetWorksheetsFeed k :: rest) /\
  (forall l w, out.1 = Ok l -> w ∈ l -> key w = k).
Proof.
  intros Hne Hds out. pose proof (strip_gid_fragment k ds Hne Hds) as Hk.
  split; [done|]. subst out. unfold worksheets. rewrite Hk. clear Hk.
  set (body := fun (wslist : list Worksheet) (wsdata : WsEntry) => _).
  unfold GetWorksheetsFeed. mrun. cbn [ws trace].
  destruct (svc_GetWorksheetsFeed svc (trace s) k) as [feed|e]; mrun.
  2: { split; [by exists []|]. done. }
  split.
  - assert (emits (fun _ => True) (mfold feed body [])) as He.
    { apply emits_mfold. intros acc x. subst body. cbv beta.
      apply emits_bind; [apply emits_Worksheet_new|]. intros w. emits_auto. }
    destruct (He {| ws := ws s; trace := trace s ++ [EvGetWorksheetsFeed k] |})
      as (l & -> & _). cbn [trace]. exists l. by rewrite <- app_assoc.
  - intros l w Hl Hw.
    destruct (mfold feed body [] _) as [res s'] eqn:E. cbn in Hl. subst res.
    assert (Forall (fun w => key w = k) l) as Hall.
    { eapply (mfold_invariant (Forall (fun w => key w = k)) body feed);
        [|apply Forall_nil_2|exact E].
      intros acc x s0 acc' s0' Hacc. subst body. cbv beta. rewrite bind_run.
      destruct (Worksheet_new svc k x 1 s0) as [[w0|e] s1] eqn:Ew; [|done].
      apply Worksheet_new_key in Ew.
      destruct (match titles with None => _ | Some _ => _ end);
        rewrite ret_run; intros [= <- _]; [|done].
      apply Forall_app. split; [done|]. by apply Forall_singleton. }
    rewrite Forall_forall in Hall. by apply Hall.
Qed.

Lemma worksheets_strip_fragment_witness :
  strip_gid "ABC123#gid=7" = "ABC123".
Proof.
  refine (proj1 (worksheets_strip_fragment doc_service "ABC123" "7" None (fresh_sheet 1) _ _)).
  - discriminate.
  - vm_compute. reflexivity.
Defined.

(** C7, as stated, fails on the address of the document: only the
    fragment is removed, and the address without it is what the service
    receives and what the worksheet keeps as its key. *)
Lemma url_key_not_resolved :
  let out := worksheets doc_service "https://docs.example.com/.../ccc?key=ABC123#gid=7"
               None (fresh_sheet 1) in
  trace out.2 = [EvGetWorksheetsFeed "https://docs.example.com/.../ccc?key=ABC123"] /\
  (key <$> default [] (match out.1 with Ok l => Some l | Raise _ => None end))
  = ["https://docs.example.com/.../ccc?key=ABC123"] /\
  "https://docs.example.com/.../ccc?key=ABC123" <> "ABC123".
Proof. vm_compute. repeat split; discriminate. Qed.

(** C8, as the code has it.  A write of the text that the cell or
    string in the slot already holds returns at once: no call reaches
    the service and the worksheet is the same. *)
Theorem same_value_write svc s self k v r hrow i :
  has_data (ws s) = true ->
  last (_header_rows (ws s)) = Some hrow ->
  lookup_row (ws s) self = Some r ->
  resolve_key (cells hrow) k = Ok i -> 0 <= i ->
  str_eq_slot (normalize v) (slot_at (cells r) i) = true ->
  Row_setitem svc self k v s = (Ok tt, s).
Proof. apply Row_setitem_same. Qed.

Lemma same_value_write_witness :
  Row_setitem offline_service (DataRow 0) (KStr "Age") (PInt 30) people_sheet
  = (Ok tt, people_sheet).
Proof.
  refine (same_value_write offline_service people_sheet (DataRow 0) (KStr "Age") (PInt 30)
       {| row := 2; cells := [SCell {| text := "Ann"; cell_row := 2; cell_col := 1 |};
                              SCell {| text := "30"; cell_row := 2; cell_col := 2 |}] |}
       {| row := 1; cells := [SCell {| text := "Name"; cell_row := 1; cell_col := 1 |};
                              SCell {| text := "Age"; cell_row := 1; cell_col := 2 |}] |}
       1 _ _ _ _ _ _).
  all: try (vm_compute; reflexivity).
  lia.
Defined.

(** C8, as stated, fails on an empty slot.  The slot reads as [None],
    which the comparison does not take for the empty string, so writing
    back what was read sends an update with the empty value. *)
Lemma empty_write_calls_service :
  Row_getitem people_service (DataRow 0) (KInt 5) people_sheet = (Ok SNone, people_sheet) /\
  slot_text SNone = normalize PNone /\
  Row_setitem people_service (DataRow 0) (KInt 5) PNone people_sheet
  = (Ok tt, {| ws := ws people_sheet;
               trace := trace people_sheet ++ [EvUpdateCell 2 6 "" "ABC123" "od6"] |}).
Proof. by vm_compute. Qed.

(** C9. [UpdateCell] makes between one and five attempts.  Every failed
    attempt but the fifth is followed by a pause of
    [retry_wait_time_seconds]; the first success is returned, and after
    five failures the error of the fifth is raised.  The worksheet is
    not touched.  Every other wrapper calls the service once and hands
    back what it answers. *)
Theorem retry_policy svc s :
  (forall r c v k wid,
     let ev := EvUpdateCell r c v k wid in
     let out := UpdateCell svc r c v k wid s in
     exists j, (j < 5)%nat /\
       (forall i, (i < j)%nat -> exists e, attempt_outcome svc s r c v k wid i = Raise e) /\
       out.2 = {| ws := ws s; trace := trace s ++ retries j ev ++ [ev] |} /\
       out.1 = match attempt_outcome svc s r c v k wid j with
               | Ok e => Ok (Some e)
               | Raise e => Raise e
               end /\
       (forall e, attempt_outcome svc s r c v k wid j = Raise e -> j = 4%nat)) /\
  (forall vals k wid,
     InsertRow svc vals k wid s
     = (svc_InsertRow svc (trace s) vals k wid,
        {| ws := ws s; trace := trace s ++ [EvInsertRow vals k wid] |})) /\
  (forall e,
     DeleteRow svc e s
     = (svc_DeleteRow svc (trace s) e, {| ws := ws s; trace := trace s ++ [EvDeleteRow e] |})) /\
  (forall k wid,
     GetCellsFeed svc k wid s
     = (svc_GetCellsFeed svc (trace s) k wid,
        {| ws := ws s; trace := trace s ++ [EvGetCellsFeed k wid] |})) /\
  (forall k wid,
     GetListFeed svc k wid s
     = (svc_GetListFeed svc (trace s) k wid,
        {| ws := ws s; trace := trace s ++ [EvGetListFeed k wid] |})) /\
  (forall k,
     GetWorksheetsFeed svc k s
     = (svc_GetWorksheetsFeed svc (trace s) k,
        {| ws := ws s; trace := trace s ++ [EvGetWorksheetsFeed k] |})) /\
  (forall t nr nc k,
     AddWorksheet svc t nr nc k s
     = (svc_AddWorksheet svc (trace s) t nr nc k,
        {| ws := ws s; trace := trace s ++ [EvAddWorksheet t nr nc k] |})).
Proof.
  split; [intros; apply UpdateCell_attempts|].
  repeat split; intros;
    unfold InsertRow, DeleteRow, GetCellsFeed, GetListFeed, GetWorksheetsFeed, AddWorksheet;
    mrun; cbn [ws trace];
    match goal with |- context [match ?x with _ => _ end] => by destruct x end.
Qed.

(** C10, as the code has it.  In a loaded worksheet with a header row,
    reading a row at an index [i >= 0] returns the slot at [i], which is
    [None] from the length of the row on; a string key that is a header
    name or the decimal form of such an index also returns a slot.  No
    such read raises. *)
Theorem Row_getitem_total svc s self r hrow :
  has_data (ws s) = true ->
  last (_header_rows (ws s)) = Some hrow ->
  lookup_row (ws s) self = Some r ->
  (forall i, 0 <= i -> Row_getitem svc self (KInt i) s = (Ok (slot_at (cells r) i), s)) /\
  (forall t i, int_of_string t = Some i -> 0 <= i ->
     exists j, 0 <= j /\ (key_in (KStr t) (cells hrow) = false -> j = i) /\
       Row_getitem svc self (KStr t) s = (Ok (slot_at (cells r) j), s)) /\
  (forall j, 0 <= j -> Z.of_nat (length (cells r)) <= j -> slot_at (cells r) j = SNone).
Proof.
  intros H Hl Hr. split; [|split].
  - intros i Hi. eapply Row_getitem_loaded; eauto. apply resolve_key_int.
  - intros t i Ht Hi. unfold resolve_key.
    destruct (key_in (KStr t) (cells hrow)) eqn:E.
    + exists (key_index (KStr t) (cells hrow)).
      split; [apply key_index_nonneg|]. split; [done|].
      eapply Row_getitem_loaded; eauto using key_index_nonneg.
      unfold resolve_key. by rewrite E.
    + exists i. split; [done|]. split; [done|].
      eapply Row_getitem_loaded; eauto. unfold resolve_key. rewrite E. cbn. by rewrite Ht.
  - intros j Hj Hlen. by apply slot_at_past.
Qed.

Lemma Row_getitem_total_witness :
  Row_getitem people_service (DataRow 0) (KInt 7) people_sheet = (Ok SNone, people_sheet).
Proof.
  refine (proj1 (Row_getitem_total people_service people_sheet (DataRow 0)
       {| row := 2; cells := [SCell {| text := "Ann"; cell_row := 2; cell_col := 1 |};
                              SCell {| text := "30"; cell_row := 2; cell_col := 2 |}] |}
       {| row := 1; cells := [SCell {| text := "Name"; cell_row := 1; cell_col := 1 |};
                              SCell {| text := "Age"; cell_row := 1; cell_col := 2 |}] |}
       _ _ _) 7 _).
  all: try (vm_compute; reflexivity).
  lia.
Defined.

(** C10, as stated, fails on a worksheet without header rows: its
    [headers] is [None], and the membership test of the key resolution
    raises before the length of the row is looked at. *)
Lemma headerless_read_raises :
  has_data (ws headerless_sheet) = true /\
  lookup_row (ws headerless_sheet) (DataRow 0)
  = Some {| row := 1; cells := [SCell {| text := "Name"; cell_row := 1; cell_col := 1 |};
                                SCell {| text := "Age"; cell_row := 1; cell_col := 2 |}] |} /\
  Row_getitem people_service (DataRow 0) (KInt 0) headerless_sheet
  = (Raise TypeError, headerless_sheet).
Proof. by vm_compute. Qed.

(** ** Further properties: loading *)

Lemma echo_faithful feed lf : faithful (echo_service feed lf).
Proof. intros h r c v k wid e. cbn. by intros [= <-]. Qed.

(** X1. The first load of a worksheet whose feed numbers rows and
    columns from 1 always succeeds.  It calls the service once, keeps
    the feed, and afterwards the worksheet holds at every place exactly
    the cell of the last feed entry for that place, and nothing where
    the feed has no entry. *)
Theorem load_matches_feed svc s f :
  _cells_feed (ws s) = None ->
  svc_GetCellsFeed svc (trace s) (key (ws s)) (short_id (wksht_id (ws s))) = Ok f ->
  Forall (fun e => 1 <= entry_row e /\ 1 <= entry_col e) f ->
  exists s', get_cells_feed svc s = (Ok f, s') /\
    trace s' = trace s ++ [EvGetCellsFeed (key (ws s)) (short_id (wksht_id (ws s)))] /\
    _cells_feed (ws s') = Some f /\
    forall n c, 1 <= n -> 1 <= c -> cell_at (ws s') n c = feed_cell f n c.
Proof.
  intros Hnone Hsvc Hf.
  destruct (get_cells_feed_run svc s f Hnone Hsvc Hf) as (s' & Hrun & Ht & Hsame & _ & Hat).
  exists s'. split; [done|]. split; [done|]. split; [|done].
  by destruct Hsame as (_ & _ & _ & _ & -> & _).
Qed.

Lemma load_matches_feed_witness :
  exists s', get_cells_feed people_service (fresh_sheet 1) = (Ok people_feed, s') /\
    trace s' = [EvGetCellsFeed "ABC123" (Some "od6")] /\
    _cells_feed (ws s') = Some people_feed /\
    forall n c, 1 <= n -> 1 <= c -> cell_at (ws s') n c = feed_cell people_feed n c.
Proof.
  refine (load_matches_feed people_service (fresh_sheet 1) people_feed _ _ _).
  - reflexivity.
  - reflexivity.
  - repeat constructor; vm_compute; discriminate.
Defined.

(** X2. The widest column that a load records is the widest column
    among the feed entries below the header rows, or what it was before
    when that is more: cells of header rows do not count. *)
Theorem load_widest_column svc s f :
  _cells_feed (ws s) = None ->
  svc_GetCellsFeed svc (trace s) (key (ws s)) (short_id (wksht_id (ws s))) = Ok f ->
  Forall (fun e => 1 <= entry_row e /\ 1 <= entry_col e) f ->
  _max_col (ws (get_cells_feed svc s).2) = widest f (nheaders (ws s)) (_max_col (ws s)) /\
  _max_col (ws s) <= _max_col (ws (get_cells_feed svc s).2).
Proof.
  intros Hnone Hsvc Hf.
  destruct (get_cells_feed_run svc s f Hnone Hsvc Hf) as (s' & Hrun & _ & _ & Hmc & _).
  rewrite Hrun. cbn [snd]. rewrite Hmc. split; [done|]. apply widest_grows.
Qed.

Lemma load_widest_column_witness :
  _max_col (ws (get_cells_feed wide_service (fresh_sheet 1)).2) = 30 /\
  0 <= _max_col (ws (get_cells_feed wide_service (fresh_sheet 1)).2).
Proof.
  refine (load_widest_column wide_service (fresh_sheet 1) wide_feed _ _ _).
  - reflexivity.
  - reflexivity.
  - repeat constructor; vm_compute; discriminate.
Defined.

(** X3. A load that fetches the cells and returns leaves the data rows
    numbered one by one after the header rows, as many header rows as
    the worksheet is said to have, and the header rows numbered from 1;
    this holds for every feed and whatever rows were held before. *)
Theorem load_numbers_rows svc s f s' :
  _cells_feed (ws s) = None ->
  get_cells_feed svc s = (Ok f, s') ->
  rows_contiguous (ws s') /\ headers_numbered (ws s') /\
  nheaders (ws s') = nheaders (ws s) /\
  Z.of_nat (length (_header_rows (ws s'))) = Z.max 0 (nheaders (ws s)).
Proof.
  intros Hnone Hrun. split; [by eapply fetch_contiguous|].
  destruct (fetch_headers svc s f s' Hnone Hrun) as (H1 & H2 & H3). done.
Qed.

Lemma load_numbers_rows_witness :
  rows_contiguous (ws two_header_sheet) /\ headers_numbered (ws two_header_sheet) /\
  nheaders (ws two_header_sheet) = 2 /\
  Z.of_nat (length (_header_rows (ws two_header_sheet))) = 2.
Proof.
  refine (load_numbers_rows two_header_service (fresh_sheet 2) two_header_feed
            two_header_sheet _ _).
  - reflexivity.
  - vm_compute. reflexivity.
Defined.

(** X4. After such a load every row, header or data, is found by
    [get_row] under its own number. *)
Theorem row_found_by_number svc s f s' ref r :
  _cells_feed (ws s) = None ->
  get_cells_feed svc s = (Ok f, s') ->
  lookup_row (ws s') ref = Some r ->
  get_row svc (row r) s' = (Ok ref, s').
Proof.
  intros Hnone Hrun Hr.
  destruct (fetch_headers svc s f s' Hnone Hrun) as (H1 & H2 & H3).
  apply get_row_of_number; try done.
  - by eapply get_cells_feed_loaded.
  - by eapply fetch_contiguous.
  - by rewrite H1.
Qed.

Lemma row_found_by_number_witness :
  get_row two_header_service 4 two_header_sheet = (Ok (DataRow 1), two_header_sheet).
Proof.
  refine (row_found_by_number two_header_service (fresh_sheet 2) two_header_feed
            two_header_sheet (DataRow 1)
            {| row := 4; cells := [SCell {| text := "y"; cell_row := 4; cell_col := 1 |}] |}
            _ _ _).
  - reflexivity.
  - vm_compute. reflexivity.
  - vm_compute. reflexivity.
Defined.

(** X5. [reload] forgets the cells and the list feed and fetches the
    cells again with one call.  When the service answers, the worksheet
    holds exactly the new feed, whatever it held before, and its rows
    are numbered one by one. *)
Theorem reload_replaces_cache svc s f :
  svc_GetCellsFeed svc (trace s) (key (ws s)) (short_id (wksht_id (ws s))) = Ok f ->
  Forall (fun e => 1 <= entry_row e /\ 1 <= entry_col e) f ->
  exists s', reload svc s = (Ok tt, s') /\
    trace s' = trace s ++ [EvGetCellsFeed (key (ws s)) (short_id (wksht_id (ws s)))] /\
    _cells_feed (ws s') = Some f /\ _list_feed (ws s') = None /\
    rows_contiguous (ws s') /\
    forall n c, 1 <= n -> 1 <= c -> cell_at (ws s') n c = feed_cell f n c.
Proof.
  intros Hsvc Hf.
  destruct (reload_run svc s f Hsvc Hf) as (s' & Hrun & Ht & Hcf & Hlf & _ & Hat).
  exists s'. repeat (split; [done|]). split; [|done]. by eapply reload_contiguous.
Qed.

Lemma reload_replaces_cache_witness :
  exists s', reload people_service grown_sheet = (Ok tt, s') /\
    trace s' = trace grown_sheet ++ [EvGetCellsFeed "ABC123" (Some "od6")] /\
    _cells_feed (ws s') = Some people_feed /\ _list_feed (ws s') = None /\
    rows_contiguous (ws s') /\
    forall n c, 1 <= n -> 1 <= c -> cell_at (ws s') n c = feed_cell people_feed n c.
Proof.
  refine (reload_replaces_cache people_service grown_sheet people_feed _ _).
  - reflexivity.
  - repeat constructor; vm_compute; discriminate.
Defined.

(** X6. Once the cells are loaded, reading the rows, the headers, the
    sizes, a row by its number, a cell, the column tags or the length
    neither calls the service nor changes the worksheet. *)
Theorem reads_do_not_fetch svc s :
  loaded (ws s) ->
  (get_rows svc s).2 = s /\ (get_headers svc s).2 = s /\
  (get_all_header_rows svc s).2 = s /\
  (get_max_row svc s).2 = s /\ (get_max_col svc s).2 = s /\
  (get_coltags svc s).2 = s /\ (Worksheet_len svc s).2 = s /\
  (forall n, (get_row svc n s).2 = s) /\
  (forall i, (Worksheet_getitem svc i s).2 = s) /\
  (forall self k, (Row_getitem svc self k s).2 = s) /\
  (forall self k d, (Row_get svc self k d s).2 = s).
Proof.
  intros Hl. repeat split; intros;
    first [ by apply quiet_get_rows | by apply quiet_get_headers
          | by apply quiet_get_all_header_rows | by apply quiet_get_max_row
          | by apply quiet_get_max_col | by apply quiet_get_coltags
          | by apply quiet_Worksheet_len | by apply quiet_get_row
          | by apply quiet_Worksheet_getitem | by apply quiet_Row_getitem
          | by apply quiet_Row_get ].
Qed.

Lemma reads_do_not_fetch_witness :
  (get_rows people_service people_sheet).2 = people_sheet /\
  (get_headers people_service people_sheet).2 = people_sheet /\
  (get_all_header_rows people_service people_sheet).2 = people_sheet /\
  (get_max_row people_service people_sheet).2 = people_sheet /\
  (get_max_col people_service people_sheet).2 = people_sheet /\
  (get_coltags people_service people_sheet).2 = people_sheet /\
  (Worksheet_len people_service people_sheet).2 = people_sheet /\
  (forall n, (get_row people_service n people_sheet).2 = people_sheet) /\
  (forall i, (Worksheet_getitem people_service i people_sheet).2 = people_sheet) /\
  (forall self k, (Row_getitem people_service self k people_sheet).2 = people_sheet) /\
  (forall self k d, (Row_get people_service self k d people_sheet).2 = people_sheet).
Proof.
  refine (reads_do_not_fetch people_service people_sheet _).
  vm_compute. reflexivity.
Defined.

(** ** Further properties: writing *)

(** X7. Writing a cell, a whole row, a row by its index or the header
    row, and fetching the list feed, only ever read feeds and update
    cells: no row is inserted or deleted, no worksheet is added, and
    the worksheets of the document are not listed. *)
Theorem writes_only_update svc :
  (forall self k v, emits read_or_update (Row_setitem svc self k v)) /\
  (forall n vals, emits read_or_update (set_row svc n vals)) /\
  (forall i vals, emits read_or_update (Worksheet_setitem svc i vals)) /\
  (forall vals, emits read_or_update (set_headers svc vals)) /\
  emits read_or_update (get_list_feed svc).
Proof.
  split; [intros; apply emits_Row_setitem|].
  split; [intros; apply emits_set_row|].
  split; [intros; apply emits_Worksheet_setitem|].
  split; [intros; apply emits_set_headers|].
  apply emits_get_list_feed.
Qed.

(** X8. On a loaded worksheet with a header row and a service that
    confirms what it is given, a [set_row] with a sequence that returns
    has written the row with that number: every value given can be read
    at its column, and every other row is as before. *)
Theorem set_row_reads_back svc s s' n vals :
  faithful svc -> ready (ws s) ->
  set_row svc n (InSeq vals) s = (Ok tt, s') ->
  exists ref r', get_row svc n s = (Ok ref, s) /\
    lookup_row (ws s') ref = Some r' /\
    (forall i v, vals !! i = Some v -> cell_reads (ws s') ref (Z.of_nat i) (normalize v)) /\
    (forall other, other <> ref -> lookup_row (ws s') other = lookup_row (ws s) other).
Proof.
  intros Hf Hrd Hrun.
  destruct (set_row_run svc s s' n vals Hf Hrd Hrun) as (ref & r' & Hg & Hsb & Hr' & Hall).
  exists ref, r'. split; [done|]. split; [done|]. split.
  - intros i v Hv. exists r'. split; [done|]. by apply Hall.
  - by destruct Hsb as (_ & _ & _ & _ & Ho & _).
Qed.

Lemma set_row_reads_back_witness :
  let s' := (set_row people_service 2 (InSeq [PStr "Bob"; PInt 31]) people_sheet).2 in
  exists ref r', get_row people_service 2 people_sheet = (Ok ref, people_sheet) /\
    lookup_row (ws s') ref = Some r' /\
    (forall i v, [PStr "Bob"; PInt 31] !! i = Some v ->
       cell_reads (ws s') ref (Z.of_nat i) (normalize v)) /\
    (forall other, other <> ref ->
       lookup_row (ws s') other = lookup_row (ws people_sheet) other).
Proof.
  refine (set_row_reads_back people_service people_sheet _ 2 [PStr "Bob"; PInt 31] _ _ _).
  - apply echo_faithful.
  - split; [vm_compute; reflexivity|vm_compute; discriminate].
  - vm_compute. reflexivity.
Defined.



(** X10. On a loaded worksheet whose header rows are not blank, with a
    service that confirms what it is given, an [append] of a sequence
    that returns has added exactly one data row after the others: it
    carries the next row number, every value given can be read in it,
    and the rows before it and the header rows are as they were. *)
Theorem append_adds_row svc s s' vals ow :
  faithful svc -> ready (ws s) ->
  Forall (fun r => cells r <> []) (_header_rows (ws s)) ->
  append svc (InSeq vals) ow s = (Ok tt, s') ->
  exists r', _rows (ws s') = _rows (ws s) ++ [r'] /\
    _header_rows (ws s') = _header_rows (ws s) /\
    row r' = Z.of_nat (length (_rows (ws s))) + nheaders (ws s) + 1 /\
    forall i v, vals !! i = Some v ->
      slot_text (slot_at (cells r') (Z.of_nat i)) = normalize v.
Proof. apply append_run. Qed.

Lemma append_adds_row_witness :
  let s' := (append people_service (InSeq [PStr "Bob"; PInt 31]) true people_sheet).2 in
  exists r', _rows (ws s') = _rows (ws people_sheet) ++ [r'] /\
    _header_rows (ws s') = _header_rows (ws people_sheet) /\
    row r' = 3 /\
    forall i v, [PStr "Bob"; PInt 31] !! i = Some v ->
      slot_text (slot_at (cells r') (Z.of_nat i)) = normalize v.
Proof.
  refine (append_adds_row people_service people_sheet _ [PStr "Bob"; PInt 31] true _ _ _ _).
  - apply echo_faithful.
  - split; [vm_compute; reflexivity|vm_compute; discriminate].
  - repeat constructor; vm_compute; discriminate.
  - vm_compute. reflexivity.
Defined.

(** X11. Whatever they return or raise, [append], [set_row],
    [ws[i] = vals] and [set_headers] keep the numbering of the data
    rows: if every data row carried its number before, it does after. *)
Theorem writes_keep_numbering svc :
  (forall vals ow, keeps rows_contiguous (append svc vals ow)) /\
  (forall n vals, keeps rows_contiguous (set_row svc n vals)) /\
  (forall i vals, keeps rows_contiguous (Worksheet_setitem svc i vals)) /\
  (forall vals, keeps rows_contiguous (set_headers svc vals)).
Proof.
  split; [intros; apply keeps_append|].
  split; [intros; apply keeps_set_row|].
  split; [intros; apply keeps_Worksheet_setitem|].
  intros; apply keeps_set_headers.
Qed.

(** X12. An [append] of a sequence whose values are all [None] or
    empty always raises, and until then it has only read feeds and
    updated cells: the service never receives an insert. *)
Theorem blank_append_never_inserts svc l ow s :
  Forall (fun v => normalize v = "") l ->
  (exists e, (append svc (InSeq l) ow s).1 = Raise e) /\
  exists evs, trace (append svc (InSeq l) ow s).2 = trace s ++ evs /\
    Forall read_or_update evs.
Proof. intros Hl. by apply append_blank_fails. Qed.

Lemma blank_append_never_inserts_witness :
  (exists e, (append people_service (InSeq [PNone; PStr ""]) true people_sheet).1 = Raise e) /\
  exists evs, trace (append people_service (InSeq [PNone; PStr ""]) true people_sheet).2
              = trace people_sheet ++ evs /\ Forall read_or_update evs.
Proof.
  refine (blank_append_never_inserts people_service [PNone; PStr ""] true people_sheet _).
  repeat constructor.
Defined.

(** ** Further properties: deleting, column tags *)





(** X14. On a loaded worksheet with a header row, the column tags
    that [get_coltags] returns are pairwise different, and there are as
    many as the widest data column, and at least as many as the table
    of blank tags has.  As long as the data are no wider than that
    table, [get_coltags] does return, without changing anything. *)
Theorem coltags_unique_in_table svc s h0 rest :
  has_data (ws s) = true -> _header_rows (ws s) = h0 :: rest -> 1 <= nheaders (ws s) ->
  (forall tags, (get_coltags svc s).1 = Ok tags ->
     NoDup tags /\
     length tags = Z.to_nat (Z.max (_max_col (ws s)) (Z.of_nat (length blank_coltags)))) /\
  (_max_col (ws s) <= Z.of_nat (length blank_coltags) ->
   exists tags, get_coltags svc s = (Ok tags, s)).
Proof.
  intros Hd Hh Hn. split.
  - intros tags Ht. by apply (get_coltags_unique svc s h0 rest).
  - intros Hmc. by apply (get_coltags_narrow svc s h0 rest).
Qed.

Lemma coltags_unique_in_table_witness :
  (forall tags, (get_coltags people_service people_sheet).1 = Ok tags ->
     NoDup tags /\ length tags = 29%nat) /\
  (_max_col (ws people_sheet) <= 29 ->
   exists tags, get_coltags people_service people_sheet = (Ok tags, people_sheet)).
Proof.
  refine (coltags_unique_in_table people_service people_sheet
            {| row := 1; cells := [SCell {| text := "Name"; cell_row := 1; cell_col := 1 |};
                                   SCell {| text := "Age"; cell_row := 1; cell_col := 2 |}] |}
            [] _ _ _).
  - vm_compute. reflexivity.
  - vm_compute. reflexivity.
  - vm_compute. discriminate.
Defined.

(** ** Further properties: documents and worksheets *)

(** X15. [worksheet] with a number [n] from 1 on and neither an
    identifier nor a title returns the [n]th worksheet of the document,
    with the number of header rows asked for when one is given, and
    raises [ValueError] when the document has fewer worksheets. *)
Theorem worksheet_by_number svc k n nh s l s1 :
  1 <= n -> worksheets svc k None s = (Ok l, s1) ->
  worksheet svc k (Some n) None None nh s
  = (match l !! Z.to_nat (n - 1) with
     | Some w => Ok (with_nheaders nh w)
     | None => Raise (ValueError "worksheets matching")
     end, s1).
Proof. apply worksheet_by_num. Qed.

Lemma worksheet_by_number_witness :
  (title <$> match (worksheet book_service "ABC123" (Some 2) None None (Some 3)
                      (fresh_sheet 1)).1 with
             | Ok w => Some w
             | Raise _ => None
             end) = Some (Some "Second").
Proof.
  rewrite (worksheet_by_number book_service "ABC123" 2 (Some 3) (fresh_sheet 1)
             _ _ ltac:(lia) ltac:(vm_compute; reflexivity)).
  vm_compute. reflexivity.
Defined.

(** X16. For the address of a worksheet, made of [https://], a path on
    one line, a slash and a word, [wksht_id] makes no call to the
    service and returns the identifier whose short form is that last
    word. *)
Theorem worksheet_id_from_url svc p id t s :
  lacks newline p -> word id ->
  wksht_id_of svc ("https://" +:+ p +:+ "/" +:+ id) t s
  = (Ok {| full_id := Some ("https://" +:+ p +:+ "/" +:+ id); short_id := Some id |}, s).
Proof. apply wksht_id_of_url. Qed.

Lemma worksheet_id_from_url_witness :
  wksht_id_of doc_service
    "https://spreadsheets.example.com/feeds/worksheets/ABC123/private/full/od6" None
    (fresh_sheet 1)
  = (Ok {| full_id :=
             Some "https://spreadsheets.example.com/feeds/worksheets/ABC123/private/full/od6";
           short_id := Some "od6" |}, fresh_sheet 1).
Proof.
  refine (worksheet_id_from_url doc_service
            "spreadsheets.example.com/feeds/worksheets/ABC123/private/full" "od6" None
            (fresh_sheet 1) _ _).
  - vm_compute. reflexivity.
  - split; [discriminate|vm_compute; reflexivity].
Defined.

(** X17. [add_worksheet] asks the service once for the new worksheet,
    with the key as it was given.  When the service answers with the
    address of the new worksheet, the result is a worksheet for it that
    has not been read yet; but when the service reports fewer rows than
    the header rows asked for, the call raises [ValueError] although
    the worksheet has been added. *)
Theorem add_worksheet_result svc k t r c nh s e p id :
  svc_AddWorksheet svc (trace s) t r c k = Ok e ->
  ws_id e = "https://" +:+ p +:+ "/" +:+ id -> lacks newline p -> word id ->
  add_worksheet svc k t r c nh s
  = (if ws_row_count e <? nh then Raise (ValueError "Fewer rows than specified headers")
     else Ok {| key := k;
                wksht_id := {| full_id := Some (ws_id e); short_id := Some id |};
                title := ws_title e; nheaders := nh;
                _cells_feed := None; _list_feed := None;
                _header_rows := []; _rows := []; _max_col := 0 |},
     {| ws := ws s; trace := trace s ++ [EvAddWorksheet t r c k] |}).
Proof. apply add_worksheet_run. Qed.

Lemma add_worksheet_result_witness :
  add_worksheet book_service "ABC123#gid=0" "New" 1 10 2 (fresh_sheet 1)
  = (Raise (ValueError "Fewer rows than specified headers"),
     {| ws := ws (fresh_sheet 1); trace := [EvAddWorksheet "New" 1 10 "ABC123#gid=0"] |}).
Proof.
  refine (add_worksheet_result book_service "ABC123#gid=0" "New" 1 10 2 (fresh_sheet 1)
            (book_entry "od8" "New" 1)
            "spreadsheets.example.com/feeds/worksheets/ABC123/private/full" "od8" _ _ _ _).
  - reflexivity.
  - reflexivity.
  - vm_compute. reflexivity.
  - split; [discriminate|vm_compute; reflexivity].
Defined.

(** X18. A key without a number sign has no fragment to lose:
    [worksheets] sends it to the service as it is. *)
Theorem plain_key_unchanged svc k titles s :
  lacks "#" k ->
  strip_gid k = k /\
  exists rest, trace (worksheets svc k titles s).2 = trace s ++ EvGetWorksheetsFeed k :: rest.
Proof.
  intros Hk. pose proof (strip_gid_plain k Hk) as Hs. split; [done|].
  destruct (worksheets_first_event svc k titles s) as [rest Hrest].
  exists rest. by rewrite Hs in Hrest.
Qed.

Lemma plain_key_unchanged_witness :
  strip_gid "ABC123" = "ABC123" /\
  exists rest, trace (worksheets doc_service "ABC123" None (fresh_sheet 1)).2
               = trace (fresh_sheet 1) ++ EvGetWorksheetsFeed "ABC123" :: rest.
Proof.
  refine (plain_key_unchanged doc_service "ABC123" None (fresh_sheet 1) _).
  vm_compute. reflexivity.
Defined.

(** ** Further properties: rows and cells *)

(** X19. On a loaded worksheet with a header row, [Row.get] returns
    the default for a key that is neither a header nor a number, and
    otherwise what [row[key]] returns for a column from 0 on: the cell
    of that column, or [None] past the end of the row.  It never raises
    [KeyError], and it changes nothing. *)
Theorem Row_get_default svc s self k d r hrow :
  ready (ws s) -> last (_header_rows (ws s)) = Some hrow ->
  lookup_row (ws s) self = Some r ->
  (forall i, resolve_key (cells hrow) k = Ok i -> 0 <= i) ->
  Row_get svc self k d s
  = (Ok (match resolve_key (cells hrow) k with
         | Ok i => slot_at (cells r) i
         | Raise _ => d
         end), s).
Proof. apply Row_get_run. Qed.

Lemma Row_get_default_witness :
  Row_get people_service (DataRow 0) (KStr "Town") (SStr "?") people_sheet
  = (Ok (SStr "?"), people_sheet).
Proof.
  refine (Row_get_default people_service people_sheet (DataRow 0) (KStr "Town") (SStr "?")
            {| row := 2; cells := [SCell {| text := "Ann"; cell_row := 2; cell_col := 1 |};
                                   SCell {| text := "30"; cell_row := 2; cell_col := 2 |}] |}
            {| row := 1; cells := [SCell {| text := "Name"; cell_row := 1; cell_col := 1 |};
                                   SCell {| text := "Age"; cell_row := 1; cell_col := 2 |}] |}
            _ _ _ _).
  - split; [vm_compute; reflexivity|vm_compute; discriminate].
  - vm_compute. reflexivity.
  - vm_compute. reflexivity.
  - intros i. vm_compute. discriminate.
Defined.

(** X20. On a loaded worksheet with a header row, the column name of a
    cell in a column from 1 on is what the last header row holds in
    that column, and [None] when the header row is shorter; nothing is
    called and nothing changes. *)
Theorem colname_is_header svc s hrow c :
  ready (ws s) -> last (_header_rows (ws s)) = Some hrow -> 1 <= cell_col c ->
  get_colname svc c s = (Ok (slot_at (cells hrow) (cell_col c - 1)), s).
Proof. apply get_colname_run. Qed.

Lemma colname_is_header_witness :
  get_colname people_service {| text := "30"; cell_row := 2; cell_col := 2 |} people_sheet
  = (Ok (SCell {| text := "Age"; cell_row := 1; cell_col := 2 |}), people_sheet).
Proof.
  refine (colname_is_header people_service people_sheet
            {| row := 1; cells := [SCell {| text := "Name"; cell_row := 1; cell_col := 1 |};
                                   SCell {| text := "Age"; cell_row := 1; cell_col := 2 |}] |}
            {| text := "30"; cell_row := 2; cell_col := 2 |} _ _ _).
  - split; [vm_compute; reflexivity|vm_compute; discriminate].
  - vm_compute. reflexivity.
  - vm_compute. discriminate.
Defined.

(** X21. [undo_allcaps] turns into a small letter every capital that
    directly follows a capital and leaves every other character as it
    is; so only the case of letters changes. *)
Theorem undo_allcaps_lowers_followers self :
  undo_allcaps self = string_of_list_ascii (decap false (list_ascii_of_string (text self))) /\
  lower <$> list_ascii_of_string (undo_allcaps self)
  = lower <$> list_ascii_of_string (text self).
Proof.
  pose proof (undo_allcaps_decap self) as H. split; [done|].
  by rewrite H, list_ascii_of_string_of_list_ascii, decap_lower.
Qed.

(** X22. In the result of [undo_allcaps] no capital directly follows a
    capital, and undoing the capitals of a cell with that text changes
    nothing any more. *)
Theorem undo_allcaps_idempotent self :
  calm false (list_ascii_of_string (undo_allcaps self)) = true /\
  undo_allcaps {| text := undo_allcaps self; cell_row := cell_row self;
                  cell_col := cell_col self |}
  = undo_allcaps self.
Proof.
  assert (calm false (list_ascii_of_string (undo_allcaps self)) = true) as Hc.
  { rewrite undo_allcaps_decap, list_ascii_of_string_of_list_ascii. by apply calm_decap. }
  split; [done|].
  rewrite (undo_allcaps_decap {| text := _ |}). cbn [text].
  by rewrite decap_calm, string_of_list_ascii_of_string.
Qed.

(** X23. For an input value that is a HYPERLINK formula after a prefix
    without the letter h, with the address between two quotes of the
    same kind and the rest on the same line, [get_href] returns the
    address, and the cell is a link. *)
Theorem href_of_formula pre q url rest :
  lacks "h" pre -> lacks "H" pre ->
  q = dquote \/ q = squote ->
  lacks q url -> lacks newline url -> lacks newline rest ->
  let v := pre +:+ "HYPERLINK(" +:+ String q (url +:+ String q (rest +:+ ")")) in
  get_href v = Some url /\ is_link v = true.
Proof.
  intros H1 H2 Hq Hu Hn Hr v.
  assert (get_href v = Some url) as Hv by by apply get_href_formula.
  split; [done|]. unfold is_link. by rewrite Hv.
Qed.

Lemma href_of_formula_witness :
  get_href "=HYPERLINK('http://example.com/a','Home')" = Some "http://example.com/a" /\
  is_link "=HYPERLINK('http://example.com/a','Home')" = true.
Proof.
  refine (href_of_formula "=" squote "http://example.com/a" ",'Home'" _ _ _ _ _ _).
  - vm_compute. reflexivity.
  - vm_compute. reflexivity.
  - right. reflexivity.
  - vm_compute. reflexivity.
  - vm_compute. reflexivity.
  - vm_compute. reflexivity.
Defined.
